(** * yetty Python plugin: a shallow embedding of [python.cpp]

    The development follows [src/yetty/plugins/python/python.cpp]:
    the interpreter host ([PythonPlugin]), the script layer
    ([PythonLayer]) and the blit compositor.  C++ objects become records,
    member functions become computations in a state monad over the
    process state, [Result<T>] becomes a sum type.

    CPython, wgpu-native and the host engine are external to the file.
    They enter the model through explicit interfaces:
    - the behaviour of Python code is an [Interp] record (what a given
      chunk of code writes to [sys.stdout]/[sys.stderr], whether it raises,
      how it changes the namespace; what an import and an attribute
      lookup do);
    - GPU object creation follows a scripted device ([Gpu.oracle]) that
      says which of the upcoming creation calls fail;
    - the file system is a finite map from the paths that can be opened
      to files and directories.

    A call that the process does not survive has no result: functions
    that can reach such a point return an [option], [None] standing
    for the call that never returns.

    Embedded are [PythonPlugin::execute], [runFile] and [createLayer],
    and [PythonLayer::init], [dispose], [render], [renderPygfx],
    [createBlitPipeline], [blitRenderTexture], [onKey] and [onChar];
    then the start-up and teardown of the plugin
    ([getPythonPackagesPath], [setupPythonPackages],
    [PythonPlugin::initPython], [init] and [dispose]) over the machine
    around the process, and [PythonLayer::initPygfx].
    [PythonPlugin::create] and the destructors are left out: what they
    do rests on the smart-pointer types of the host engine. *)

From stdpp Require Import base option list strings gmap.
From Stdlib Require Import NArith ZArith Ascii String DecimalString Lia.

Local Open Scope string_scope.
Local Open Scope list_scope.

(* ================================================================== *)
(** * C strings                                                        *)
(* ================================================================== *)

Module CStr.

(** [s.c_str()] handed to a C API, and [std::string = const char*]:
    the callee sees the characters up to the first NUL. *)
Fixpoint c_str (s : string) : string :=
  match s with
  | EmptyString => EmptyString
  | String c r => if Ascii.eqb c Ascii.zero then EmptyString
                  else String c (c_str r)
  end.

(** No NUL character occurs in [s]. *)
Fixpoint nul_free (s : string) : bool :=
  match s with
  | EmptyString => true
  | String c r => negb (Ascii.eqb c Ascii.zero) && nul_free r
  end.

(** [std::string::pop_back] on a non-empty string. *)
Fixpoint pop_back (s : string) : string :=
  match s with
  | EmptyString => EmptyString
  | String c EmptyString => EmptyString
  | String c r => String c (pop_back r)
  end.

(** [s += c]. *)
Definition push_back (s : string) (c : ascii) : string :=
  s +:+ String c EmptyString.

(** [haystack.find(needle) != npos]. *)
Definition mentions (needle haystack : string) : bool :=
  match String.index 0 needle haystack with
  | Some _ => true
  | None => false
  end.

(** ["\n"] *)
Definition LF : string := String (ascii_of_nat 10) EmptyString.

(** Python text ([str]) is kept as the bytes of its UTF-8 form.  A
    lone surrogate (a code point from U+D800 to U+DFFF) has no UTF-8
    form; it is kept as the three bytes [ED], [A0..BF], [80..BF] that
    Python's [surrogatepass] handler gives it.  In the UTF-8 form of
    a text without surrogates the byte [ED] is only ever followed by
    a byte in [80..9F], so the two do not collide. *)
Fixpoint has_surrogate (s : string) : bool :=
  match s with
  | EmptyString => false
  | String a r =>
      match r with
      | EmptyString => false
      | String b _ =>
          ((N_of_ascii a =? 237)%N
           && (160 <=? N_of_ascii b)%N && (N_of_ascii b <=? 191)%N)
          || has_surrogate r
      end
  end.

(** The bytes of the surrogate U+D800. *)
Definition lone_surrogate : string :=
  String (ascii_of_nat 237)
    (String (ascii_of_nat 160) (String (ascii_of_nat 128) EmptyString)).

End CStr.
Export CStr.

(* ================================================================== *)
(** * [Result<T>] and error chaining ([yetty/result.h])                *)
(* ================================================================== *)

Module Res.

(** [Result<T>], [Ok] and [Err] come with the host engine
    ([yetty/result.h]).  An error carries its own message and, when it
    was built from a failed result, the error it wraps. *)
Inductive Error : Type :=
| Msg (msg : string)
| Ctx (msg : string) (prev : Error).

Inductive Result (T : Type) : Type :=
| Ok (v : T)
| Err (e : Error).
Arguments Ok {T} v.
Arguments Err {T} e.

Definition is_ok {T} (r : Result T) : bool :=
  match r with Ok _ => true | Err _ => false end.

(** [Err<T>(msg)]. *)
Definition Err1 {T} (msg : string) : Result T := Err (Msg msg).

(** [Err<T>(msg, res)]: [msg] as context around the error of [res]. *)
Definition Err2 {T U} (msg : string) (res : Result U) : Result T :=
  match res with
  | Err e => Err (Ctx msg e)
  | Ok _ => Err (Msg msg)
  end.

(** The messages of an error chain, outermost first. *)
Fixpoint chain (e : Error) : list string :=
  match e with
  | Msg m => [m]
  | Ctx m p => m :: chain p
  end.

Definition own_msg (e : Error) : string :=
  match e with Msg m | Ctx m _ => m end.

End Res.
Export Res.

(* ================================================================== *)
(** * A state monad for member functions                               *)
(* ================================================================== *)

Module St.

Definition State (S A : Type) : Type := S -> A * S.

Definition ret {S A} (a : A) : State S A := fun s => (a, s).

Definition bind {S A B} (m : State S A) (k : A -> State S B) : State S B :=
  fun s => let '(a, s') := m s in k a s'.

Definition gets {S A} (f : S -> A) : State S A := fun s => (f s, s).

Definition modify {S} (f : S -> S) : State S unit := fun s => (tt, f s).

(** Run a computation on a component of the state. *)
Definition zoom {S T A} (proj : S -> T) (upd : T -> S -> S)
           (m : State T A) : State S A :=
  fun s => let '(a, t) := m (proj s) in (a, upd t s).

End St.
Export St.

Declare Scope st_scope.
Delimit Scope st_scope with st.
Notation "x <- m ;; k" := (bind m (fun x => k))
  (at level 100, m at next level, right associativity) : st_scope.
Notation "m ;;; k" := (bind m (fun _ => k))
  (at level 100, right associativity) : st_scope.
(** A call that the process may not survive returns an [option]:
    [None] when the process ends inside the call, which then never
    returns; the state is the one the process ended in.  The caller
    goes on only with a call that returned. *)
Notation "x <-? m ;; k" :=
  (bind m (fun r => match r with Some x => k | None => ret None end))
  (at level 100, m at next level, right associativity) : st_scope.
Local Open Scope st_scope.

(* ================================================================== *)
(** * GPU objects (wgpu-native and the host's [WebGPUContext])         *)
(* ================================================================== *)

Module Gpu.

(** A non-null handle; a nullable C handle is an [option Handle]. *)
Definition Handle : Type := nat.

Inductive Kind : Type :=
| Sampler | ShaderModule | BindGroupLayout | PipelineLayout
| RenderPipeline | BindGroup | CommandEncoder | SurfaceView
| RenderPass | CommandBuffer.

(** What [python.cpp] has asked of the device, oldest first.  (What
    a script asks of the same device through wgpu-py is not part of
    the log.) *)
Inductive Event : Type :=
| Created (k : Kind) (h : Handle)
| Released (k : Kind) (h : option Handle)
| SetPipeline (pass : Handle) (pipeline : option Handle)
| SetBindGroup (pass : Handle) (index : nat) (group : option Handle)
| Draw (pass : Handle) (vertices instances first_vertex first_instance : nat)
| EndPass (pass : Handle)
| Submit (queue : Handle) (cmd : Handle).

(** The device as [python.cpp] meets it: the next fresh handle, the
    outcomes of its upcoming creation calls, whatever their cause
    ([false]: the call returns null; an exhausted script means
    success), and the log of its calls. *)
Record Device : Type := mkDevice {
  next_handle : Handle;
  oracle : list bool;
  log : list Event
}.

Definition emit (e : Event) : State Device unit :=
  modify (fun d => mkDevice (next_handle d) (oracle d) (log d ++ [e])).

(** Any [wgpu...Create...], [...Begin...], [...Finish] or
    [...Get...Layout] call: a fresh object or null. *)
Definition create (k : Kind) : State Device (option Handle) :=
  fun d =>
    match oracle d with
    | false :: o => (None, mkDevice (next_handle d) o (log d))
    | true :: o =>
        (Some (next_handle d),
         mkDevice (S (next_handle d)) o (log d ++ [Created k (next_handle d)]))
    | [] =>
        (Some (next_handle d),
         mkDevice (S (next_handle d)) [] (log d ++ [Created k (next_handle d)]))
    end.

(** Any [wgpu...Release]. *)
Definition release (k : Kind) (h : option Handle) : State Device unit :=
  emit (Released k h).

(** [WebGPUContext]: the host's device and queue. *)
Record Context : Type := mkContext {
  getDevice : Handle;
  getQueue : Handle
}.

Definition is_draw (e : Event) : bool :=
  match e with Draw _ _ _ _ _ => true | _ => false end.

End Gpu.

(* ================================================================== *)
(** * The GPU handle bridge ([yetty_wgpu.h])                           *)
(* ================================================================== *)

Module Bridge.

(** Modelled from the spec: the bodies of the [yetty_wgpu_*] functions
    declared in [yetty_wgpu.h] are not part of the sources at hand.
    The bridge is a process-wide table of handles (device and queue,
    optional instance and adapter) and owns the off-screen render
    texture view, null until a texture has been created. *)
Record Table : Type := mkTable {
  instance : option Gpu.Handle;
  adapter : option Gpu.Handle;
  device : option Gpu.Handle;
  queue : option Gpu.Handle;
  render_texture_view : option Gpu.Handle
}.

(** Modelled from the spec: [setHandles] replaces the table. *)
Definition yetty_wgpu_set_handles (i a d q : option Gpu.Handle)
  : State Table unit :=
  modify (fun t => mkTable i a d q (render_texture_view t)).

(** Modelled from the spec: [getRenderTextureView] returns the current
    view or a null handle if none exists yet. *)
Definition yetty_wgpu_get_render_texture_view
  : State Table (option Gpu.Handle) :=
  gets render_texture_view.

End Bridge.

(* ================================================================== *)
(** * The embedded interpreter (CPython)                               *)
(* ================================================================== *)

Module Py.

(** The two attributes of [sys] that [execute] rebinds. *)
Inductive StdName : Type := Stdout | Stderr.

(** Stream objects: the two streams of the real process console and
    the in-memory [io.StringIO] objects, numbered by creation. *)
Inductive Stream : Type :=
| RealStdout
| RealStderr
| StringIO (id : nat).

(** References held by the C++ side. *)
Inductive PyObj : Type :=
| Module (name : string)
| Attr (module attr : string).

(** What [PyObject_IsTrue] makes of an object: true, false, or the
    exception that its [__bool__] (or [__len__]) raises. *)
Inductive Truth : Type :=
| Yes
| No
| Raises (trace : string).

(** What running a chunk of code, importing a module or calling a
    function does, as far as this development follows it: the texts
    it writes to [sys.stdout] and [sys.stderr], in order; the
    exception that is pending when it returns (its diagnostic trace);
    the namespace and the bridge table it leaves; what
    [PyObject_IsTrue] makes of the object it returns.  All writes
    precede the exception.  The C API call yields null exactly when
    an exception is pending at its end: CPython checks every call
    result for it (see [result_with_exception_set] below).

    Python code can do more than this: open and write files, drive
    the GPU device through wgpu-py, rebind [sys.stdout], end the
    process ([os._exit], or a [SystemExit] that reaches [PyErr_Print]
    as it is, which it can from [render_frame]), or never return
    ([execute] has no timeout and blocks with it).  Such code has no
    [Outcome].  What is proved below is proved of code that acts
    through the channels above, and no property below says that a
    script leaves the files or the device alone. *)
Record Outcome (NS : Type) : Type := mkOutcome {
  writes : list (StdName * string);
  raised : option string;
  ns_after : NS;
  bridge_after : Bridge.Table;
  truthy : Truth
}.
Arguments mkOutcome {NS}.
Arguments writes {NS}.
Arguments raised {NS}.
Arguments ns_after {NS}.
Arguments bridge_after {NS}.
Arguments truthy {NS}.

(** The language semantics, over namespaces of type [NS].  Each
    entry into the interpreter is given the exception that is pending
    when it is made ([python.cpp] does not clear the indicator after
    a failed import or lookup, and what CPython does when entered
    with one differs between versions), the namespace of [__main__]
    and the bridge table. *)
Record Interp (NS : Type) : Type := mkInterp {
  (** [PyRun_String(code, Py_file_input, d, d)] *)
  run : string -> option string -> NS -> Bridge.Table -> Outcome NS;
  (** [PyImport_ImportModule(name)]: a module that is loaded already
      is looked up, any other is searched for and its top-level code
      run *)
  import_module : string -> option string -> NS -> Bridge.Table -> Outcome NS;
  (** [PyObject_GetAttrString(module, attr)]: whether the attribute is
      found, and the exception pending afterwards (an [AttributeError]
      when it is not) *)
  lookup : string -> string -> option string -> NS -> bool * option string;
  (** [PyObject_CallObject(module.attr, nullptr)] *)
  call : string -> string -> option string -> NS -> Bridge.Table -> Outcome NS
}.
Arguments mkInterp {NS}.
Arguments run {NS}.
Arguments import_module {NS}.
Arguments lookup {NS}.
Arguments call {NS}.

(** The interpreter instance: the [__main__] dictionary, the current
    bindings of [sys.stdout] and [sys.stderr], the contents of the
    [StringIO] objects, what the real console has received on its two
    streams, and the pending exception (its trace). *)
Record Runtime (NS : Type) : Type := mkState {
  main_dict : NS;
  sys_stdout : Stream;
  sys_stderr : Stream;
  heap : list string;
  real_stdout : string;
  real_stderr : string;
  err_indicator : option string
}.
Arguments mkState {NS}.
Arguments main_dict {NS}.
Arguments sys_stdout {NS}.
Arguments sys_stderr {NS}.
Arguments heap {NS}.
Arguments real_stdout {NS}.
Arguments real_stderr {NS}.
Arguments err_indicator {NS}.

Section Streams.
Context {NS : Type}.

Definition sys_get (n : StdName) (st : Runtime NS) : Stream :=
  match n with Stdout => sys_stdout st | Stderr => sys_stderr st end.

(** [PyObject_SetAttrString(sys, "stdout" | "stderr", s)] *)
Definition sys_set (n : StdName) (s : Stream) (st : Runtime NS) : Runtime NS :=
  match n with
  | Stdout => mkState (main_dict st) s (sys_stderr st) (heap st)
                      (real_stdout st) (real_stderr st) (err_indicator st)
  | Stderr => mkState (main_dict st) (sys_stdout st) s (heap st)
                      (real_stdout st) (real_stderr st) (err_indicator st)
  end.

(** [s.write(t)] *)
Definition write_to (s : Stream) (t : string) (st : Runtime NS) : Runtime NS :=
  match s with
  | RealStdout =>
      mkState (main_dict st) (sys_stdout st) (sys_stderr st) (heap st)
              (real_stdout st +:+ t) (real_stderr st) (err_indicator st)
  | RealStderr =>
      mkState (main_dict st) (sys_stdout st) (sys_stderr st) (heap st)
              (real_stdout st) (real_stderr st +:+ t) (err_indicator st)
  | StringIO n =>
      mkState (main_dict st) (sys_stdout st) (sys_stderr st)
              (alter (fun b => b +:+ t) n (heap st))
              (real_stdout st) (real_stderr st) (err_indicator st)
  end.

(** A write through [sys.stdout] or [sys.stderr] goes to whatever
    object the attribute is bound to at that moment. *)
Definition write_std (st : Runtime NS) (w : StdName * string) : Runtime NS :=
  write_to (sys_get (fst w) st) (snd w) st.

Definition do_writes (ws : list (StdName * string)) (st : Runtime NS)
  : Runtime NS :=
  fold_left write_std ws st.

(** [io.StringIO()]: a fresh, empty buffer. *)
Definition new_StringIO (st : Runtime NS) : Stream * Runtime NS :=
  (StringIO (List.length (heap st)),
   mkState (main_dict st) (sys_stdout st) (sys_stderr st)
           (heap st ++ [EmptyString])
           (real_stdout st) (real_stderr st) (err_indicator st)).

(** [s.getvalue()]; only [StringIO] objects have it. *)
Definition getvalue (s : Stream) (st : Runtime NS) : option string :=
  match s with
  | StringIO n => heap st !! n
  | _ => None
  end.

Definition set_pending (e : option string) (st : Runtime NS)
  : Runtime NS :=
  mkState (main_dict st) (sys_stdout st) (sys_stderr st) (heap st)
          (real_stdout st) (real_stderr st) e.

Definition set_main_dict (d : NS) (st : Runtime NS) : Runtime NS :=
  mkState d (sys_stdout st) (sys_stderr st) (heap st)
          (real_stdout st) (real_stderr st) (err_indicator st).

(** CPython checks what a called function hands back
    ([_Py_CheckFunctionResult]): a result delivered while an exception
    is pending is dropped, the call yields null, and the pending
    exception is replaced by a [SystemError] that names it as its
    cause.  This is the trace of that [SystemError] for a
    [StringIO.getvalue] called with the exception of trace [tb] pending
    (the address in the object's name left out). *)
Definition result_with_exception_set (tb : string) : string :=
  tb +:+ LF
     +:+ "The above exception was the direct cause of the following exception:"
     +:+ LF +:+ LF
     +:+ "SystemError: <built-in method getvalue of _io.StringIO object>"
     +:+ " returned a result with an exception set" +:+ LF.

(** [PyErr_Print()]: the pending trace goes to the current
    [sys.stderr] and the indicator is cleared.  (A pending
    [SystemExit], on which CPython leaves the process, is outside
    this model.  [execute] does not meet one: by the time it calls
    [PyErr_Print], the call of [getvalue] has put a [SystemError] in
    the place of whatever the code raised.) *)
Definition err_print (st : Runtime NS) : Runtime NS :=
  match err_indicator st with
  | Some tb => set_pending None (write_to (sys_stderr st) tb st)
  | None => st
  end.

(** [PyErr_Clear()] *)
Definition err_clear (st : Runtime NS) : Runtime NS :=
  set_pending None st.

(** The texts of [ws], concatenated in write order. *)
Definition text_of (ws : list (StdName * string)) : string :=
  fold_right (fun w acc => snd w +:+ acc) EmptyString ws.

Definition is_stdout (w : StdName * string) : bool :=
  match fst w with Stdout => true | Stderr => false end.

(** What [ws] sends to [sys.stdout] alone. *)
Definition stdout_text (ws : list (StdName * string)) : string :=
  text_of (filter (fun w => is_stdout w = true) ws).

(** An entry into the interpreter that does nothing: the lookup of a
    module that is loaded, an empty program. *)
Definition idle (ns : NS) (br : Bridge.Table) : Outcome NS :=
  mkOutcome [] None ns br Yes.

(** The message of the [ModuleNotFoundError] for a module. *)
Definition no_module (name : string) : string :=
  "ModuleNotFoundError: No module named '" +:+ name +:+ "'" +:+ LF.

(** The message of the [AttributeError] for a module attribute. *)
Definition no_attribute (module attr : string) : string :=
  "AttributeError: module '" +:+ module +:+ "' has no attribute '"
    +:+ attr +:+ "'" +:+ LF.

(** An attribute lookup as CPython documents it: a found attribute
    leaves the indicator alone, a missing one leaves the
    [AttributeError]. *)
Definition plain_lookup (found : bool) (module attr : string)
           (pending : option string) : bool * option string :=
  if found then (true, pending) else (false, Some (no_attribute module attr)).

End Streams.

End Py.

(* ================================================================== *)
(** * The process state                                                *)
(* ================================================================== *)

Module Proc.

Inductive Level : Type := info | warn | error.

(** Data members of [PythonPlugin] ([_main_module] and [_main_dict]
    point into the interpreter and are represented there). *)
Record Plugin : Type := mkPlugin {
  _initialized : bool;
  _py_initialized : bool
}.

(** What a path that [std::ifstream] can open leads to: a file the
    process may read, with its content, or a directory. *)
Inductive Node : Type :=
| File (content : string)
| Directory.

(** Everything the member functions can touch: the plugin object,
    the interpreter, the bridge table, the GPU device, the paths on
    disk that can be opened for reading, the log, and the
    function-local static flag of [PythonLayer::render]. *)
Record World (NS : Type) : Type := mkWorld {
  plugin : Plugin;
  py : Py.Runtime NS;
  bridge : Bridge.Table;
  gpu : Gpu.Device;
  fs : gmap string Node;
  spdlog : list (Level * string);
  logged : bool
}.
Arguments mkWorld {NS}.
Arguments plugin {NS}.
Arguments py {NS}.
Arguments bridge {NS}.
Arguments gpu {NS}.
Arguments fs {NS}.
Arguments spdlog {NS}.
Arguments logged {NS}.

Section Lenses.
Context {NS : Type}.

Definition set_py (p : Py.Runtime NS) (w : World NS) : World NS :=
  mkWorld (plugin w) p (bridge w) (gpu w) (fs w) (spdlog w) (logged w).

Definition set_bridge (b : Bridge.Table) (w : World NS) : World NS :=
  mkWorld (plugin w) (py w) b (gpu w) (fs w) (spdlog w) (logged w).

Definition set_gpu (g : Gpu.Device) (w : World NS) : World NS :=
  mkWorld (plugin w) (py w) (bridge w) g (fs w) (spdlog w) (logged w).

Definition on_py {A} (m : State (Py.Runtime NS) A) : State (World NS) A :=
  zoom py set_py m.

Definition on_bridge {A} (m : State Bridge.Table A) : State (World NS) A :=
  zoom bridge set_bridge m.

Definition on_gpu {A} (m : State Gpu.Device A) : State (World NS) A :=
  zoom gpu set_gpu m.

(** [spdlog::info/warn/error(...)], the message already formatted. *)
Definition log_msg (l : Level) (m : string) : State (World NS) unit :=
  modify (fun w => mkWorld (plugin w) (py w) (bridge w) (gpu w) (fs w)
                           (spdlog w ++ [(l, m)]) (logged w)).

(** The function-local [static bool logged] of [PythonLayer::render]. *)
Definition set_logged (b : bool) : State (World NS) unit :=
  modify (fun w => mkWorld (plugin w) (py w) (bridge w) (gpu w) (fs w)
                           (spdlog w) b).

(** What [f.rdbuf()] delivers into a [std::stringstream].  A
    directory opens like a file; the first read fails, the insertion
    sets the fail bit of the string stream and nothing has been
    copied. *)
Definition rdbuf (n : Node) : string :=
  match n with
  | File content => content
  | Directory => EmptyString
  end.

(** [std::ifstream f(path)] followed by [f.good()] / [f.is_open()]:
    [None] when the stream is not open, otherwise what [f.rdbuf()]
    delivers.  The stream is opened through [path.c_str()]. *)
Definition ifstream (path : string) : State (World NS) (option string) :=
  gets (fun w => rdbuf <$> fs w !! c_str path).

End Lenses.

End Proc.

(* ================================================================== *)
(** * The C API calls made by [python.cpp]                             *)
(* ================================================================== *)

Module CPython.
Import Py Proc.

Section WithInterp.
Context {NS : Type} (I : Interp NS).

(** The effect of an [Outcome] on the process: the writes reach the
    objects bound to [sys.stdout]/[sys.stderr], the namespace and the
    bridge table are replaced, and the indicator holds the exception
    the outcome ends with, or nothing. *)
Definition commit (o : Outcome NS) (w : World NS) : World NS :=
  set_bridge (bridge_after o)
    (set_py (set_pending (raised o)
               (set_main_dict (ns_after o)
                  (do_writes (writes o) (py w)))) w).

(** The exception pending in a process. *)
Definition pending (w : World NS) : option string :=
  err_indicator (py w).

(** [PyImport_ImportModule(name)]: the module or null.  A failed
    import leaves its exception pending; the first import of a module
    runs the module's code. *)
Definition PyImport_ImportModule (name : string)
  : State (World NS) (option PyObj) :=
  fun w =>
    let o := import_module I name (pending w) (main_dict (py w)) (bridge w) in
    (match raised o with None => Some (Module name) | Some _ => None end,
     commit o w).

(** The name under which the attributes of an object are looked up:
    a module's own name, and the dotted name of an attribute. *)
Definition path_of (o : PyObj) : string :=
  match o with
  | Module m => m
  | Attr m a => m +:+ "." +:+ a
  end.

(** [PyObject_GetAttrString(o, attr)]: the attribute or null; the
    indicator is as the lookup leaves it. *)
Definition PyObject_GetAttrString (o : PyObj) (attr : string)
  : State (World NS) (option PyObj) :=
  fun w =>
    let '(found, after) :=
      lookup I (path_of o) attr (pending w) (main_dict (py w)) in
    (if found then Some (Attr (path_of o) attr) else None,
     set_py (set_pending after (py w)) w).

(** [PyRun_String(code, Py_file_input, _main_dict, _main_dict)];
    [true] stands for a non-null result. *)
Definition PyRun_String (code : string) : State (World NS) bool :=
  fun w =>
    let o := run I code (pending w) (main_dict (py w)) (bridge w) in
    (match raised o with None => true | Some _ => false end, commit o w).

(** [PyObject_CallObject(f, nullptr)] on a function of a Python
    module: [None] for a null result, otherwise the object, given by
    what [PyObject_IsTrue] makes of it. *)
Definition PyObject_CallObject (f : PyObj) : State (World NS) (option Truth) :=
  fun w =>
    match f with
    | Attr m a =>
        let o := call I m a (pending w) (main_dict (py w)) (bridge w) in
        (match raised o with None => Some (truthy o) | Some _ => None end,
         commit o w)
    | Module _ =>
        (None, set_py (set_pending
                         (Some "TypeError: 'module' object is not callable")
                         (py w)) w)
    end.

(** [PyObject_IsTrue(o)]: 1, 0, or -1 with the exception of the
    object's [__bool__] pending. *)
Definition PyObject_IsTrue (o : Truth) : State (World NS) Z :=
  match o with
  | Yes => ret 1%Z
  | No => ret 0%Z
  | Raises tb => on_py (modify (set_pending (Some tb))) ;;; ret (-1)%Z
  end.

(** [PyUnicode_AsUTF8(o)] on a text: its UTF-8 form, or null when the
    text holds a lone surrogate.  (The [UnicodeEncodeError] that is
    then pending is not recorded: [execute], the one caller, does not
    get as far as reading the indicator.) *)
Definition PyUnicode_AsUTF8 (text : string) : option string :=
  if has_surrogate text then None else Some text.

Definition PyErr_Print : State (World NS) unit :=
  on_py (modify err_print).

Definition PyErr_Clear : State (World NS) unit :=
  on_py (modify err_clear).

Definition sys_getattr (n : StdName) : State (World NS) Stream :=
  gets (fun w => sys_get n (py w)).

Definition sys_setattr (n : StdName) (s : Stream) : State (World NS) unit :=
  on_py (modify (sys_set n s)).

(** [io.StringIO()], for a call made with no exception pending,
    which is how [execute] makes it: the two imports before it have
    succeeded. *)
Definition StringIO_new : State (World NS) Stream :=
  on_py new_StringIO.

(** [PyObject_CallObject(getvalue, nullptr)] on the bound method
    [s.getvalue]: null when an exception is pending at the call (see
    [result_with_exception_set]), otherwise the buffer. *)
Definition StringIO_getvalue (s : Stream) : State (World NS) (option string) :=
  fun w =>
    match err_indicator (py w) with
    | Some tb =>
        (None, set_py (set_pending (Some (result_with_exception_set tb))
                                   (py w)) w)
    | None => (getvalue s (py w), w)
    end.

End WithInterp.

End CPython.

(* ================================================================== *)
(** * [PythonPlugin]                                                   *)
(* ================================================================== *)

Module PythonPlugin.
Import Py Proc CPython.

Section WithInterp.
Context {NS : Type} (I : Interp NS).

(** Modelled from the spec: [isInitialized] is not defined in
    [python.cpp].  It tells whether the interpreter host is still
    alive, that is, the flag [_initialized] that [PythonPlugin::init]
    raises and [PythonPlugin::dispose] lowers. *)
Definition isInitialized : State (World NS) bool :=
  gets (fun w => _initialized (plugin w)).

(** [std::string output; output = p] for a [const char* p]: the
    characters up to the first NUL.  Assigning a null pointer is
    undefined behaviour; the library measures the text with [strlen]
    and the process ends on the null dereference.  [None] stands for
    that. *)
Definition assign_c_str (p : option string) : option string :=
  c_str <$> p.

(** [PythonPlugin::execute] (python.cpp:206-268).  Reference counts
    are not tracked.  [None]: the process has ended inside the call,
    at the assignment of line 246, with the streams still
    redirected. *)
Definition execute (code : string)
  : State (World NS) (option (Result string)) :=
  py_initialized <- gets (fun w => _py_initialized (plugin w)) ;;
  if negb py_initialized then ret (Some (Err1 "Python not initialized")) else
  (* Redirect stdout/stderr to capture output *)
  sys <- PyImport_ImportModule I "sys" ;;
  match sys with
  | None => ret (Some (Err1 "Failed to import sys module"))
  | Some _ =>
  io <- PyImport_ImportModule I "io" ;;
  match io with
  | None => ret (Some (Err1 "Failed to import io module"))
  | Some _ =>
  (* Create StringIO for capturing output *)
  string_io <- StringIO_new ;;
  (* Save original stdout/stderr *)
  old_stdout <- sys_getattr Stdout ;;
  old_stderr <- sys_getattr Stderr ;;
  (* Redirect stdout/stderr to our StringIO *)
  sys_setattr Stdout string_io ;;;
  sys_setattr Stderr string_io ;;;
  (* Execute the code *)
  result <- PyRun_String I (c_str code) ;;
  (* Get captured output *)
  output_obj <- StringIO_getvalue string_io ;;
  output <-? ret (match output_obj with
                  | Some s => assign_c_str (PyUnicode_AsUTF8 s)
                  | None => Some EmptyString
                  end) ;;
  (* Restore stdout/stderr *)
  sys_setattr Stdout old_stdout ;;;
  sys_setattr Stderr old_stderr ;;;
  if negb result then
    PyErr_Print ;;;
    PyErr_Clear ;;;
    ret (Some (Err1 ("Python execution error: " +:+ output)))
  else
    ret (Some (Ok output))
  end
  end.

(** [PythonPlugin::runFile] (python.cpp:270-286). *)
Definition runFile (path : string)
  : State (World NS) (option (Result unit)) :=
  file <- ifstream path ;;
  match file with
  | None => ret (Some (Err1 ("Failed to open Python file: " +:+ path)))
  | Some buffer =>
      result <-? execute buffer ;;
      if negb (is_ok result) then
        ret (Some (Err2 "Failed to execute Python file" result))
      else
        log_msg info ("Python file executed: " +:+ path) ;;;
        ret (Some (Ok tt))
  end.

End WithInterp.

End PythonPlugin.

(* ================================================================== *)
(** * [PythonLayer]                                                    *)
(* ================================================================== *)

Module PythonLayer.
Import Py Proc CPython.

(** Data members of [PythonLayer] as [python.cpp] uses them (the class
    is declared in [python.h]).  The back pointer [_plugin] is not a
    field: every layer is built by [PythonPlugin::createLayer] with
    [this], so it denotes the one plugin of the process state. *)
Record Layer : Type := mkLayer {
  _payload : string;
  _script_path : string;
  _output : string;
  _input_buffer : string;
  _initialized : bool;
  _failed : bool;
  _visible : bool;
  _blit_bind_group : option Gpu.Handle;
  _blit_pipeline : option Gpu.Handle;
  _blit_sampler : option Gpu.Handle;
  _blit_initialized : bool;
  _render_frame_func : option PyObj;
  _pygfx_module : option PyObj;
  _pygfx_initialized : bool;
  _wgpu_handles_set : bool
}.

Definition set_payload (v : string) (l : Layer) : Layer :=
  let '(mkLayer _ b c d e f g h i j k m n o p) := l in
  mkLayer v b c d e f g h i j k m n o p.
Definition set_script_path (v : string) (l : Layer) : Layer :=
  let '(mkLayer a _ c d e f g h i j k m n o p) := l in
  mkLayer a v c d e f g h i j k m n o p.
Definition set_output (v : string) (l : Layer) : Layer :=
  let '(mkLayer a b _ d e f g h i j k m n o p) := l in
  mkLayer a b v d e f g h i j k m n o p.
Definition set_input_buffer (v : string) (l : Layer) : Layer :=
  let '(mkLayer a b c _ e f g h i j k m n o p) := l in
  mkLayer a b c v e f g h i j k m n o p.
Definition set_initialized (v : bool) (l : Layer) : Layer :=
  let '(mkLayer a b c d _ f g h i j k m n o p) := l in
  mkLayer a b c d v f g h i j k m n o p.
Definition set_blit_bind_group (v : option Gpu.Handle) (l : Layer) : Layer :=
  let '(mkLayer a b c d e f g _ i j k m n o p) := l in
  mkLayer a b c d e f g v i j k m n o p.
Definition set_blit_pipeline (v : option Gpu.Handle) (l : Layer) : Layer :=
  let '(mkLayer a b c d e f g h _ j k m n o p) := l in
  mkLayer a b c d e f g h v j k m n o p.
Definition set_blit_sampler (v : option Gpu.Handle) (l : Layer) : Layer :=
  let '(mkLayer a b c d e f g h i _ k m n o p) := l in
  mkLayer a b c d e f g h i v k m n o p.
Definition set_blit_initialized (v : bool) (l : Layer) : Layer :=
  let '(mkLayer a b c d e f g h i j _ m n o p) := l in
  mkLayer a b c d e f g h i j v m n o p.
Definition set_render_frame_func (v : option PyObj) (l : Layer) : Layer :=
  let '(mkLayer a b c d e f g h i j k _ n o p) := l in
  mkLayer a b c d e f g h i j k v n o p.
Definition set_pygfx_module (v : option PyObj) (l : Layer) : Layer :=
  let '(mkLayer a b c d e f g h i j k m _ o p) := l in
  mkLayer a b c d e f g h i j k m v o p.
Definition set_pygfx_initialized (v : bool) (l : Layer) : Layer :=
  let '(mkLayer a b c d e f g h i j k m n _ p) := l in
  mkLayer a b c d e f g h i j k m n v p.
Definition set_wgpu_handles_set (v : bool) (l : Layer) : Layer :=
  let '(mkLayer a b c d e f g h i j k m n o _) := l in
  mkLayer a b c d e f g h i j k m n o v.

(** [std::string::empty] *)
Definition empty (s : string) : bool :=
  match s with EmptyString => true | _ => false end.

Definition is_some {A} (o : option A) : bool :=
  match o with Some _ => true | None => false end.

Section WithInterp.
Context {NS : Type} (I : Interp NS).
(** [Error::message()] is declared in [yetty/result.h]; how it
    renders an error is left open. *)
Context (message : Error -> string).

(** A member function runs on [this] and the process state. *)
Definition Self : Type := Layer * World NS.

Definition this {A} (f : Layer -> A) : State Self A :=
  gets (fun s => f (fst s)).

Definition assign (f : Layer -> Layer) : State Self unit :=
  modify (fun s => (f (fst s), snd s)).

Definition world {A} (m : State (World NS) A) : State Self A :=
  zoom snd (fun w s => (fst s, w)) m.

(** [PythonLayer::init] (python.cpp:299-331). *)
Definition init (payload : string) : State Self (option (Result unit)) :=
  assign (set_payload payload) ;;;
  (* Payload can be a Python script path or inline code *)
  _ <-? (if negb (empty payload) then
     (* Check if it's a file path *)
     test <- world (ifstream payload) ;;
     if is_some test then
       assign (set_script_path payload) ;;;
       (* Execute the script *)
       script_path <- this _script_path ;;
       result <-? world (PythonPlugin.runFile I script_path) ;;
       match result with
       | Err e =>
           assign (set_output ("Error: " +:+ message e)) ;;;
           world (log_msg error
             ("PythonLayer: failed to run script: " +:+ script_path))
       | Ok _ =>
           assign (set_output ("Script executed: " +:+ script_path))
       end ;;;
       ret (Some tt)
     else
       (* Treat as inline code *)
       result <-? world (PythonPlugin.execute I payload) ;;
       match result with
       | Ok out => assign (set_output out)
       | Err e => assign (set_output ("Error: " +:+ message e))
       end ;;;
       ret (Some tt)
   else ret (Some tt)) ;;
  assign (set_initialized true) ;;;
  ret (Some (Ok tt)).

(** [PythonLayer::dispose] (python.cpp:333-376). *)
Definition dispose : State Self (Result unit) :=
  (* Cleanup blit resources first (before Python cleanup) *)
  bg <- this _blit_bind_group ;;
  (if is_some bg then
     world (on_gpu (Gpu.release Gpu.BindGroup bg)) ;;;
     assign (set_blit_bind_group None)
   else ret tt) ;;;
  pl <- this _blit_pipeline ;;
  (if is_some pl then
     world (on_gpu (Gpu.release Gpu.RenderPipeline pl)) ;;;
     assign (set_blit_pipeline None)
   else ret tt) ;;;
  sm <- this _blit_sampler ;;
  (if is_some sm then
     world (on_gpu (Gpu.release Gpu.Sampler sm)) ;;;
     assign (set_blit_sampler None)
   else ret tt) ;;;
  assign (set_blit_initialized false) ;;;
  (* Cleanup pygfx resources (only if Python is still initialized) *)
  alive <- world PythonPlugin.isInitialized ;;
  (if alive then
     rf <- this _render_frame_func ;;
     (if is_some rf then assign (set_render_frame_func None) else ret tt) ;;;
     md <- this _pygfx_module ;;
     match md with
     | Some m =>
         (* Call cleanup *)
         cleanup_func <- world (PyObject_GetAttrString I m "cleanup") ;;
         match cleanup_func with
         | Some f => world (PyObject_CallObject I f) ;;; ret tt
         | None => ret tt
         end ;;;
         assign (set_pygfx_module None)
     | None => ret tt
     end
   else
     (* Python already finalized, just null out pointers *)
     assign (set_render_frame_func None) ;;;
     assign (set_pygfx_module None)) ;;;
  assign (set_pygfx_initialized false) ;;;
  assign (set_wgpu_handles_set false) ;;;
  assign (set_initialized false) ;;;
  ret (Ok tt).

(** [PythonLayer::renderPygfx] (python.cpp:497-514). *)
Definition renderPygfx : State Self bool :=
  pygfx_initialized <- this _pygfx_initialized ;;
  rf <- this _render_frame_func ;;
  match rf with
  | None => ret false
  | Some f =>
      if negb pygfx_initialized then ret false else
      (* Call render_frame() *)
      result <- world (PyObject_CallObject I f) ;;
      match result with
      | None =>
          world PyErr_Print ;;;
          world PyErr_Clear ;;;
          ret false
      | Some obj =>
          (* bool success = PyObject_IsTrue(result): any value but 0,
             the error value -1 included, converts to true *)
          is_true <- world (PyObject_IsTrue obj) ;;
          ret (negb (is_true =? 0)%Z)
      end
  end.

(** [PythonLayer::createBlitPipeline] (python.cpp:516-662).  The
    descriptors passed to the device are not represented, only the
    calls and the handles that flow between them. *)
Definition createBlitPipeline (ctx : Gpu.Context) : State Self bool :=
  blit_initialized <- this _blit_initialized ;;
  if blit_initialized then ret true else
  (* Create sampler *)
  sampler <- world (on_gpu (Gpu.create Gpu.Sampler)) ;;
  assign (set_blit_sampler sampler) ;;;
  if negb (is_some sampler) then
    world (log_msg error "PythonLayer: Failed to create blit sampler") ;;;
    ret false
  else
  shader <- world (on_gpu (Gpu.create Gpu.ShaderModule)) ;;
  if negb (is_some shader) then
    world (log_msg error "PythonLayer: Failed to create blit shader") ;;;
    ret false
  else
  (* Bind group layout *)
  bgl <- world (on_gpu (Gpu.create Gpu.BindGroupLayout)) ;;
  (* Pipeline layout *)
  layout <- world (on_gpu (Gpu.create Gpu.PipelineLayout)) ;;
  (* Render pipeline *)
  pipeline <- world (on_gpu (Gpu.create Gpu.RenderPipeline)) ;;
  assign (set_blit_pipeline pipeline) ;;;
  world (on_gpu (Gpu.release Gpu.ShaderModule shader)) ;;;
  world (on_gpu (Gpu.release Gpu.PipelineLayout layout)) ;;;
  world (on_gpu (Gpu.release Gpu.BindGroupLayout bgl)) ;;;
  if negb (is_some pipeline) then
    world (log_msg error "PythonLayer: Failed to create blit pipeline") ;;;
    ret false
  else
  assign (set_blit_initialized true) ;;;
  world (log_msg info "PythonLayer: Blit pipeline created") ;;;
  ret true.

(** The second half of [PythonLayer::blitRenderTexture]
    (python.cpp:678-752), reached once the view is there and the
    pipeline is built: the bind group for this frame, the render pass,
    the draw and the submission. *)
Definition bindAndDraw (ctx : Gpu.Context) : State Self bool :=
  (* Create bind group (recreate each frame in case texture changed) *)
  old <- this _blit_bind_group ;;
  (if is_some old then
     world (on_gpu (Gpu.release Gpu.BindGroup old)) ;;;
     assign (set_blit_bind_group None)
   else ret tt) ;;;
  (* Get bind group layout from pipeline *)
  bgl <- world (on_gpu (Gpu.create Gpu.BindGroupLayout)) ;;
  bind_group <- world (on_gpu (Gpu.create Gpu.BindGroup)) ;;
  assign (set_blit_bind_group bind_group) ;;;
  world (on_gpu (Gpu.release Gpu.BindGroupLayout bgl)) ;;;
  if negb (is_some bind_group) then
    world (log_msg error "PythonLayer: Failed to create blit bind group") ;;;
    ret false
  else
  (* Create command encoder *)
  encoder <- world (on_gpu (Gpu.create Gpu.CommandEncoder)) ;;
  if negb (is_some encoder) then ret false else
  (* Get current surface texture view *)
  surfaceViewResult <- world (on_gpu (Gpu.create Gpu.SurfaceView)) ;;
  if negb (is_some surfaceViewResult) then
    world (on_gpu (Gpu.release Gpu.CommandEncoder encoder)) ;;;
    ret false
  else
  (* Render pass *)
  pass <- world (on_gpu (Gpu.create Gpu.RenderPass)) ;;
  match pass with
  | None =>
      world (on_gpu (Gpu.release Gpu.CommandEncoder encoder)) ;;;
      ret false
  | Some p =>
      pipeline <- this _blit_pipeline ;;
      group <- this _blit_bind_group ;;
      world (on_gpu (Gpu.emit (Gpu.SetPipeline p pipeline))) ;;;
      world (on_gpu (Gpu.emit (Gpu.SetBindGroup p 0 group))) ;;;
      world (on_gpu (Gpu.emit (Gpu.Draw p 6 1 0 0))) ;;;
      world (on_gpu (Gpu.emit (Gpu.EndPass p))) ;;;
      world (on_gpu (Gpu.release Gpu.RenderPass pass)) ;;;
      cmd <- world (on_gpu (Gpu.create Gpu.CommandBuffer)) ;;
      match cmd with
      | Some c =>
          world (on_gpu (Gpu.emit (Gpu.Submit (Gpu.getQueue ctx) c))) ;;;
          world (on_gpu (Gpu.release Gpu.CommandBuffer cmd))
      | None => ret tt
      end ;;;
      world (on_gpu (Gpu.release Gpu.CommandEncoder encoder)) ;;;
      ret true
  end.

(** [PythonLayer::blitRenderTexture] (python.cpp:664-753); its second
    half is [bindAndDraw]. *)
Definition blitRenderTexture (ctx : Gpu.Context) : State Self bool :=
  (* Get the render texture view *)
  texView <- world (on_bridge Bridge.yetty_wgpu_get_render_texture_view) ;;
  if negb (is_some texView) then ret false else
  (* Create blit pipeline if needed *)
  blit_initialized <- this _blit_initialized ;;
  ready <- (if negb blit_initialized then createBlitPipeline ctx
            else ret true) ;;
  if negb ready then ret false else
  bindAndDraw ctx.

(** [PythonLayer::render] (python.cpp:378-422). *)
Definition render (ctx : Gpu.Context) : State Self (Result unit) :=
  failed <- this _failed ;;
  if failed then ret (Err1 "PythonLayer already failed") else
  visible <- this _visible ;;
  if negb visible then ret (Ok tt) else
  (* Initialize pygfx on first render if not already done *)
  wgpu_handles_set <- this _wgpu_handles_set ;;
  (if negb wgpu_handles_set then
     (* Set WebGPU handles for yetty_wgpu module *)
     world (on_bridge (Bridge.yetty_wgpu_set_handles None None
                         (Some (Gpu.getDevice ctx))
                         (Some (Gpu.getQueue ctx)))) ;;;
     assign (set_wgpu_handles_set true) ;;;
     world (log_msg info "PythonLayer: WebGPU handles set for yetty_wgpu")
   else ret tt) ;;;
  (* Try to get render_frame function if not already cached *)
  cached <- this _render_frame_func ;;
  (if negb (is_some cached) then
     md <- world (PyImport_ImportModule I "yetty_pygfx") ;;
     assign (set_pygfx_module md) ;;;
     match md with
     | Some m =>
         rf <- world (PyObject_GetAttrString I m "render_frame") ;;
         assign (set_render_frame_func rf) ;;;
         if is_some rf then
           assign (set_pygfx_initialized true) ;;;
           world (log_msg info "PythonLayer: yetty_pygfx.render_frame cached")
         else ret tt
     | None => ret tt
     end
   else ret tt) ;;;
  (* If pygfx is initialized, render it *)
  pygfx_initialized <- this _pygfx_initialized ;;
  rf <- this _render_frame_func ;;
  (if pygfx_initialized && is_some rf then
     pygfx_ok <- renderPygfx ;;
     blit_ok <- blitRenderTexture ctx ;;
     (* Log first successful frame *)
     was_logged <- world (gets logged) ;;
     if negb was_logged && pygfx_ok && blit_ok then
       world (log_msg info
         "PythonLayer: First frame rendered and blitted successfully") ;;;
       world (set_logged true)
     else ret tt
   else ret tt) ;;;
  ret (Ok tt).

(** [PythonLayer::onKey] (python.cpp:755-784); [key], [scancode],
    [action] and [mods] are C [int]s. *)
Definition onKey (key scancode action mods : Z) : State Self (option bool) :=
  if negb (action =? 1)%Z then ret (Some false) else (* GLFW_PRESS only *)
  input_buffer <- this _input_buffer ;;
  (* Enter key - execute input buffer *)
  if (key =? 257)%Z && negb (empty input_buffer) then
    result <-? world (PythonPlugin.execute I input_buffer) ;;
    output <- this _output ;;
    match result with
    | Ok out =>
        assign (set_output
          (output +:+ ">>> " +:+ input_buffer +:+ LF +:+ out))
    | Err e =>
        assign (set_output
          (output +:+ ">>> " +:+ input_buffer +:+ LF +:+ "Error: "
                  +:+ message e +:+ LF))
    end ;;;
    assign (set_input_buffer EmptyString) ;;;
    ret (Some true)
  else
  (* Backspace - remove last character *)
  if (key =? 259)%Z && negb (empty input_buffer) then
    assign (set_input_buffer (pop_back input_buffer)) ;;;
    ret (Some true)
  else
    ret (Some false).

(** [PythonLayer::onChar] (python.cpp:786-792); [codepoint] is an
    [unsigned int]. *)
Definition onChar (codepoint : N) : State Self bool :=
  if (codepoint <? 128)%N then
    input_buffer <- this _input_buffer ;;
    assign (set_input_buffer
              (push_back input_buffer (ascii_of_N codepoint))) ;;;
    ret true
  else
    ret false.

End WithInterp.

End PythonLayer.

(* ================================================================== *)
(** * [PythonPlugin::createLayer]                                      *)
(* ================================================================== *)

Module LayerFactory.
Import Py Proc.

Section WithInterp.
Context {NS : Type} (I : Interp NS) (message : Error -> string).

(** [PythonPlugin::createLayer] (python.cpp:197-204).  It is placed
    after [PythonLayer] because it builds one.  [fresh] is the layer
    as the constructor leaves it; the default member initialisers are
    in [python.h]. *)
Definition createLayer (fresh : PythonLayer.Layer) (payload : string)
  : State (World NS) (option (Result PythonLayer.Layer)) :=
  fun w =>
    let '(returned, (layer, w')) :=
      PythonLayer.init I message payload (fresh, w) in
    (match returned with
     | Some result =>
         Some (if negb (is_ok result)
               then Err2 "Failed to init PythonLayer" result
               else Ok layer)
     | None => None
     end,
     w').

End WithInterp.

End LayerFactory.

(* ================================================================== *)
(** * Vocabulary of the properties                                     *)
(* ================================================================== *)

Module Spec.
Import Py Proc CPython PythonLayer.

(** Printable ASCII: the codes from space to tilde. *)
Definition printable_ascii (codepoint : N) : bool :=
  (32 <=? codepoint)%N && (codepoint <=? 126)%N.

(** The creation calls of one blit whose pipeline is built, in order:
    bind group layout, bind group, command encoder, surface view,
    render pass.  [true] when the device script refuses the bind group,
    the encoder, the surface view or the pass (the result of the layout
    call is not tested by the code). *)
Definition creation_fails (o : list bool) : bool :=
  match o with
  | _ :: false :: _ => true
  | _ :: true :: false :: _ => true
  | _ :: true :: true :: false :: _ => true
  | _ :: true :: true :: true :: false :: _ => true
  | _ => false
  end.

Definition is_teardown (e : Gpu.Event) : bool :=
  match e with
  | Gpu.Released Gpu.RenderPipeline _ => true
  | Gpu.Released Gpu.Sampler _ => true
  | _ => false
  end.

(** What [dispose] has to release for a layer: the blit objects it
    holds, bind group first, then pipeline, then sampler. *)
Definition releases_of (l : Layer) : list Gpu.Event :=
  (if is_some (_blit_bind_group l)
   then [Gpu.Released Gpu.BindGroup (_blit_bind_group l)] else [])
  ++ (if is_some (_blit_pipeline l)
      then [Gpu.Released Gpu.RenderPipeline (_blit_pipeline l)] else [])
  ++ (if is_some (_blit_sampler l)
      then [Gpu.Released Gpu.Sampler (_blit_sampler l)] else []).

(** A layer after [dispose]: no blit handle, no Python reference, all
    the initialisation flags down; texts, [_failed] and [_visible] as
    before. *)
Definition disposed (l : Layer) : Layer :=
  mkLayer (_payload l) (_script_path l) (_output l) (_input_buffer l)
          false (_failed l) (_visible l) None None None false None None
          false false.

Section WithInterp.
Context {NS : Type} (I : Interp NS) (message : Error -> string).

(** The module [name] is loaded: importing it with no exception
    pending finds it and does nothing else. *)
Definition loaded (name : string) (w : World NS) : Prop :=
  let o := import_module I name None (main_dict (py w)) (bridge w) in
  writes o = [] /\ raised o = None
  /\ ns_after o = main_dict (py w) /\ bridge_after o = bridge w.

(** The interpreter is up, [sys] and [io] are loaded, and no exception
    is pending. *)
Definition ready (w : World NS) : Prop :=
  _py_initialized (plugin w) = true
  /\ loaded "sys" w
  /\ loaded "io" w
  /\ err_indicator (py w) = None.

(** The process after the first and after the second import
    [execute] makes. *)
Definition sys_imported (w : World NS) : World NS :=
  commit (import_module I "sys" (pending w) (main_dict (py w)) (bridge w)) w.

Definition io_imported (w : World NS) : World NS :=
  let w1 := sys_imported w in
  commit (import_module I "io" (pending w1) (main_dict (py w1)) (bridge w1))
         w1.

(** What the interpreter does with the code [execute] hands it, on a
    ready interpreter. *)
Definition outcome_of (code : string) (w : World NS) : Outcome NS :=
  run I (c_str code) None (main_dict (py w)) (bridge w).

(** The process after a call of [execute] that reached the
    interpreter: the namespace and bridge are those the code left,
    [sys.stdout] and [sys.stderr] are bound as before the call, one
    more [StringIO] holds the captured text, no exception is
    pending, and the diagnostic for the exception, if any, has gone
    to the restored [sys.stderr]. *)
Definition after_execute (code : string) (w : World NS) : World NS :=
  let o := outcome_of code w in
  let p := py w in
  let p1 := mkState (ns_after o) (sys_stdout p) (sys_stderr p)
                    (heap p ++ [text_of (writes o)])
                    (real_stdout p) (real_stderr p) None in
  set_bridge (bridge_after o)
    (set_py (match raised o with
             | Some tb =>
                 write_to (sys_stderr p) (result_with_exception_set tb) p1
             | None => p1
             end) w).

(** What [execute] returns once it has reached the interpreter;
    [None] when it does not return: the code has raised nothing and
    the captured text holds a lone surrogate. *)
Definition result_of_execute (code : string) (w : World NS)
  : option (Result string) :=
  match raised (outcome_of code w) with
  | None =>
      if has_surrogate (text_of (writes (outcome_of code w))) then None
      else Some (Ok (c_str (text_of (writes (outcome_of code w)))))
  | Some _ => Some (Err1 "Python execution error: ")
  end.

(** The process in which [execute] leaves off when it does not
    return: the code has run, [sys.stdout] and [sys.stderr] are still
    bound to the [StringIO] that holds the captured text. *)
Definition cut_short (code : string) (w : World NS) : World NS :=
  let o := outcome_of code w in
  let p := py w in
  set_bridge (bridge_after o)
    (set_py (mkState (ns_after o) (StringIO (List.length (heap p)))
                     (StringIO (List.length (heap p)))
                     (heap p ++ [text_of (writes o)])
                     (real_stdout p) (real_stderr p) None) w).

(** The process in which a call of [execute] that reached the
    interpreter ends. *)
Definition process_after (code : string) (w : World NS) : World NS :=
  match result_of_execute code w with
  | Some _ => after_execute code w
  | None => cut_short code w
  end.

(** What [init] leaves in [_output], case by case; when the process
    ends inside the call, what was there. *)
Definition output_after_init (payload : string) (L : Layer) (w : World NS)
  : string :=
  if empty payload then _output L else
  match fs w !! c_str payload with
  | Some _ =>
      match fst (PythonPlugin.runFile I payload w) with
      | Some (Err e) => "Error: " +:+ message e
      | Some (Ok _) => "Script executed: " +:+ payload
      | None => _output L
      end
  | None =>
      match fst (PythonPlugin.execute I payload w) with
      | Some (Ok out) => out
      | Some (Err e) => "Error: " +:+ message e
      | None => _output L
      end
  end.

(** "Executes the payload as inline code": the payload goes to
    [execute] and its captured output, or the error text, becomes
    the layer's output. *)
Definition init_inline (payload : string)
  : State (Self (NS:=NS)) (option (Result unit)) :=
  assign (set_payload payload) ;;;
  result <-? world (PythonPlugin.execute I payload) ;;
  match result with
  | Ok out => assign (set_output out)
  | Err e => assign (set_output ("Error: " +:+ message e))
  end ;;;
  assign (set_initialized true) ;;;
  ret (Some (Ok tt)).

End WithInterp.

End Spec.

(* ================================================================== *)
(** * A small test double for the interpreter                          *)
(* ================================================================== *)

Module Demo.
Import Py Proc PythonLayer.

(** ["x = 21\nprint(x*2)\n"] *)
Definition inline_42 : string := "x = 21" +:+ LF +:+ "print(x*2)" +:+ LF.

(** A script that writes to both standard streams. *)
Definition both_streams : string :=
  "import sys" +:+ LF +:+ "sys.stdout.write('a')" +:+ LF
               +:+ "sys.stderr.write('b')" +:+ LF.

(** A script that prints a text with a NUL character in it. *)
Definition print_nul : string := "print('a\x00b')" +:+ LF.

(** A script that prints, then raises. *)
Definition print_then_raise : string :=
  "print('so far')" +:+ LF +:+ "raise ValueError('boom')" +:+ LF.

(** A script that prints a lone surrogate. *)
Definition print_surrogate : string := "print('\ud800')" +:+ LF.

Definition quiet (ns : list (string * string)) (br : Bridge.Table)
  : Outcome (list (string * string)) :=
  mkOutcome [] None ns br No.

(** The behaviour of a handful of programs, as CPython runs them with
    no exception pending (of a trace, the last line only); the
    namespace lists the global names with a rendering of their
    values.  Every other chunk of code is taken to do nothing.  The
    modules [sys] and [io] are loaded, no other module is found, and
    no module has an attribute. *)
Definition python : Interp (list (string * string)) :=
  mkInterp
    (fun code _ ns br =>
       if String.eqb code inline_42 then
         mkOutcome [(Stdout, "42" +:+ LF)] None (("x", "21") :: ns) br No
       else if String.eqb code "hi" then
         mkOutcome [] (Some ("NameError: name 'hi' is not defined" +:+ LF))
                   ns br No
       else if String.eqb code both_streams then
         mkOutcome [(Stdout, "a"); (Stderr, "b")] None ns br No
       else if String.eqb code print_nul then
         mkOutcome [(Stdout, "a" +:+ String Ascii.zero "b" +:+ LF)]
                   None ns br No
       else if String.eqb code print_surrogate then
         mkOutcome [(Stdout, lone_surrogate +:+ LF)] None ns br No
       else if String.eqb code print_then_raise then
         mkOutcome [(Stdout, "so far" +:+ LF)]
                   (Some ("ValueError: boom" +:+ LF)) ns br No
       else if String.eqb code "1/0" then
         mkOutcome [] (Some ("ZeroDivisionError: division by zero" +:+ LF))
                   ns br No
       else if String.eqb code "/tmp" then
         mkOutcome [] (Some ("SyntaxError: invalid syntax" +:+ LF)) ns br No
       else quiet ns br)
    (fun name _ ns br =>
       if String.eqb name "sys" || String.eqb name "io" then idle ns br
       else mkOutcome [] (Some (no_module name)) ns br No)
    (fun m a p _ => plain_lookup false m a p)
    (fun _ _ _ ns br => quiet ns br).

(** [Error::message()] taken as the error's own message. *)
Definition message : Error -> string := own_msg.

(** A freshly initialised interpreter attached to the console. *)
Definition runtime : Runtime (list (string * string)) :=
  mkState [] RealStdout RealStderr [] EmptyString EmptyString None.

Definition no_bridge : Bridge.Table := Bridge.mkTable None None None None None.

Definition device : Gpu.Device := Gpu.mkDevice 1 [] [].

Definition ctx : Gpu.Context := Gpu.mkContext 100 101.

(** One readable file, whose content divides by zero, and the
    directory it is in. *)
Definition files : gmap string Node :=
  {[ "/tmp/boom.py" := File "1/0"; "/tmp" := Directory ]}.

Definition world : World (list (string * string)) :=
  mkWorld (mkPlugin true true) runtime no_bridge device files [] false.

(** The same process after the plugin has been disposed. *)
Definition world_disposed : World (list (string * string)) :=
  mkWorld (mkPlugin false false) runtime no_bridge device files [] false.

(** A layer as the constructor leaves it, visible and not failed. *)
Definition layer : Layer :=
  mkLayer EmptyString EmptyString EmptyString EmptyString
          false false true None None None false None None
          false false.

(** A layer whose sticky failure flag is set. *)
Definition failed_layer : Layer :=
  mkLayer EmptyString EmptyString EmptyString EmptyString
          true true true None None None false None None
          false false.

(** A layer that has rendered before: its blit pipeline (handle 7),
    sampler (8) and last bind group (9) exist. *)
Definition blitting_layer : Layer :=
  mkLayer EmptyString EmptyString EmptyString EmptyString
          true false true (Some 9) (Some 7) (Some 8) true
          (Some (Attr "yetty_pygfx" "render_frame"))
          (Some (Module "yetty_pygfx")) true true.

(** A bridge whose render texture view (handle 5) exists. *)
Definition bridge_ready : Bridge.Table :=
  Bridge.mkTable None None (Some 100) (Some 101) (Some 5).

(** A process in which the bridge is ready and the device will refuse
    the bind group (the second creation call of a blit). *)
Definition world_bind_group_fails : World (list (string * string)) :=
  mkWorld (mkPlugin true true) runtime bridge_ready
          (Gpu.mkDevice 10 [true; false] []) files [] false.

End Demo.

(* ================================================================== *)
(** * The machine around the process: environment, disk and shell      *)
(* ================================================================== *)

Module Host.
Import Py Proc.

(** The calls that start and stop the interpreter. *)
Inductive Lifecycle : Type := Started | Finalized.

(** What interpreter start-up reads and changes besides the process
    state: the environment variables, the paths that exist on disk
    (directories and files alike), the command lines handed to the
    shell, oldest first, and the starts and stops of the interpreter. *)
Record Machine (NS : Type) : Type := mkMachine {
  proc : World NS;
  environ : gmap string string;
  on_disk : gset string;
  shell : list string;
  lifecycle : list Lifecycle
}.
Arguments mkMachine {NS}.
Arguments proc {NS}.
Arguments environ {NS}.
Arguments on_disk {NS}.
Arguments shell {NS}.
Arguments lifecycle {NS}.

(** What the platform answers to the calls start-up makes: the exit
    status of a shell command and the paths on disk once it has run,
    whether each step of bringing up CPython succeeds, the namespace
    of [__main__] in a fresh interpreter, the version text. *)
Record Platform (NS : Type) : Type := mkPlatform {
  (** [std::system(cmd)] *)
  system : string -> gset string -> Z * gset string;
  (** [PyImport_AppendInittab(...) != -1] *)
  PyImport_AppendInittab : bool;
  (** [!PyStatus_Exception(PyConfig_SetString(...))] *)
  PyConfig_SetString : bool;
  (** [Py_InitializeFromConfig(&config)]: [None] for an exception
      status *)
  Py_InitializeFromConfig : option NS;
  (** [PyImport_AddModule("__main__") != nullptr] *)
  PyImport_AddModule : bool;
  (** [PyModule_GetDict(_main_module) != nullptr] *)
  PyModule_GetDict : bool;
  Py_GetVersion : string
}.
Arguments mkPlatform {NS}.
Arguments system {NS}.
Arguments PyImport_AppendInittab {NS}.
Arguments PyConfig_SetString {NS}.
Arguments Py_InitializeFromConfig {NS}.
Arguments PyImport_AddModule {NS}.
Arguments PyModule_GetDict {NS}.
Arguments Py_GetVersion {NS}.

(** The directories [fs::create_directories(p)] makes sure of: [p]
    and every proper prefix of [p] that ends before a ['/'].  [seen]
    is the part of the path already read. *)
Fixpoint directories_from (seen rest : string) : list string :=
  match rest with
  | EmptyString => if PythonLayer.empty seen then [] else [seen]
  | String c r =>
      (if Ascii.eqb c "/" && negb (PythonLayer.empty seen)
       then [seen] else [])
      ++ directories_from (push_back seen c) r
  end.

Definition directories_of (p : string) : list string :=
  directories_from EmptyString p.

Section Calls.
Context {NS : Type}.

Definition set_proc (w : World NS) (m : Machine NS) : Machine NS :=
  mkMachine w (environ m) (on_disk m) (shell m) (lifecycle m).

Definition on_proc {A} (c : State (World NS) A) : State (Machine NS) A :=
  zoom proc set_proc c.

(** [std::getenv(name)]: a C string or null. *)
Definition getenv (name : string) : State (Machine NS) (option string) :=
  gets (fun m => c_str <$> environ m !! name).

(** [setenv(name, value, 1)] *)
Definition setenv (name value : string) : State (Machine NS) unit :=
  modify (fun m => mkMachine (proc m) (<[name := c_str value]> (environ m))
                             (on_disk m) (shell m) (lifecycle m)).

(** [fs::exists(p)] *)
Definition fs_exists (p : string) : State (Machine NS) bool :=
  gets (fun m => bool_decide (elem_of (c_str p) (on_disk m))).

(** [fs::create_directories(p)], taken not to throw. *)
Definition create_directories (p : string) : State (Machine NS) unit :=
  modify (fun m =>
            mkMachine (proc m) (environ m)
                      (union (on_disk m)
                             (list_to_set (directories_of (c_str p))))
                      (shell m) (lifecycle m)).

(** [std::system(cmd)]: the command line is recorded, the disk is as
    the command leaves it, the result is the exit status. *)
Definition std_system (P : Platform NS) (cmd : string)
  : State (Machine NS) Z :=
  fun m =>
    let '(status, disk) := system P cmd (on_disk m) in
    (status, mkMachine (proc m) (environ m) disk (shell m ++ [cmd])
                       (lifecycle m)).

Definition note (e : Lifecycle) : State (Machine NS) unit :=
  modify (fun m => mkMachine (proc m) (environ m) (on_disk m) (shell m)
                             (lifecycle m ++ [e])).

(** A step that leaves the plugin flags, the environment, the disk,
    the shell and the interpreter's starts and stops alone, and at
    most adds to the log. *)
Definition quiet_step (m m' : Machine NS) : Prop :=
  plugin (proc m') = plugin (proc m)
  /\ environ m' = environ m
  /\ on_disk m' = on_disk m
  /\ shell m' = shell m
  /\ lifecycle m' = lifecycle m
  /\ exists t, spdlog (proc m') = spdlog (proc m) ++ t.

End Calls.

End Host.

(* ================================================================== *)
(** * Bringing the interpreter up and down                             *)
(* ================================================================== *)

Module PluginLifecycle.
Import Py Proc CPython Host.

Section WithPlatform.
Context {NS : Type} (I : Interp NS) (P : Platform NS).
(** The build directory, a compile-time string. *)
Context (CMAKE_BINARY_DIR : string).

(** [getPythonPackagesPath] (python.cpp:27-37). *)
Definition getPythonPackagesPath : State (Machine NS) string :=
  (* Use XDG_CACHE_HOME/yetty/python-packages
     (defaults to ~/.cache/yetty/python-packages) *)
  cacheHome <- getenv "XDG_CACHE_HOME" ;;
  match cacheHome with
  | Some (String c r) => ret (String c r +:+ "/yetty/python-packages")
  | _ =>
      home <- getenv "HOME" ;;
      let home := match home with Some h => h | None => "/tmp" end in
      ret (home +:+ "/.cache/yetty/python-packages")
  end.

(** The command line [setupPythonPackages] builds (python.cpp:54-57). *)
Definition installCmd (pkgPath : string) : string :=
  let pythonDir := CMAKE_BINARY_DIR +:+ "/python/install" in
  let ldPath := "LD_LIBRARY_PATH=" +:+ pythonDir
                +:+ "/lib:$LD_LIBRARY_PATH " in
  let embeddedPip := pythonDir +:+ "/bin/python3 -m pip" in
  ldPath +:+ embeddedPip +:+ " install --target=" +:+ pkgPath
         +:+ " --quiet pygfx fastplotlib wgpu glfw pillow imageio 2>&1".

(** [setupPythonPackages] (python.cpp:39-67). *)
Definition setupPythonPackages : State (Machine NS) bool :=
  pkgPath <- getPythonPackagesPath ;;
  (* Check if packages already exist (check for pygfx directory) *)
  present <- fs_exists (pkgPath +:+ "/pygfx") ;;
  if present then
    on_proc (log_msg info ("Python packages ready at " +:+ pkgPath)) ;;;
    ret true
  else
  (* Create the directory *)
  on_proc (log_msg info ("Installing pygfx and fastplotlib to "
                         +:+ pkgPath +:+ "...")) ;;;
  create_directories pkgPath ;;;
  on_proc (log_msg info ("Running: " +:+ installCmd pkgPath)) ;;;
  status <- std_system P (c_str (installCmd pkgPath)) ;;
  if negb (status =? 0)%Z then
    on_proc (log_msg error "Failed to install Python packages") ;;;
    ret false
  else
    on_proc (log_msg info "Python packages installed successfully") ;;;
    ret true.

Definition set_py_initialized (b : bool) : State (World NS) unit :=
  modify (fun w => mkWorld (mkPlugin (_initialized (plugin w)) b)
                           (py w) (bridge w) (gpu w) (fs w) (spdlog w)
                           (logged w)).

Definition set_plugin_initialized (b : bool) : State (World NS) unit :=
  modify (fun w => mkWorld (mkPlugin b (_py_initialized (plugin w)))
                           (py w) (bridge w) (gpu w) (fs w) (spdlog w)
                           (logged w)).

(** A fresh interpreter: [__main__] as the platform sets it up, the
    standard streams on the console, nothing pending.  What the
    console has received so far stays. *)
Definition fresh_runtime (ns : NS) (old : Runtime NS) : Runtime NS :=
  mkState ns RealStdout RealStderr [] (real_stdout old) (real_stderr old)
          None.

(** [Py_InitializeFromConfig(&config)]; [true] unless the status is
    an exception. *)
Definition initialize : State (Machine NS) bool :=
  match Py_InitializeFromConfig P with
  | Some ns =>
      on_proc (on_py (modify (fresh_runtime ns))) ;;;
      note Started ;;;
      ret true
  | None => ret false
  end.

(** [Py_Finalize()] *)
Definition Py_Finalize : State (Machine NS) unit := note Finalized.

(** [PyRun_SimpleString(code)]: the code runs in [__main__]; an
    exception is printed and cleared.  The result is not looked at. *)
Definition PyRun_SimpleString (code : string) : State (World NS) unit :=
  ok <- PyRun_String I code ;;
  if negb ok then PyErr_Print else ret tt.

(** The statement that puts [dir] in front of [sys.path]. *)
Definition path_insert (dir : string) : string :=
  "import sys; sys.path.insert(0, '" +:+ dir +:+ "')".

(** [PythonPlugin::initPython] (python.cpp:101-171). *)
Definition initPython : State (Machine NS) (Result unit) :=
  py_initialized <- on_proc (gets (fun w => _py_initialized (plugin w))) ;;
  if py_initialized then ret (Ok tt) else
  (* Set YETTY_WGPU_LIB_PATH so wgpu-py uses the same wgpu-native as
     yetty.  This MUST be done before any Python/wgpu imports *)
  let wgpuLibPath :=
    CMAKE_BINARY_DIR +:+ "/_deps/wgpu-native/lib/libwgpu_native.so" in
  setenv "YETTY_WGPU_LIB_PATH" wgpuLibPath ;;;
  on_proc (log_msg info ("Set YETTY_WGPU_LIB_PATH=" +:+ wgpuLibPath)) ;;;
  (* Register yetty_wgpu as a built-in module BEFORE Py_Initialize *)
  if negb (PyImport_AppendInittab P) then
    ret (Err1 "Failed to register yetty_wgpu module")
  else
  (* Set program name *)
  if negb (PyConfig_SetString P) then
    ret (Err1 "Failed to set Python program name")
  else
  (* Initialize Python *)
  started <- initialize ;;
  if negb started then
    ret (Err1 "Failed to initialize Python interpreter")
  else
  (* Get main module and its dictionary *)
  if negb (PyImport_AddModule P) then
    Py_Finalize ;;;
    ret (Err1 "Failed to get Python __main__ module")
  else
  if negb (PyModule_GetDict P) then
    Py_Finalize ;;;
    ret (Err1 "Failed to get Python __main__ dict")
  else
  on_proc (set_py_initialized true) ;;;
  on_proc (log_msg info ("Python " +:+ Py_GetVersion P
                         +:+ " interpreter initialized")) ;;;
  (* Add packages directory to sys.path *)
  pkgPath <- getPythonPackagesPath ;;
  present <- fs_exists pkgPath ;;
  (if present then
     on_proc (PyRun_SimpleString (c_str (path_insert pkgPath))) ;;;
     on_proc (log_msg info ("Added Python packages to path: " +:+ pkgPath))
   else ret tt) ;;;
  (* Also add the yetty_pygfx module path *)
  let pygfxPath := CMAKE_BINARY_DIR +:+ "/python" in
  present <- fs_exists pygfxPath ;;
  (if present then
     on_proc (PyRun_SimpleString (c_str (path_insert pygfxPath)))
   else ret tt) ;;;
  ret (Ok tt).

(** [PythonPlugin::init] (python.cpp:85-99). *)
Definition init : State (Machine NS) (Result unit) :=
  (* Setup packages with pygfx/fastplotlib *)
  ok <- setupPythonPackages ;;
  (if negb ok then
     on_proc (log_msg warn
       "Failed to setup Python packages - pygfx features may not work")
   else ret tt) ;;;
  result <- initPython ;;
  if negb (is_ok result) then ret result else
  on_proc (set_plugin_initialized true) ;;;
  on_proc (log_msg info "PythonPlugin initialized") ;;;
  ret (Ok tt).

(** What bringing up the interpreter comes to, step by step: the
    error of the first step the platform refuses. *)
Definition boot_result : Result unit :=
  if negb (PyImport_AppendInittab P) then
    Err1 "Failed to register yetty_wgpu module"
  else if negb (PyConfig_SetString P) then
    Err1 "Failed to set Python program name"
  else if negb (PythonLayer.is_some (Py_InitializeFromConfig P)) then
    Err1 "Failed to initialize Python interpreter"
  else if negb (PyImport_AddModule P) then
    Err1 "Failed to get Python __main__ module"
  else if negb (PyModule_GetDict P) then
    Err1 "Failed to get Python __main__ dict"
  else Ok tt.

(** The starts and stops of the interpreter that go with it: an
    interpreter that was started and cannot deliver [__main__] is
    stopped again. *)
Definition boot_lifecycle : list Lifecycle :=
  if PyImport_AppendInittab P && PyConfig_SetString P
     && PythonLayer.is_some (Py_InitializeFromConfig P)
  then if PyImport_AddModule P && PyModule_GetDict P
       then [Started] else [Started; Finalized]
  else [].

(** [yetty_wgpu_cleanup] is declared in [yetty_wgpu.h]; its body is
    not part of the sources at hand. *)
Context (yetty_wgpu_cleanup : State (World NS) unit).

(** [Plugin::dispose()] of the base class is the host engine's; it
    disposes the layers of the plugin. *)
Context (Plugin_dispose : State (World NS) (Result unit)).

(** [PythonPlugin::dispose] (python.cpp:173-195). *)
Definition dispose : State (World NS) (Result unit) :=
  (* Dispose layers first *)
  res <- Plugin_dispose ;;
  if negb (is_ok res) then
    ret (Err2 "Failed to dispose PythonPlugin base" res)
  else
  (* Cleanup yetty_wgpu resources *)
  yetty_wgpu_cleanup ;;;
  (* Py_Finalize() is intentionally not called here *)
  py_initialized <- gets (fun w => _py_initialized (plugin w)) ;;
  (if py_initialized then
     set_py_initialized false ;;;
     log_msg info "Python interpreter cleanup complete"
   else ret tt) ;;;
  set_plugin_initialized false ;;;
  ret (Ok tt).

End WithPlatform.

End PluginLifecycle.

(* ================================================================== *)
(** * [PythonLayer::initPygfx]                                         *)
(* ================================================================== *)

Module Pygfx.
Import Py Proc CPython PythonLayer.

(** The two data members of [PythonLayer] that only [initPygfx]
    writes; they complete the layer record. *)
Record TextureSize : Type := mkSize {
  _texture_width : N;
  _texture_height : N
}.

(** [std::to_string] of a [uint32_t]. *)
Definition to_string (n : N) : string :=
  NilEmpty.string_of_uint (N.to_uint n).

Section WithInterp.
Context {NS : Type} (I : Interp NS) (message : Error -> string).
(** The build directory, a compile-time string. *)
Context (CMAKE_BINARY_DIR : string).
(** [yetty_wgpu_create_render_texture] is declared in [yetty_wgpu.h];
    its body is not part of the sources at hand.  It works on the
    bridge table and the device. *)
Context (yetty_wgpu_create_render_texture : N -> N -> State (World NS) bool).

(** A member function of the layer, run on the completed object. *)
Definition self {A} (m : State (Self (NS:=NS)) A)
  : State (TextureSize * Self (NS:=NS)) A :=
  zoom snd (fun s t => (fst t, s)) m.

Definition set_texture_size (width height : N)
  : State (TextureSize * Self (NS:=NS)) unit :=
  modify (fun t => (mkSize width height, snd t)).

(** [PythonLayer::initPygfx] (python.cpp:431-495); [width] and
    [height] are [uint32_t]s. *)
Definition initPygfx (ctx : Gpu.Context) (width height : N)
  : State (TextureSize * Self (NS:=NS)) (option bool) :=
  pygfx_initialized <- self (this _pygfx_initialized) ;;
  if pygfx_initialized then ret (Some true) else
  (* Ensure WebGPU handles are set *)
  wgpu_handles_set <- self (this _wgpu_handles_set) ;;
  (if negb wgpu_handles_set then
     self (world (on_bridge (Bridge.yetty_wgpu_set_handles None None
                               (Some (Gpu.getDevice ctx))
                               (Some (Gpu.getQueue ctx))))) ;;;
     self (assign (set_wgpu_handles_set true))
   else ret tt) ;;;
  (* Create render texture *)
  created <- self (world (yetty_wgpu_create_render_texture width height)) ;;
  if negb created then
    self (world (log_msg error
                   "PythonLayer: Failed to create render texture")) ;;;
    ret (Some false)
  else
  set_texture_size width height ;;;
  (* First, add the build/python directory to sys.path *)
  result <-? self (world (PythonPlugin.execute I
              ("import sys" +:+ LF +:+ "sys.path.insert(0, '"
               +:+ CMAKE_BINARY_DIR +:+ "/python')" +:+ LF))) ;;
  if negb (is_ok result) then
    self (world (log_msg error "PythonLayer: Failed to set Python path")) ;;;
    ret (Some false)
  else
  (* Import yetty_pygfx *)
  result <-? self (world (PythonPlugin.execute I
              ("import yetty_pygfx" +:+ LF
               +:+ "yetty_pygfx.init_pygfx()" +:+ LF))) ;;
  match result with
  | Err e =>
      self (world (log_msg error
        ("PythonLayer: Failed to import yetty_pygfx: " +:+ message e))) ;;;
      ret (Some false)
  | Ok _ =>
  (* Create the figure *)
  let create_fig_code :=
    "fig = yetty_pygfx.create_figure(" +:+ to_string width +:+ ", "
    +:+ to_string height +:+ ")" +:+ LF in
  result <-? self (world (PythonPlugin.execute I create_fig_code)) ;;
  match result with
  | Err e =>
      self (world (log_msg error
        ("PythonLayer: Failed to create figure: " +:+ message e))) ;;;
      ret (Some false)
  | Ok _ =>
  (* Get the render_frame function for later use *)
  md <- self (world (PyImport_ImportModule I "yetty_pygfx")) ;;
  self (assign (set_pygfx_module md)) ;;;
  match md with
  | Some m =>
      rf <- self (world (PyObject_GetAttrString I m "render_frame")) ;;
      self (assign (set_render_frame_func rf))
  | None => ret tt
  end ;;;
  self (assign (set_pygfx_initialized true)) ;;;
  self (world (log_msg info
    ("PythonLayer: pygfx initialized with " +:+ to_string width +:+ "x"
     +:+ to_string height +:+ " render target"))) ;;;
  ret (Some true)
  end
  end.

End WithInterp.

End Pygfx.

(* ================================================================== *)
(** * Vocabulary for properties that hold along every path             *)
(* ================================================================== *)

Module Along.

Section Rules.
Context {S : Type}.

(** Every run of [m] takes a state to one related to it by [R]. *)
Definition steps {A} (R : S -> S -> Prop) (m : State S A) : Prop :=
  forall s, R s (snd (m s)).

(** Every run of [m] returns a value that satisfies [P]. *)
Definition results {A} (P : A -> Prop) (m : State S A) : Prop :=
  forall s, P (fst (m s)).

End Rules.

End Along.

(* ================================================================== *)
(** * Book-keeping of GPU objects                                      *)
(* ================================================================== *)

Module Ledger.
Import Py Proc PythonLayer.

Definition same_kind (a b : Gpu.Kind) : bool :=
  match a, b with
  | Gpu.Sampler, Gpu.Sampler
  | Gpu.ShaderModule, Gpu.ShaderModule
  | Gpu.BindGroupLayout, Gpu.BindGroupLayout
  | Gpu.PipelineLayout, Gpu.PipelineLayout
  | Gpu.RenderPipeline, Gpu.RenderPipeline
  | Gpu.BindGroup, Gpu.BindGroup
  | Gpu.CommandEncoder, Gpu.CommandEncoder
  | Gpu.SurfaceView, Gpu.SurfaceView
  | Gpu.RenderPass, Gpu.RenderPass
  | Gpu.CommandBuffer, Gpu.CommandBuffer => true
  | _, _ => false
  end.

Definition is_creation (k : Gpu.Kind) (e : Gpu.Event) : bool :=
  match e with
  | Gpu.Created k' _ => same_kind k k'
  | _ => false
  end.

(** A release of an object; the release of a null handle is not one. *)
Definition is_release (k : Gpu.Kind) (e : Gpu.Event) : bool :=
  match e with
  | Gpu.Released k' (Some _) => same_kind k k'
  | _ => false
  end.

(** How many objects of kind [k] the events create, and release. *)
Definition creations (k : Gpu.Kind) (evs : list Gpu.Event) : nat :=
  List.length (List.filter (is_creation k) evs).

Definition releases (k : Gpu.Kind) (evs : list Gpu.Event) : nat :=
  List.length (List.filter (is_release k) evs).

(** The kinds of object for which the layer releases what it creates.
    The surface view belongs to the host's context and is not the
    layer's to release.  The sampler is the layer's, but the layer
    does not always release it: [createBlitPipeline] stores a new
    sampler over the one that a failed earlier attempt left in
    [_blit_sampler], and that one is lost. *)
Definition owned (k : Gpu.Kind) : bool :=
  match k with
  | Gpu.Sampler | Gpu.SurfaceView => false
  | _ => true
  end.

Definition owned_kinds : list Gpu.Kind :=
  [Gpu.ShaderModule; Gpu.BindGroupLayout; Gpu.PipelineLayout;
   Gpu.RenderPipeline; Gpu.BindGroup; Gpu.CommandEncoder;
   Gpu.RenderPass; Gpu.CommandBuffer].

(** How many objects of kind [k] the layer keeps between calls. *)
Definition holds (k : Gpu.Kind) (l : Layer) : nat :=
  match k with
  | Gpu.BindGroup => if is_some (_blit_bind_group l) then 1 else 0
  | Gpu.RenderPipeline => if is_some (_blit_pipeline l) then 1 else 0
  | Gpu.Sampler => if is_some (_blit_sampler l) then 1 else 0
  | _ => 0
  end.

(** The events [evs] release no more objects of kind [k] than were
    held before and created. *)
Definition bounded (k : Gpu.Kind) (evs : list Gpu.Event) (l l' : Layer)
  : bool :=
  Nat.leb (releases k evs + holds k l') (creations k evs + holds k l).

(** The events [evs] account for the objects of kind [k]: what was
    held before plus what was created is what was released plus what
    is held after. *)
Definition settled (k : Gpu.Kind) (evs : list Gpu.Event) (l l' : Layer)
  : bool :=
  Nat.eqb (creations k evs + holds k l) (releases k evs + holds k l').

(** A layer whose pipeline flag is down has no pipeline. *)
Definition coherent (l : Layer) : Prop :=
  _blit_initialized l = false -> _blit_pipeline l = None.

(** The commands recorded into a render pass. *)
Definition is_pass_command (e : Gpu.Event) : bool :=
  match e with
  | Gpu.SetPipeline _ _ | Gpu.SetBindGroup _ _ _ | Gpu.Draw _ _ _ _ _
  | Gpu.EndPass _ => true
  | _ => false
  end.

(** What a blit has recorded into its render pass, given its result,
    the layer it leaves and the new events: on success the layer's
    pipeline, the bind group, one draw of 6 vertices and 1 instance,
    the end of the pass; otherwise nothing. *)
Definition recorded (ok : bool) (L' : Layer) (evs : list Gpu.Event) : Prop :=
  if ok then
    is_some (_blit_bind_group L') = true
    /\ exists p,
         List.filter is_pass_command evs
         = [Gpu.SetPipeline p (_blit_pipeline L');
            Gpu.SetBindGroup p 0 (_blit_bind_group L');
            Gpu.Draw p 6 1 0 0; Gpu.EndPass p]
  else List.filter is_pass_command evs = [].

(** The device log has grown by events that account for every owned
    kind of object and release no sampler that was not held or
    created, and a coherent layer has stayed coherent. *)
Definition accounted {NS} (s s' : Self (NS:=NS)) : Prop :=
  coherent (fst s) ->
  coherent (fst s')
  /\ exists evs,
       Gpu.log (gpu (snd s')) = Gpu.log (gpu (snd s)) ++ evs
       /\ (forall k, owned k = true ->
             creations k evs + holds k (fst s)
             = releases k evs + holds k (fst s'))
       /\ releases Gpu.Sampler evs + holds Gpu.Sampler (fst s')
          <= creations Gpu.Sampler evs + holds Gpu.Sampler (fst s).

(** The calls the host makes on a layer. *)
Inductive Call : Type :=
| Init (payload : string)
| Render (ctx : Gpu.Context)
| Key (key scancode action mods : Z)
| Char (codepoint : N)
| Dispose.

Definition is_init (c : Call) : bool :=
  match c with
  | Init _ => true
  | _ => false
  end.

Section WithInterp.
Context {NS : Type} (I : Interp NS) (message : Error -> string).

(** One call; [None] when the process ends inside it. *)
Definition perform (c : Call) : State (Self (NS:=NS)) (option unit) :=
  match c with
  | Init payload => _ <-? init I message payload ;; ret (Some tt)
  | Render ctx => render I ctx ;;; ret (Some tt)
  | Key key scancode action mods =>
      _ <-? onKey I message key scancode action mods ;; ret (Some tt)
  | Char codepoint => onChar codepoint ;;; ret (Some tt)
  | Dispose => dispose I ;;; ret (Some tt)
  end.

(** A sequence of calls, in order, as far as the process gets. *)
Fixpoint session (cs : list Call) : State (Self (NS:=NS)) (option unit) :=
  match cs with
  | [] => ret (Some tt)
  | c :: cs' => _ <-? perform c ;; session cs'
  end.

End WithInterp.

End Ledger.

(* ================================================================== *)
(** * Typing into the input buffer                                     *)
(* ================================================================== *)

Module Typing.
Import Py Proc PythonLayer.

(** The characters of a string as the codepoints the host delivers. *)
Definition codepoints (s : string) : list N :=
  List.map N_of_ascii (list_ascii_of_string s).

(** Every character of [s] is below 128. *)
Definition seven_bit (s : string) : bool :=
  forallb (fun cp => (cp <? 128)%N) (codepoints s).

(** What [onChar] keeps of a sequence of codepoints. *)
Definition typed (cps : list N) : string :=
  string_of_list_ascii
    (List.map ascii_of_N (List.filter (fun cp => (cp <? 128)%N) cps)).

Section WithInterp.
Context {NS : Type}.

(** [onChar] for each codepoint in turn. *)
Definition type_chars (cps : list N) (s : Self (NS:=NS)) : Self (NS:=NS) :=
  fold_left (fun s cp => snd (onChar cp s)) cps s.

End WithInterp.

End Typing.

(* ================================================================== *)
(** * What a call leaves alone                                         *)
(* ================================================================== *)

Module Frame.
Import Py Proc PythonLayer.

Section Relations.
Context {NS : Type}.

(** The process outside the interpreter and the bridge table is the
    same: plugin flags, GPU device, files, log and the first-frame
    flag. *)
Definition same_outside (w w' : World NS) : Prop :=
  plugin w' = plugin w /\ gpu w' = gpu w /\ fs w' = fs w
  /\ spdlog w' = spdlog w /\ logged w' = logged w.

(** As [same_outside], but the log may have grown. *)
Definition same_machinery (w w' : World NS) : Prop :=
  plugin w' = plugin w /\ gpu w' = gpu w /\ fs w' = fs w.

(** The layer's failure and visibility flags are the same. *)
Definition same_flags (s s' : Self (NS:=NS)) : Prop :=
  _failed (fst s') = _failed (fst s) /\ _visible (fst s') = _visible (fst s).

(** The GPU device and the layer's blit state are the same. *)
Definition same_gpu (s s' : Self (NS:=NS)) : Prop :=
  gpu (snd s') = gpu (snd s)
  /\ _blit_bind_group (fst s') = _blit_bind_group (fst s)
  /\ _blit_pipeline (fst s') = _blit_pipeline (fst s)
  /\ _blit_sampler (fst s') = _blit_sampler (fst s)
  /\ _blit_initialized (fst s') = _blit_initialized (fst s).

(** The transcript has only grown. *)
Definition extends (s s' : Self (NS:=NS)) : Prop :=
  exists t, _output (fst s') = _output (fst s) +:+ t.

End Relations.

End Frame.

(* ================================================================== *)
(** * A second test double: names, a render module, a platform         *)
(* ================================================================== *)

Module Lab.
Import Py Proc PythonLayer Host.

Definition lookup (name : string) (ns : list (string * string))
  : option string :=
  snd <$> List.find (fun b => String.eqb (fst b) name) ns.

(** The view (handle 5) that [yetty_pygfx.render_frame] of the test
    double leaves in the bridge. *)
Definition with_view (br : Bridge.Table) : Bridge.Table :=
  Bridge.mkTable (Bridge.instance br) (Bridge.adapter br) (Bridge.device br)
                 (Bridge.queue br) (Some 5).

(** An assignment, a print of the assigned name, and a module
    [yetty_pygfx] with a [render_frame] that succeeds and a [cleanup]
    that says goodbye; [broken.render_frame] raises, and what
    [moody.render_frame] returns raises when asked for its truth
    value.  Every other chunk of code does nothing; [sys], [io] and
    [yetty_pygfx] are loaded and no other module is found. *)
Definition python : Interp (list (string * string)) :=
  mkInterp
    (fun code _ ns br =>
       if String.eqb code "x = 21" then
         mkOutcome [] None (("x", "21") :: ns) br No
       else if String.eqb code "print(x)" then
         match lookup "x" ns with
         | Some v => mkOutcome [(Stdout, v +:+ LF)] None ns br No
         | None =>
             mkOutcome [] (Some ("NameError: name 'x' is not defined" +:+ LF))
                       ns br No
         end
       else Demo.quiet ns br)
    (fun name _ ns br =>
       if String.eqb name "sys" || String.eqb name "io"
          || String.eqb name "yetty_pygfx"
       then idle ns br
       else mkOutcome [] (Some (no_module name)) ns br No)
    (fun m a p _ =>
       plain_lookup
         (String.eqb m "yetty_pygfx"
          && (String.eqb a "render_frame" || String.eqb a "cleanup")) m a p)
    (fun m a _ ns br =>
       if String.eqb m "broken" then
         mkOutcome [] (Some ("RuntimeError: no frame" +:+ LF)) ns br No
       else if String.eqb m "moody" then
         mkOutcome [] None ns br (Raises ("ValueError: no" +:+ LF))
       else if String.eqb a "render_frame" then
         mkOutcome [] None ns (with_view br) Yes
       else mkOutcome [(Stdout, "bye" +:+ LF)] None ns br No).

(** The same interpreter on which [io] cannot be imported. *)
Definition without_io : Interp (list (string * string)) :=
  mkInterp
    (run python)
    (fun name p ns br =>
       if String.eqb name "io"
       then mkOutcome [] (Some (no_module name)) ns br No
       else import_module python name p ns br)
    (Py.lookup python)
    (call python).

(** The same interpreter with imports that fail when they are made
    with an exception pending: the result of [__import__] is then a
    result with an exception set. *)
Definition strict : Interp (list (string * string)) :=
  mkInterp
    (run python)
    (fun name p ns br =>
       match p with
       | Some tb =>
           mkOutcome [] (Some ("SystemError: <built-in function __import__>"
                               +:+ " returned a result with an exception set"
                               +:+ LF)) ns br No
       | None => import_module python name p ns br
       end)
    (Py.lookup python)
    (call python).

(** The test process with the exception of a failed import pending. *)
Definition world_pending : World (list (string * string)) :=
  set_py (set_pending (Some (no_module "yetty_pygfx")) Demo.runtime)
         Demo.world.

(** A bridge clean-up that clears the handle table and asks nothing
    of the device. *)
Definition cleanup : State (World (list (string * string))) unit :=
  on_bridge (modify (fun _ => Bridge.mkTable None None None None None)).

(** A platform on which the package installation fails (exit status
    1, disk untouched) and CPython comes up. *)
Definition platform : Platform (list (string * string)) :=
  mkPlatform (fun _ disk => (1%Z, disk)) true true (Some []) true true
             "3.13.0".

Definition build : string := "/build".

(** A machine before the plugin is initialised: the user's home in
    the environment, nothing of yetty on disk. *)
(** A process in which the bridge is ready and the device accepts the
    sampler of the first blit and refuses its shader. *)
Definition world_shader_fails : World (list (string * string)) :=
  mkWorld (mkPlugin true true) Demo.runtime Demo.bridge_ready
          (Gpu.mkDevice 10 [true; false] []) Demo.files [] false.

Definition machine : Machine (list (string * string)) :=
  mkMachine Demo.world_disposed {[ "HOME" := "/home/u" ]} base.empty [] [].

(** A base class that has no layer left to dispose. *)
Definition no_layers : State (World (list (string * string))) (Result unit) :=
  ret (Ok tt).

End Lab.

(* ================================================================== *)
(** * Properties of the execution and capture service                  *)
(* ================================================================== *)

Module PluginFacts.
Import Py Proc CPython PythonPlugin Spec.

Lemma c_str_nul_free (s : string) : nul_free s = true -> c_str s = s.
Proof.
  induction s as [|c r IH]; simpl; [reflexivity|].
  destruct (Ascii.eqb c zero); simpl; [discriminate|].
  intros H. now rewrite IH.
Qed.

Lemma c_str_is_nul_free (s : string) : nul_free (c_str s) = true.
Proof.
  induction s as [|c r IH]; simpl; [reflexivity|].
  destruct (Ascii.eqb c zero) eqn:E; simpl; [reflexivity|].
  now rewrite E.
Qed.

Lemma append_cons (x : ascii) (a b : string) :
  String x a +:+ b = String x (a +:+ b).
Proof. reflexivity. Qed.

Lemma append_assoc (a b c : string) : (a +:+ b) +:+ c = a +:+ (b +:+ c).
Proof.
  induction a as [|x a IH]; [reflexivity|].
  now rewrite !append_cons, IH.
Qed.

Lemma append_empty_r (a : string) : a +:+ EmptyString = a.
Proof.
  induction a as [|x a IH]; [reflexivity|].
  now rewrite append_cons, IH.
Qed.

Lemma text_of_all_stdout (ws : list (StdName * string)) :
  forallb is_stdout ws = true -> stdout_text ws = text_of ws.
Proof.
  unfold stdout_text.
  induction ws as [|w ws IH]; simpl; [reflexivity|].
  intros H. apply andb_prop in H as [Hw Hws].
  rewrite filter_cons. destruct (decide (is_stdout w = true)); [|congruence].
  simpl. now rewrite IH.
Qed.

Lemma alter_last {A} (f : A -> A) (h : list A) (b : A) :
  alter f (List.length h) (h ++ [b]) = h ++ [f b].
Proof.
  induction h as [|x h IH]; simpl; [reflexivity|].
  f_equal. exact IH.
Qed.

Section WithInterp.
Context {NS : Type} (I : Interp NS).

(** While both [sys.stdout] and [sys.stderr] are bound to the newest
    [StringIO], every write lands in its buffer, in order, and the
    console receives nothing. *)
Lemma do_writes_captured (ws : list (StdName * string))
      (d : NS) (h : list string) (b out err : string) (e : option string) :
  do_writes ws
    (mkState d (StringIO (List.length h)) (StringIO (List.length h))
             (h ++ [b]) out err e)
  = mkState d (StringIO (List.length h)) (StringIO (List.length h))
            (h ++ [b +:+ text_of ws]) out err e.
Proof.
  revert b. induction ws as [|[n t] ws IH]; intros b; simpl.
  - now rewrite append_empty_r.
  - unfold do_writes in *. simpl.
    replace (write_std _ (n, t)) with
      (mkState d (StringIO (List.length h)) (StringIO (List.length h))
               (h ++ [b +:+ t]) out err e).
    + rewrite IH. now rewrite append_assoc.
    + unfold write_std, write_to.
      destruct n; simpl; now rewrite alter_last.
Qed.

(** Writes go to the objects the two names are bound to; they do not
    rebind the names. *)
Lemma do_writes_bindings (ws : list (StdName * string)) (st : Runtime NS) :
  sys_stdout (do_writes ws st) = sys_stdout st
  /\ sys_stderr (do_writes ws st) = sys_stderr st.
Proof.
  revert st. unfold do_writes.
  induction ws as [|[n t] ws IH]; intros st; simpl; [auto|].
  destruct (IH (write_std st (n, t))) as [-> ->].
  unfold write_std, write_to. simpl.
  destruct (sys_get n st); auto.
Qed.

Lemma commit_bindings (o : Outcome NS) (w : World NS) :
  sys_stdout (py (commit o w)) = sys_stdout (py w)
  /\ sys_stderr (py (commit o w)) = sys_stderr (py w).
Proof.
  unfold commit. simpl. apply do_writes_bindings.
Qed.

Lemma pending_commit (o : Outcome NS) (w : World NS) :
  pending (commit o w) = raised o.
Proof. reflexivity. Qed.

(** The importing of a loaded module leaves the process as it is. *)
Lemma commit_loaded (name : string) (w : World NS) :
  loaded I name w -> err_indicator (py w) = None ->
  commit (import_module I name None (main_dict (py w)) (bridge w)) w = w.
Proof.
  intros (Hw & Hr & Hn & Hb) Hp.
  unfold commit. rewrite Hw, Hr, Hn, Hb.
  destruct w as [pl p br g f sl lg]. destruct p as [d so se h out err e].
  simpl in *. now subst e.
Qed.

Lemma ready_sys_imported (w : World NS) : ready I w -> sys_imported I w = w.
Proof.
  intros (_ & Hsys & _ & Hp). unfold sys_imported, pending. rewrite Hp.
  now apply commit_loaded.
Qed.

Lemma ready_io_imported (w : World NS) : ready I w -> io_imported I w = w.
Proof.
  intros Hr. unfold io_imported. cbv zeta.
  rewrite (ready_sys_imported w Hr).
  destruct Hr as (_ & _ & Hio & Hp). unfold pending. rewrite Hp.
  now apply commit_loaded.
Qed.

Lemma execute_not_initialized (code : string) (w : World NS) :
  _py_initialized (plugin w) = false ->
  execute I code w = (Some (Err1 "Python not initialized"), w).
Proof.
  intros H. unfold execute, bind, gets, ret. simpl. now rewrite H.
Qed.

(** The import of [sys] fails: its exception stays pending. *)
Lemma execute_without_sys (code : string) (w : World NS) :
  _py_initialized (plugin w) = true ->
  pending (sys_imported I w) <> None ->
  execute I code w
  = (Some (Err1 "Failed to import sys module"), sys_imported I w).
Proof.
  intros Hinit Hsys. unfold sys_imported in Hsys.
  rewrite pending_commit in Hsys.
  unfold execute, bind, gets, ret. rewrite Hinit. simpl.
  unfold PyImport_ImportModule, sys_imported.
  destruct (raised _); [reflexivity|congruence].
Qed.

(** The import of [io] fails: its exception stays pending. *)
Lemma execute_without_io (code : string) (w : World NS) :
  _py_initialized (plugin w) = true ->
  pending (sys_imported I w) = None ->
  pending (io_imported I w) <> None ->
  execute I code w
  = (Some (Err1 "Failed to import io module"), io_imported I w).
Proof.
  intros Hinit Hsys Hio.
  unfold io_imported in *. cbv zeta in *.
  rewrite pending_commit in Hio.
  pose proof Hsys as Hsys'. unfold sys_imported in Hsys'.
  rewrite pending_commit in Hsys'.
  unfold execute, bind, gets, ret. rewrite Hinit. simpl.
  unfold PyImport_ImportModule. rewrite Hsys'.
  fold (sys_imported I w).
  destruct (raised _); [reflexivity|congruence].
Qed.

(** Both imports succeed: the code runs in the process they leave,
    in which no exception is pending. *)
Lemma execute_reaches (code : string) (w : World NS) :
  _py_initialized (plugin w) = true ->
  pending (sys_imported I w) = None ->
  pending (io_imported I w) = None ->
  execute I code w
  = (result_of_execute I code (io_imported I w),
     process_after I code (io_imported I w)).
Proof.
  intros Hinit Hsys Hio.
  unfold io_imported in *. cbv zeta in *.
  pose proof Hio as Hio'. rewrite pending_commit in Hio.
  pose proof Hsys as Hsys'. unfold sys_imported in Hsys'.
  rewrite pending_commit in Hsys'.
  unfold execute, bind, gets, ret. rewrite Hinit. simpl.
  unfold PyImport_ImportModule. rewrite Hsys'.
  fold (sys_imported I w). rewrite Hio.
  set (w2 := commit _ (sys_imported I w)) in *.
  destruct w2 as [pl p br g f sl lg] eqn:Ew2.
  destruct p as [d so se h out err e].
  unfold pending in Hio'. simpl in Hio'. subst e.
  unfold process_after, result_of_execute, after_execute, cut_short,
    outcome_of. simpl.
  unfold PyRun_String, commit, StringIO_getvalue, pending. simpl.
  rewrite (do_writes_captured _ d h EmptyString out err None).
  destruct (run I (c_str code) None d br) as [ws [tb|] d' br' tr]; simpl.
  - unfold err_print, err_clear, set_pending, write_to. simpl.
    destruct se; reflexivity.
  - rewrite lookup_app_r by (simpl; lia).
    replace (List.length h - List.length h) with 0 by lia.
    simpl. unfold assign_c_str, PyUnicode_AsUTF8.
    change (EmptyString +:+ text_of ws) with (text_of ws).
    destruct (has_surrogate (text_of ws)); reflexivity.
Qed.

Lemma execute_unfold (code : string) (w : World NS) :
  ready I w ->
  execute I code w = (result_of_execute I code w, process_after I code w).
Proof.
  intros Hr.
  pose proof (ready_sys_imported w Hr) as Hs.
  pose proof (ready_io_imported w Hr) as Hi.
  destruct Hr as (Hinit & _ & _ & Hp).
  rewrite (execute_reaches code w Hinit).
  - now rewrite Hi.
  - rewrite Hs. exact Hp.
  - rewrite Hi. exact Hp.
Qed.


(** When the code raises, [execute] returns the bare error prefix:
    the captured text is lost, because [getvalue] is called while
    the exception is still pending.  The diagnostic goes to the
    restored [sys.stderr], here the real one. *)
Lemma execute_error (code : string) (w : World NS) (tb : string) :
  ready I w ->
  sys_stderr (py w) = RealStderr ->
  raised (outcome_of I code w) = Some tb ->
  fst (execute I code w) = Some (Err (Msg "Python execution error: "))
  /\ real_stderr (py (snd (execute I code w)))
     = real_stderr (py w) +:+ result_with_exception_set tb
  /\ real_stdout (py (snd (execute I code w))) = real_stdout (py w).
Proof.
  intros Hr Herr Hraised.
  rewrite (execute_unfold code w Hr). cbn [fst snd].
  unfold process_after, result_of_execute, after_execute.
  rewrite Hraised, Herr.
  repeat split; reflexivity.
Qed.

(** The code raises nothing and the captured text holds a lone
    surrogate: the call does not return. *)
Lemma execute_cut_short (code : string) (w : World NS) :
  ready I w ->
  raised (outcome_of I code w) = None ->
  has_surrogate (text_of (writes (outcome_of I code w))) = true ->
  execute I code w = (None, cut_short I code w).
Proof.
  intros Hr Hok Hsur.
  rewrite (execute_unfold code w Hr).
  unfold process_after, result_of_execute. now rewrite Hok, Hsur.
Qed.

Lemma after_execute_bindings (code : string) (w : World NS) :
  sys_stdout (py (after_execute I code w)) = sys_stdout (py w)
  /\ sys_stderr (py (after_execute I code w)) = sys_stderr (py w).
Proof.
  unfold after_execute. simpl.
  destruct (raised (outcome_of I code w)); simpl; [|auto].
  destruct (sys_stderr (py w)); simpl; auto.
Qed.

Lemma io_imported_bindings (w : World NS) :
  sys_stdout (py (io_imported I w)) = sys_stdout (py w)
  /\ sys_stderr (py (io_imported I w)) = sys_stderr (py w).
Proof.
  unfold io_imported. cbv zeta.
  destruct (commit_bindings
              (import_module I "io" (pending (sys_imported I w))
                 (main_dict (py (sys_imported I w)))
                 (bridge (sys_imported I w)))
              (sys_imported I w)) as [-> ->].
  apply commit_bindings.
Qed.

(** The three ways a call of [execute] goes on an initialised
    interpreter. *)
Lemma execute_cases (code : string) (w : World NS) :
  _py_initialized (plugin w) = true ->
  execute I code w
  = (Some (Err1 "Failed to import sys module"), sys_imported I w)
  \/ execute I code w
     = (Some (Err1 "Failed to import io module"), io_imported I w)
  \/ (pending (io_imported I w) = None
      /\ execute I code w
         = (result_of_execute I code (io_imported I w),
            process_after I code (io_imported I w))).
Proof.
  intros Hinit.
  destruct (pending (sys_imported I w)) as [e|] eqn:Hsys.
  { left. apply execute_without_sys; [exact Hinit|congruence]. }
  destruct (pending (io_imported I w)) as [e|] eqn:Hio.
  { right. left. apply execute_without_io; [exact Hinit|exact Hsys|].
    congruence. }
  right. right. split; [reflexivity|].
  now apply execute_reaches.
Qed.

(** A call of [execute] that returns leaves [sys.stdout] and
    [sys.stderr] bound as it found them. *)
Lemma execute_restores_streams (code : string) (w : World NS) :
  fst (execute I code w) <> None ->
  sys_stdout (py (snd (execute I code w))) = sys_stdout (py w)
  /\ sys_stderr (py (snd (execute I code w))) = sys_stderr (py w).
Proof.
  destruct (_py_initialized (plugin w)) eqn:Hinit.
  2:{ now rewrite execute_not_initialized. }
  destruct (execute_cases code w Hinit) as [-> | [-> | [_ ->]]];
    cbn [fst snd]; intros Hret.
  - apply commit_bindings.
  - apply io_imported_bindings.
  - unfold process_after.
    destruct (result_of_execute I code (io_imported I w)); [|congruence].
    destruct (after_execute_bindings code (io_imported I w)) as [-> ->].
    apply io_imported_bindings.
Qed.

End WithInterp.



(** C3, at the failing input.  The program prints ["so far\n"] and
    then raises.  [execute] returns an error, and the diagnostic goes
    to the real standard error, but the error text is the bare prefix:
    the output captured before the failure is not in it. *)
Theorem execute_error_drops_captured_text :
  ready Demo.python Demo.world
  /\ text_of (writes (outcome_of Demo.python Demo.print_then_raise
                                 Demo.world)) = "so far" +:+ LF
  /\ raised (outcome_of Demo.python Demo.print_then_raise Demo.world)
     = Some ("ValueError: boom" +:+ LF)
  /\ fst (execute Demo.python Demo.print_then_raise Demo.world)
     = Some (Err (Msg "Python execution error: "))
  /\ existsb (mentions "so far")
             (chain (Msg "Python execution error: ")) = false
  /\ real_stderr (py (snd (execute Demo.python Demo.print_then_raise
                                   Demo.world)))
     = result_with_exception_set ("ValueError: boom" +:+ LF).
Proof. repeat split; vm_compute; reflexivity. Qed.

Section RunFile.
Context {NS : Type} (I : Interp NS).

(** A file that cannot be opened: the error names the path. *)
Lemma runFile_open_failure (path : string) (w : World NS) :
  fs w !! c_str path = None ->
  runFile I path w
  = (Some (Err1 ("Failed to open Python file: " +:+ path)), w).
Proof.
  intros H. unfold runFile, bind, ifstream, gets, ret. simpl.
  now rewrite H.
Qed.

(** A path that can be opened: what [runFile] does is decided by
    [execute] on what the stream delivers. *)
Lemma runFile_opened (path : string) (node : Node) (w : World NS) :
  fs w !! c_str path = Some node ->
  runFile I path w
  = match execute I (rdbuf node) w with
    | (Some (Ok _), w') =>
        (Some (Ok tt),
         snd (log_msg info ("Python file executed: " +:+ path) w'))
    | (Some (Err e), w') =>
        (Some (Err (Ctx "Failed to execute Python file" e)), w')
    | (None, w') => (None, w')
    end.
Proof.
  intros Hf. unfold runFile, bind, ifstream, gets, ret.
  rewrite Hf. simpl.
  destruct (execute I (rdbuf node) w) as [[[o|e']|] w']; reflexivity.
Qed.

(** A file whose execution fails: the error of [execute] under a
    context message that is the same for every path. *)
Lemma runFile_execute_failure (path : string) (node : Node) (w : World NS)
      (e : Error) :
  fs w !! c_str path = Some node ->
  fst (execute I (rdbuf node) w) = Some (Err e) ->
  runFile I path w
    = (Some (Err (Ctx "Failed to execute Python file" e)),
       snd (execute I (rdbuf node) w)).
Proof.
  intros Hf He. rewrite (runFile_opened path node w Hf).
  destruct (execute I (rdbuf node) w) as [[[o|e']|] w']; simpl in *;
    try discriminate.
  now inversion He.
Qed.

Lemma runFile_success (path : string) (node : Node) (out : string)
      (w : World NS) :
  fs w !! c_str path = Some node ->
  fst (execute I (rdbuf node) w) = Some (Ok out) ->
  fst (runFile I path w) = Some (Ok tt).
Proof.
  intros Hf He. rewrite (runFile_opened path node w Hf).
  destruct (execute I (rdbuf node) w) as [[[o|e']|] w']; simpl in *;
    [reflexivity|discriminate|discriminate].
Qed.

End RunFile.

(** C5, at the failing input.  [/tmp/boom.py] is readable and its
    content raises.  [runFile] returns the error of [execute] under
    the context ["Failed to execute Python file"]: no message of the
    chain mentions the path, whereas the error for a file that cannot
    be opened does. *)
Theorem runFile_execute_failure_omits_path :
  fst (runFile Demo.python "/tmp/boom.py" Demo.world)
    = Some (Err (Ctx "Failed to execute Python file"
                     (Msg "Python execution error: ")))
  /\ existsb (mentions "/tmp/boom.py")
             (chain (Ctx "Failed to execute Python file"
                         (Msg "Python execution error: "))) = false
  /\ fst (runFile Demo.python "/tmp/none.py" Demo.world)
       = Some (Err (Msg "Failed to open Python file: /tmp/none.py"))
  /\ existsb (mentions "/tmp/none.py")
             (chain (Msg "Failed to open Python file: /tmp/none.py")) = true.
Proof. repeat split; vm_compute; reflexivity. Qed.

End PluginFacts.

(* ================================================================== *)
(** * Properties of the script layer                                   *)
(* ================================================================== *)

Module LayerFacts.
Import Py Proc CPython PythonLayer Spec.

Lemma pop_back_push_back (b : string) (c : ascii) :
  pop_back (push_back b c) = b.
Proof.
  unfold push_back. induction b as [|x b IH]; [reflexivity|].
  rewrite PluginFacts.append_cons. simpl. rewrite IH.
  destruct b; reflexivity.
Qed.

Lemma push_back_not_empty (b : string) (c : ascii) :
  empty (push_back b c) = false.
Proof. destruct b; reflexivity. Qed.

Lemma printable_is_ascii (cp : N) :
  printable_ascii cp = true -> (cp <? 128)%N = true.
Proof.
  unfold printable_ascii. intros H. apply andb_prop in H as [_ H].
  apply N.leb_le in H. apply N.ltb_lt. lia.
Qed.

(** The device log after a call is the log before it followed by the
    new events. *)
Ltac log_suffix :=
  first [ exists []; rewrite app_nil_r; split; [reflexivity|]
        | eexists; rewrite <- ?app_assoc; split; [reflexivity|] ].

Section WithInterp.
Context {NS : Type} (I : Interp NS) (message : Error -> string).

(** C1 (as amended).  A layer that is failed or not visible is left
    untouched by [render], and so is the process; the call returns
    the error "PythonLayer already failed" when the layer is failed,
    and success when it is not failed and not visible. *)
Theorem render_failed_or_invisible (ctx : Gpu.Context) (L : Layer)
        (w : World NS) :
  _failed L = true \/ _visible L = false ->
  render I ctx (L, w)
    = (if _failed L then Err1 "PythonLayer already failed" else Ok tt,
       (L, w)).
Proof.
  intros H.
  destruct L as [pay sp out ib ini failed visible bg pl sm bi rf md pi hs].
  simpl in H.
  unfold render, bind, this, gets, ret. simpl.
  destruct failed; [reflexivity|].
  destruct H as [H|H]; [discriminate|]. now subst visible.
Qed.

(** C4 (as amended).  [onChar] appends the character to the input
    buffer exactly when the codepoint is below 128, control
    characters included (so every printable ASCII codepoint is
    appended); otherwise nothing changes.  [onKey] with Backspace on
    key press removes the last character of a non-empty buffer. *)
Theorem onChar_appends_below_128 (codepoint : N) (sc mods : Z) (L : Layer)
        (w : World NS) (b : string) (c : ascii) :
  onChar codepoint (L, w)
    = (if (codepoint <? 128)%N
       then (true, (set_input_buffer
                      (push_back (_input_buffer L) (ascii_of_N codepoint)) L,
                    w))
       else (false, (L, w)))
  /\ implb (printable_ascii codepoint) (codepoint <? 128)%N = true
  /\ onKey I message 259 sc 1 mods (set_input_buffer (push_back b c) L, w)
     = (Some true, (set_input_buffer b L, w)).
Proof.
  split; [|split].
  - unfold onChar. destruct (codepoint <? 128)%N; reflexivity.
  - destruct (printable_ascii codepoint) eqn:E; [|reflexivity].
    now rewrite (printable_is_ascii _ E).
  - destruct L as [pay sp out ib ini fl vis bg pl sm bi rf md pi hs].
    unfold onKey, bind, this, gets, ret, assign, modify. simpl.
    rewrite push_back_not_empty. simpl.
    now rewrite pop_back_push_back.
Qed.

(** Whether a call returned. *)
Lemma init_result (payload : string) (L : Layer) (w : World NS) :
  (fst (init I message payload (L, w)) = Some (Ok tt)
   \/ fst (init I message payload (L, w)) = None)
  /\ _output (fst (snd (init I message payload (L, w))))
     = output_after_init I message payload L w.
Proof.
  destruct L as [pay sp out ib ini fl vis bg pl sm bi rf md pi hs].
  unfold output_after_init, init, bind, this, gets, ret, assign, modify,
    world, zoom, ifstream. simpl.
  destruct (empty payload); simpl; [split; [left|]; reflexivity|].
  destruct (fs w !! c_str payload) as [content|]; simpl.
  - destruct (PythonPlugin.runFile I payload w) as [[[u|e]|] w']; simpl;
      (split; [(left; reflexivity) || (right; reflexivity)|reflexivity]).
  - destruct (PythonPlugin.execute I payload w) as [[[o|e]|] w']; simpl;
      (split; [(left; reflexivity) || (right; reflexivity)|reflexivity]).
Qed.

(** [init] returns, and then with success, exactly when the call of
    [execute] it makes, if any, returns. *)
Lemma init_returns (payload : string) (L : Layer) (w : World NS) :
  fst (init I message payload (L, w))
  = if empty payload then Some (Ok tt) else
    match fs w !! c_str payload with
    | Some node =>
        match fst (PythonPlugin.execute I (rdbuf node) w) with
        | Some _ => Some (Ok tt)
        | None => None
        end
    | None =>
        match fst (PythonPlugin.execute I payload w) with
        | Some _ => Some (Ok tt)
        | None => None
        end
    end.
Proof.
  destruct L as [pay sp out ib ini fl vis bg pl sm bi rf md pi hs].
  unfold init, bind, this, gets, ret, assign, modify,
    world, zoom, ifstream. simpl.
  destruct (empty payload); simpl; [reflexivity|].
  destruct (fs w !! c_str payload) as [node|] eqn:Hfs; simpl.
  - rewrite (PluginFacts.runFile_opened I payload node w Hfs).
    destruct (PythonPlugin.execute I (rdbuf node) w) as [[[o|e]|] w'];
      reflexivity.
  - destruct (PythonPlugin.execute I payload w) as [[[o|e]|] w'];
      reflexivity.
Qed.

(** A non-empty payload that cannot be opened goes to [execute]. *)
Lemma init_is_inline (payload : string) (L : Layer) (w : World NS) :
  empty payload = false ->
  fs w !! c_str payload = None ->
  init I message payload (L, w) = init_inline I message payload (L, w).
Proof.
  intros Hne Hfs.
  destruct L as [pay sp out ib ini fl vis bg pl sm bi rf md pi hs].
  unfold init, init_inline, bind, this, gets, ret, assign, modify,
    world, zoom, ifstream. simpl.
  rewrite Hne. simpl. rewrite Hfs. simpl.
  destruct (PythonPlugin.execute I payload w) as [[[o|e]|] w']; reflexivity.
Qed.

(** C6 (as amended).  For every non-empty payload that
    [std::ifstream] cannot open (no file that can be read and no
    directory has that name), [init] executes the payload as inline
    code and returns no error; when the interpreter is ready and the
    payload is a program that prints ["42\n"] without raising (as
    ["x = 21\nprint(x*2)\n"] does), [init] returns success and the
    layer ends with that output. *)
Theorem init_runs_inline_code (payload : string) (L : Layer) (w : World NS) :
  empty payload = false ->
  fs w !! c_str payload = None ->
  init I message payload (L, w) = init_inline I message payload (L, w)
  /\ (forall e, fst (init I message payload (L, w)) <> Some (Err e))
  /\ (ready I w ->
      raised (outcome_of I payload w) = None ->
      text_of (writes (outcome_of I payload w)) = "42" +:+ LF ->
      fst (init I message payload (L, w)) = Some (Ok tt)
      /\ _output (fst (snd (init I message payload (L, w)))) = "42" +:+ LF).
Proof.
  intros Hne Hfs. split; [now apply init_is_inline|].
  destruct (init_result payload L w) as [Hok Hout].
  split; [intros e; destruct Hok as [-> | ->]; discriminate|].
  intros Hr Hraise Htext. rewrite Hout, init_returns.
  unfold output_after_init. rewrite Hne, Hfs.
  rewrite (PluginFacts.execute_unfold I payload w Hr). cbn [fst].
  unfold result_of_execute. rewrite Hraise, Htext.
  split; reflexivity.
Qed.

(** Enter on a non-empty buffer: the buffer goes to [execute], the
    transcript entry is appended, the buffer is cleared. *)
Lemma onKey_enter (L : Layer) (w : World NS) (sc mods : Z) :
  empty (_input_buffer L) = false ->
  onKey I message 257 sc 1 mods (L, w)
    = match fst (PythonPlugin.execute I (_input_buffer L) w) with
      | Some result =>
          (Some true,
           (set_input_buffer EmptyString
              (set_output
                 (_output L +:+ ">>> " +:+ _input_buffer L +:+ LF +:+
                  match result with
                  | Ok out => out
                  | Err e => "Error: " +:+ message e +:+ LF
                  end) L),
            snd (PythonPlugin.execute I (_input_buffer L) w)))
      | None => (None, (L, snd (PythonPlugin.execute I (_input_buffer L) w)))
      end.
Proof.
  intros Hne.
  destruct L as [pay sp out ib ini fl vis bg pl sm bi rf md pi hs].
  simpl in Hne.
  unfold onKey, bind, this, gets, ret, assign, modify, world, zoom.
  cbn [fst snd _input_buffer _output Z.eqb Pos.eqb negb andb].
  rewrite Hne. cbn [negb andb fst snd].
  destruct (PythonPlugin.execute I ib w) as [[[o|e]|] w']; reflexivity.
Qed.

Lemma onChar_ascii (codepoint : N) (L : Layer) (w : World NS) :
  (codepoint <? 128)%N = true ->
  onChar codepoint (L, w)
    = (true,
       (set_input_buffer
          (push_back (_input_buffer L) (ascii_of_N codepoint)) L, w)).
Proof. intros H. unfold onChar. now rewrite H. Qed.

(** C7.  Starting from an empty input buffer, typing [h], [i] and
    pressing Enter runs ["hi"] on the shared interpreter; when that
    raises, the output log gains [">>> hi\nError: ..."] and the
    buffer is empty afterwards.  All three events are consumed. *)
Theorem repl_undefined_name (L : Layer) (w : World NS) (sc mods : Z)
        (tb : string) :
  _input_buffer L = EmptyString ->
  ready I w ->
  raised (outcome_of I "hi" w) = Some tb ->
  let r1 := onChar (N_of_ascii "h") (L, w) in
  let r2 := onChar (N_of_ascii "i") (snd r1) in
  let r3 := onKey I message 257 sc 1 mods (snd r2) in
  (fst r1 = true /\ fst r2 = true /\ fst r3 = Some true)
  /\ snd (snd r3) = after_execute I "hi" w
  /\ _input_buffer (fst (snd r3)) = EmptyString
  /\ _output (fst (snd r3))
     = _output L +:+ ">>> hi" +:+ LF +:+ "Error: "
       +:+ message (Msg "Python execution error: ") +:+ LF.
Proof.
  intros Hbuf Hr Hraise r1 r2 r3. subst r1 r2 r3.
  rewrite (onChar_ascii _ L w) by reflexivity. cbn [fst snd].
  rewrite onChar_ascii by reflexivity. cbn [fst snd].
  destruct L as [pay sp out ib ini fl vis bg pl sm bi rf md pi hs].
  simpl in Hbuf. subst ib.
  rewrite onKey_enter by reflexivity.
  cbn [fst snd set_input_buffer set_output _input_buffer _output].
  change (push_back (push_back EmptyString (ascii_of_N (N_of_ascii "h")))
                    (ascii_of_N (N_of_ascii "i"))) with "hi".
  rewrite (PluginFacts.execute_unfold I "hi" w Hr).
  unfold process_after, result_of_execute. rewrite Hraise. cbn [fst snd].
  repeat split.
Qed.

(** [createLayer] hands out the layer whenever [init] returns. *)
Lemma createLayer_result (payload : string) (fresh : Layer) (w : World NS) :
  LayerFactory.createLayer I message fresh payload w
  = (match fst (init I message payload (fresh, w)) with
     | Some _ => Some (Ok (fst (snd (init I message payload (fresh, w)))))
     | None => None
     end,
     snd (snd (init I message payload (fresh, w)))).
Proof.
  unfold LayerFactory.createLayer.
  destruct (init_result payload fresh w) as [Hok _].
  destruct (init I message payload (fresh, w)) as [res [L' w']].
  cbn [fst snd] in *. destruct Hok as [-> | ->]; reflexivity.
Qed.

(** After [dispose] the layer holds no handle and no reference, and
    the device has been asked to release exactly what the layer held. *)
Lemma dispose_clears (L : Layer) (w : World NS) :
  fst (dispose I (L, w)) = Ok tt
  /\ fst (snd (dispose I (L, w))) = disposed L
  /\ Gpu.log (gpu (snd (snd (dispose I (L, w)))))
     = Gpu.log (gpu w) ++ releases_of L.
Proof.
  destruct L as [pay sp out ib ini fl vis bg pl sm bi rf md pi hs].
  destruct w as [[i p] r br [nh o lg] f sl lgd].
  unfold dispose, bind, this, gets, ret, assign, modify, world, zoom,
    on_gpu, PythonPlugin.isInitialized, PyObject_GetAttrString,
    PyObject_CallObject, disposed, releases_of.
  destruct bg, pl, sm, i, rf, md as [[m|m a]|]; cbn;
    repeat match goal with
           | |- context [lookup I ?x ?y ?z ?u] =>
               destruct (lookup I x y z u) as [[|] ?]; cbn
           end;
    rewrite <- ?app_assoc, ?app_nil_r; repeat split; reflexivity.
Qed.

(** On a disposed layer [dispose] does nothing. *)
Lemma dispose_disposed (L : Layer) (w : World NS) :
  dispose I (disposed L, w) = (Ok tt, (disposed L, w)).
Proof.
  destruct L as [pay sp out ib ini fl vis bg pl sm bi rf md pi hs].
  destruct w as [[i p] r br g f sl lg].
  destruct i; reflexivity.
Qed.

(** C8.  Calling [dispose] twice is safe.  Both calls return success.
    The first releases each blit object the layer holds exactly once
    and nulls its handle; the second changes nothing at all, so the
    device log stays as the first call left it: nothing is released a
    second time. *)
Theorem dispose_twice (s : Self (NS:=NS)) :
  let r1 := dispose I s in
  let r2 := dispose I (snd r1) in
  fst r1 = Ok tt /\ fst r2 = Ok tt
  /\ snd r2 = snd r1
  /\ Gpu.log (gpu (snd (snd r1))) = Gpu.log (gpu (snd s)) ++ releases_of (fst s)
  /\ Gpu.log (gpu (snd (snd r2))) = Gpu.log (gpu (snd s)) ++ releases_of (fst s)
  /\ (_blit_bind_group (fst (snd r1)) = None
      /\ _blit_pipeline (fst (snd r1)) = None
      /\ _blit_sampler (fst (snd r1)) = None).
Proof.
  destruct s as [L w]. cbv zeta.
  destruct (dispose_clears L w) as (Hok & Hl & Hlog).
  destruct (dispose I (L, w)) as [res [L1 w1]].
  cbn [fst snd] in *. subst res L1.
  rewrite dispose_disposed. cbn [fst snd].
  repeat split; assumption.
Qed.

(** Building the pipeline asks the device for no draw and no release
    of a pipeline or sampler, leaves the bridge alone, and reports
    success only with the pipeline flag up. *)
Lemma createBlitPipeline_effect (ctx : Gpu.Context) (L : Layer) (w : World NS) :
  let r := createBlitPipeline ctx (L, w) in
  (exists evs,
      Gpu.log (gpu (snd (snd r))) = Gpu.log (gpu w) ++ evs
      /\ existsb is_teardown evs = false
      /\ existsb Gpu.is_draw evs = false)
  /\ (fst r = true -> _blit_initialized (fst (snd r)) = true).
Proof.
  destruct L as [pay sp out ib ini fl vis bg pl sm bi rf md pi hs].
  destruct w as [p r br [nh o lg] f sl lgd].
  cbv zeta.
  destruct bi.
  - cbn. split; [exists []; now rewrite app_nil_r|auto].
  - destruct o as [|[|] [|[|] [|[|] [|[|] [|[|] o]]]]]; cbn;
      (split; [log_suffix; split; reflexivity|]);
      repeat split; try discriminate.
Qed.

(** The second half of a blit never touches pipeline, sampler or flag,
    never asks for their release, and draws only when it returns
    [true]. *)
Lemma bindAndDraw_effect (ctx : Gpu.Context) (L : Layer) (w : World NS) :
  let r := bindAndDraw ctx (L, w) in
  (exists evs,
      Gpu.log (gpu (snd (snd r))) = Gpu.log (gpu w) ++ evs
      /\ existsb is_teardown evs = false
      /\ (fst r = false -> existsb Gpu.is_draw evs = false))
  /\ _blit_pipeline (fst (snd r)) = _blit_pipeline L
  /\ _blit_sampler (fst (snd r)) = _blit_sampler L
  /\ _blit_initialized (fst (snd r)) = _blit_initialized L.
Proof.
  destruct L as [pay sp out ib ini fl vis bg pl sm bi rf md pi hs].
  destruct w as [p r br [nh o lg] f sl lgd].
  cbv zeta.
  destruct o as [|[|] [|[|] [|[|] [|[|] [|[|] [|[|] o]]]]]], bg; cbn;
    (split; [log_suffix; split; [reflexivity|try discriminate; reflexivity]|]);
    repeat split.
Qed.

(** The two halves of a blit. *)
Lemma blitRenderTexture_unfold (ctx : Gpu.Context) (L : Layer) (w : World NS) :
  blitRenderTexture ctx (L, w)
  = match Bridge.render_texture_view (bridge w) with
    | None => (false, (L, w))
    | Some _ =>
        if _blit_initialized L then bindAndDraw ctx (L, w)
        else let '(built, s) := createBlitPipeline ctx (L, w) in
             if built then bindAndDraw ctx s else (false, s)
    end.
Proof.
  destruct L as [pay sp out ib ini fl vis bg pl sm bi rf md pi hs].
  destruct w as [p r [bi0 ba bd bq view] g f sl lgd].
  destruct view as [v|]; [|reflexivity].
  destruct bi; [reflexivity|].
  cbv beta iota zeta delta
    [blitRenderTexture bind world on_bridge zoom this gets ret set_bridge
     Bridge.yetty_wgpu_get_render_texture_view fst snd bridge plugin py gpu
     fs spdlog logged Bridge.render_texture_view is_some negb
     _blit_initialized].
  destruct (createBlitPipeline ctx _) as [[|] [L1 w1]]; reflexivity.
Qed.

(** Whatever the device does, a blit never asks it to release the
    pipeline or the sampler, draws only when it returns [true], and
    returns [true] only with the pipeline built. *)
Lemma blit_never_tears_down (ctx : Gpu.Context) (L : Layer) (w : World NS) :
  let r := blitRenderTexture ctx (L, w) in
  (exists evs,
      Gpu.log (gpu (snd (snd r))) = Gpu.log (gpu w) ++ evs
      /\ existsb is_teardown evs = false
      /\ (fst r = false -> existsb Gpu.is_draw evs = false))
  /\ (fst r = true -> _blit_initialized (fst (snd r)) = true).
Proof.
  cbv zeta. rewrite blitRenderTexture_unfold.
  destruct (Bridge.render_texture_view (bridge w)) as [v|].
  2:{ cbn. split; [exists []; now rewrite app_nil_r|discriminate]. }
  destruct (_blit_initialized L) eqn:Hbi.
  - destruct (bindAndDraw_effect ctx L w) as (Hlog & _ & _ & Hi).
    split; [exact Hlog|]. intros _. now rewrite Hi.
  - destruct (createBlitPipeline_effect ctx L w)
      as ((evs1 & Hlog1 & Htd1 & Hdr1) & Hbuilt).
    destruct (createBlitPipeline ctx (L, w)) as [built [L1 w1]].
    cbn [fst snd] in *.
    destruct built.
    + specialize (Hbuilt eq_refl).
      destruct (bindAndDraw_effect ctx L1 w1)
        as ((evs2 & Hlog2 & Htd2 & Hdr2) & _ & _ & Hi).
      split; [|intros _; now rewrite Hi].
      exists (evs1 ++ evs2). rewrite Hlog2, Hlog1, app_assoc.
      split; [reflexivity|].
      rewrite !existsb_app, Htd1, Hdr1. split; [exact Htd2|exact Hdr2].
    + cbn. split; [|discriminate].
      exists evs1. auto.
Qed.
(** C9.  When the off-screen view is null, [blitRenderTexture]
    returns [false] and changes nothing.  When the blit pipeline is
    built and the device refuses the bind group, the encoder, the
    surface view or the pass, the call returns [false], the pipeline
    and the sampler stay as they were, and the device is asked neither
    to draw nor to release them; only that call fails: the next one
    returns [true] if the device then accepts every creation. *)
Theorem blit_failure_is_local (ctx : Gpu.Context) (L : Layer) (w : World NS) :
  Bridge.render_texture_view (bridge w) = None
  \/ (_blit_initialized L = true
      /\ creation_fails (Gpu.oracle (gpu w)) = true) ->
  let r := blitRenderTexture ctx (L, w) in
  fst r = false
  /\ (_blit_pipeline (fst (snd r)) = _blit_pipeline L
      /\ _blit_sampler (fst (snd r)) = _blit_sampler L
      /\ _blit_initialized (fst (snd r)) = _blit_initialized L)
  /\ (exists evs,
        Gpu.log (gpu (snd (snd r))) = Gpu.log (gpu w) ++ evs
        /\ existsb Gpu.is_draw evs = false
        /\ existsb is_teardown evs = false)
  /\ (Bridge.render_texture_view (bridge w) = None -> snd r = (L, w))
  /\ (Bridge.render_texture_view (bridge w) <> None ->
      Gpu.oracle (gpu (snd (snd r))) = [] ->
      fst (blitRenderTexture ctx (snd r)) = true).
Proof.
  intros H.
  destruct L as [pay sp out ib ini fl vis bg pl sm bi rf md pi hs].
  destruct w as [p r [bi0 ba bd bq view] [nh o lg] f sl lgd].
  cbn [bridge gpu Bridge.render_texture_view _blit_initialized
       Gpu.oracle] in H.
  destruct view as [v|].
  - destruct H as [H|[Hbi Hf]]; [discriminate|]. subst bi.
    destruct o as [|b1 [|b2 [|b3 [|b4 [|b5 o]]]]];
      cbn in Hf; try discriminate;
      repeat match type of Hf with
             | context [if ?b then _ else _] => destruct b
             | context [match ?b with true => _ | false => _ end] =>
                 destruct b
             end;
      try discriminate;
      destruct b1, bg; cbv zeta;
      (split; [reflexivity|]); (split; [repeat split|]);
      (split; [cbn; eexists; rewrite <- ?app_assoc;
               (split; [reflexivity|split; reflexivity])|]);
      (split; [discriminate|]);
      cbn; intros _ Ho; try subst o; try discriminate Ho; reflexivity.
  - cbv zeta. split; [reflexivity|]. split; [repeat split|].
    split; [exists []; cbn; now rewrite app_nil_r|].
    split; [reflexivity|]. intros Hv. now elim Hv.
Qed.

End WithInterp.

(** C1 as stated fails: on a failed layer [render] returns an error,
    not success. *)
Lemma render_failed_is_not_success :
  _failed Demo.failed_layer = true
  /\ fst (render Demo.python Demo.ctx (Demo.failed_layer, Demo.world))
     = Err (Msg "PythonLayer already failed")
  /\ fst (render Demo.python Demo.ctx (Demo.failed_layer, Demo.world))
     <> Ok tt.
Proof. repeat split. discriminate. Qed.

(** Witness for C1: a failed layer. *)
Lemma render_failed_or_invisible_witness :
  (_failed Demo.failed_layer = true \/ _visible Demo.failed_layer = false)
  /\ render Demo.python Demo.ctx (Demo.failed_layer, Demo.world)
     = (Err1 "PythonLayer already failed", (Demo.failed_layer, Demo.world)).
Proof.
  split.
  - left. reflexivity.
  - apply (render_failed_or_invisible Demo.python Demo.ctx
             Demo.failed_layer Demo.world).
    left. reflexivity.
Defined.

(** C4 as stated fails: line feed (codepoint 10) is not printable,
    yet [onChar] appends it to the buffer. *)
Lemma onChar_appends_control_character :
  printable_ascii 10 = false
  /\ fst (onChar 10 (Demo.layer, Demo.world)) = true
  /\ _input_buffer (fst (snd (onChar 10 (Demo.layer, Demo.world))))
     = push_back (_input_buffer Demo.layer) (ascii_of_N 10)
  /\ _input_buffer (fst (snd (onChar 10 (Demo.layer, Demo.world))))
     <> _input_buffer Demo.layer.
Proof. repeat split. discriminate. Qed.

(** C6 as stated fails.  ["/tmp"] names a directory, not a readable
    file, yet [std::ifstream] opens it: [init] takes the script
    branch, runs the nothing that the stream delivers and reports
    ["Script executed: /tmp"], where executing the payload as inline
    code would have reported the error of the code ["/tmp"].  The
    empty payload, which names no file either, is not executed at
    all: with the interpreter down [_output] stays empty instead of
    reporting the error of [execute], and on a running interpreter
    one [StringIO] less is made. *)
Lemma init_runs_directory_as_script :
  (fs Demo.world !! c_str "/tmp" = Some Directory
   /\ _output (fst (snd (init Demo.python Demo.message "/tmp"
                              (Demo.layer, Demo.world))))
      = "Script executed: /tmp"
   /\ _script_path (fst (snd (init Demo.python Demo.message "/tmp"
                                   (Demo.layer, Demo.world))))
      = "/tmp"
   /\ _output (fst (snd (init_inline Demo.python Demo.message "/tmp"
                                     (Demo.layer, Demo.world))))
      = "Error: Python execution error: "
   /\ init Demo.python Demo.message "/tmp" (Demo.layer, Demo.world)
      <> init_inline Demo.python Demo.message "/tmp"
           (Demo.layer, Demo.world))
  /\ (fs Demo.world !! c_str EmptyString = None
      /\ _output (fst (snd (init Demo.python Demo.message EmptyString
                                 (Demo.layer, Demo.world_disposed))))
         = EmptyString
      /\ _output (fst (snd (init_inline Demo.python Demo.message EmptyString
                                        (Demo.layer, Demo.world_disposed))))
         = "Error: Python not initialized"
      /\ snd (snd (init Demo.python Demo.message EmptyString
                        (Demo.layer, Demo.world)))
         = Demo.world
      /\ heap (py (snd (snd (init_inline Demo.python Demo.message EmptyString
                                         (Demo.layer, Demo.world)))))
         = [EmptyString]).
Proof.
  split.
  - repeat split; try reflexivity.
    intros H.
    apply (f_equal (fun r => _output (fst (snd r)))) in H.
    vm_compute in H. discriminate.
  - repeat split; reflexivity.
Qed.

(** Witness for C6: the inline program of the scenario. *)
Lemma init_runs_inline_code_witness :
  (empty Demo.inline_42 = false
   /\ fs Demo.world !! c_str Demo.inline_42 = None)
  /\ fst (init Demo.python Demo.message Demo.inline_42
               (Demo.layer, Demo.world)) = Some (Ok tt)
  /\ _output (fst (snd (init Demo.python Demo.message Demo.inline_42
                             (Demo.layer, Demo.world))))
     = "42" +:+ LF.
Proof.
  split.
  - split; reflexivity.
  - destruct (init_runs_inline_code Demo.python Demo.message
                Demo.inline_42 Demo.layer Demo.world)
      as (_ & _ & Hout); [reflexivity|reflexivity|].
    apply Hout; [repeat split; reflexivity|reflexivity|reflexivity].
Defined.

(** C10, at the failing input.  The inline payload prints a lone
    surrogate and raises nothing.  [PyUnicode_AsUTF8] yields null for
    the captured text and [execute] assigns it to a [std::string]:
    the process ends there, [init] does not return and no layer is
    created.  For every payload, a call of [init] that returns
    returns [Ok] (a failure of the script or of the inline code only
    shows as text in [_output]), and [createLayer] then hands out the
    layer. *)
Theorem init_ends_on_surrogate_output :
  (ready Demo.python Demo.world
   /\ raised (outcome_of Demo.python Demo.print_surrogate Demo.world) = None
   /\ has_surrogate
        (text_of (writes (outcome_of Demo.python Demo.print_surrogate
                                     Demo.world))) = true)
  /\ fst (PythonPlugin.execute Demo.python Demo.print_surrogate Demo.world)
     = None
  /\ fst (init Demo.python Demo.message Demo.print_surrogate
               (Demo.layer, Demo.world)) = None
  /\ fst (LayerFactory.createLayer Demo.python Demo.message Demo.layer
             Demo.print_surrogate Demo.world) = None
  /\ (forall NS (I : Interp NS) (message : Error -> string)
             (payload : string) (L : Layer) (w : World NS),
        (fst (init I message payload (L, w)) = Some (Ok tt)
         \/ fst (init I message payload (L, w)) = None)
        /\ _output (fst (snd (init I message payload (L, w))))
           = output_after_init I message payload L w
        /\ LayerFactory.createLayer I message L payload w
           = (match fst (init I message payload (L, w)) with
              | Some _ => Some (Ok (fst (snd (init I message payload (L, w)))))
              | None => None
              end,
              snd (snd (init I message payload (L, w))))).
Proof.
  split; [repeat split; reflexivity|].
  split; [reflexivity|]. split; [reflexivity|]. split; [reflexivity|].
  intros NS I message payload L w.
  destruct (init_result I message payload L w) as [Hok Hout].
  split; [exact Hok|]. split; [exact Hout|].
  apply createLayer_result.
Qed.

(** Witness for C7: [hi] is not defined in the test double. *)
Lemma repl_undefined_name_witness :
  (_input_buffer Demo.layer = EmptyString
   /\ ready Demo.python Demo.world
   /\ raised (outcome_of Demo.python "hi" Demo.world)
      = Some ("NameError: name 'hi' is not defined" +:+ LF))
  /\ _input_buffer
       (fst (snd (onKey Demo.python Demo.message 257 0 1 0
                    (snd (onChar (N_of_ascii "i")
                            (snd (onChar (N_of_ascii "h")
                                         (Demo.layer, Demo.world))))))))
     = EmptyString
  /\ _output
       (fst (snd (onKey Demo.python Demo.message 257 0 1 0
                    (snd (onChar (N_of_ascii "i")
                            (snd (onChar (N_of_ascii "h")
                                         (Demo.layer, Demo.world))))))))
     = ">>> hi" +:+ LF +:+ "Error: Python execution error: " +:+ LF.
Proof.
  split.
  - repeat split; reflexivity.
  - destruct (repl_undefined_name Demo.python Demo.message Demo.layer
                Demo.world 0%Z 0%Z
                ("NameError: name 'hi' is not defined" +:+ LF))
      as (_ & _ & Hbuf & Hout);
      [reflexivity|repeat split; reflexivity|reflexivity|].
    split; [exact Hbuf|exact Hout].
Defined.

(** Witness for C9: the device refuses the bind group of a layer that
    has blitted before. *)
Lemma blit_failure_is_local_witness :
  (Bridge.render_texture_view (bridge Demo.world_bind_group_fails) = None
   \/ (_blit_initialized Demo.blitting_layer = true
       /\ creation_fails (Gpu.oracle (gpu Demo.world_bind_group_fails))
          = true))
  /\ fst (blitRenderTexture Demo.ctx
            (Demo.blitting_layer, Demo.world_bind_group_fails)) = false
  /\ _blit_pipeline
       (fst (snd (blitRenderTexture Demo.ctx
                    (Demo.blitting_layer, Demo.world_bind_group_fails))))
     = Some 7
  /\ _blit_sampler
       (fst (snd (blitRenderTexture Demo.ctx
                    (Demo.blitting_layer, Demo.world_bind_group_fails))))
     = Some 8.
Proof.
  split.
  - right. split; reflexivity.
  - destruct (blit_failure_is_local Demo.ctx Demo.blitting_layer
                Demo.world_bind_group_fails)
      as (Hret & (Hpl & Hsm & _) & _);
      [right; split; reflexivity|].
    split; [exact Hret|]. split; [exact Hpl|exact Hsm].
Defined.

End LayerFacts.

(* ================================================================== *)
(** * Rules for properties that hold along every path                  *)
(* ================================================================== *)

Module AlongFacts.
Import Along.

Section Rules.
Context {S : Type} (R : S -> S -> Prop).

Lemma steps_ret {A} (a : A) : Reflexive R -> steps R (ret a).
Proof. intros HR s. apply HR. Qed.

Lemma steps_gets {A} (f : S -> A) : Reflexive R -> steps R (gets f).
Proof. intros HR s. apply HR. Qed.

Lemma steps_bind {A B} (m : State S A) (k : A -> State S B) :
  Transitive R -> steps R m -> (forall a, steps R (k a)) ->
  steps R (bind m k).
Proof.
  intros HT Hm Hk s. unfold bind.
  specialize (Hm s). destruct (m s) as [a s1]. cbn [snd] in Hm.
  specialize (Hk a s1). destruct (k a s1) as [b s2]. cbn [snd] in *.
  exact (HT _ _ _ Hm Hk).
Qed.

Lemma results_ret {A} (P : A -> Prop) (a : A) :
  P a -> results (S:=S) P (ret a).
Proof. intros H s. exact H. Qed.

Lemma results_bind {A B} (P : B -> Prop) (m : State S A)
      (k : A -> State S B) :
  (forall a, results P (k a)) -> results P (bind m k).
Proof.
  intros Hk s. unfold bind. destruct (m s) as [a s1]. apply Hk.
Qed.

End Rules.

End AlongFacts.

(** Walk down a member function, one statement at a time. *)
Ltac walk_with leaf :=
  repeat first
    [ leaf
    | lazymatch goal with
      | |- Along.steps _ (ret _) =>
          apply AlongFacts.steps_ret; typeclasses eauto
      | |- Along.steps _ (gets _) =>
          apply AlongFacts.steps_gets; typeclasses eauto
      | |- Along.steps _ (bind _ _) =>
          apply AlongFacts.steps_bind; [typeclasses eauto | | intros ?]
      | |- Along.steps _ (if ?b then _ else _) => destruct b
      | |- Along.steps _ (match ?x with _ => _ end) => destruct x
      | |- Along.steps _ (let _ := _ in _) => cbv zeta
      end ].

Module ServiceFacts.
Import Py Proc CPython PythonPlugin Spec Along Frame.

Lemma c_str_idem (s : string) : c_str (c_str s) = c_str s.
Proof.
  apply PluginFacts.c_str_nul_free, PluginFacts.c_str_is_nul_free.
Qed.

Section WithInterp.
Context {NS : Type} (I : Interp NS).

#[local] Instance same_outside_refl : Reflexive (same_outside (NS:=NS)).
Proof. intros w. repeat split. Qed.

#[local] Instance same_outside_trans : Transitive (same_outside (NS:=NS)).
Proof.
  intros a b c (H1 & H2 & H3 & H4 & H5) (G1 & G2 & G3 & G4 & G5).
  repeat split; congruence.
Qed.

Lemma on_py_outside {A} (m : State (Runtime NS) A) :
  steps same_outside (on_py m).
Proof.
  intros w. unfold on_py, zoom. destruct (m (py w)). repeat split.
Qed.

Lemma on_bridge_outside {A} (m : State Bridge.Table A) :
  steps (same_outside (NS:=NS)) (on_bridge m).
Proof.
  intros w. unfold on_bridge, zoom. destruct (m (bridge w)). repeat split.
Qed.

Lemma PyRun_String_outside (code : string) :
  steps same_outside (PyRun_String I code).
Proof. intros w. repeat split. Qed.

Lemma PyImport_ImportModule_outside (name : string) :
  steps same_outside (PyImport_ImportModule I name).
Proof. intros w. repeat split. Qed.

Lemma PyObject_GetAttrString_outside (o : PyObj) (attr : string) :
  steps same_outside (PyObject_GetAttrString I o attr).
Proof.
  intros w. unfold PyObject_GetAttrString.
  destruct (lookup I _ _ _ _). repeat split.
Qed.

Lemma PyObject_CallObject_outside (f : PyObj) :
  steps same_outside (PyObject_CallObject I f).
Proof. intros w. destruct f; repeat split. Qed.

Lemma PyObject_IsTrue_outside (o : Truth) :
  steps (same_outside (NS:=NS)) (PyObject_IsTrue o).
Proof. intros w. destruct o; repeat split. Qed.

Lemma StringIO_getvalue_outside (s : Stream) :
  steps (same_outside (NS:=NS)) (StringIO_getvalue s).
Proof.
  intros w. unfold StringIO_getvalue.
  destruct (err_indicator (py w)); repeat split.
Qed.

Ltac py_leaf :=
  first [ apply on_py_outside | apply on_bridge_outside
        | apply PyRun_String_outside | apply PyObject_CallObject_outside
        | apply PyImport_ImportModule_outside
        | apply PyObject_GetAttrString_outside
        | apply PyObject_IsTrue_outside
        | apply StringIO_getvalue_outside ].

(** The calls [execute] makes go to the interpreter and, through it,
    to the bridge table: the plugin flags, the log and what the model
    keeps of the device and the files are not among the things an
    [Outcome] describes. *)
Lemma execute_outside (code : string) :
  steps same_outside (execute I code).
Proof.
  unfold execute, sys_getattr, sys_setattr,
    StringIO_new, PyErr_Print, PyErr_Clear.
  walk_with py_leaf.
Qed.

Lemma runFile_outside_log (path : string) (w : World NS) :
  same_machinery w (snd (runFile I path w)).
Proof.
  unfold runFile, bind, ifstream, gets, ret.
  destruct (fs w !! c_str path) as [node|]; [|repeat split].
  destruct (execute_outside (rdbuf node) w) as (H1 & H2 & H3 & _).
  cbn [fmap option_fmap option_map].
  destruct (execute I (rdbuf node) w) as [[[o|e]|] w']; cbn [fst snd] in *;
    repeat split; assumption.
Qed.

(** X1.  Whatever the code does and whatever state the interpreter is
    in, a call of [execute] or [runFile] that returns leaves
    [sys.stdout] and [sys.stderr] bound to the objects they were
    bound to before the call.  A call of [execute] that does not
    return has left both bound to one capture buffer. *)
Theorem streams_are_restored (code path : string) (w : World NS) :
  (fst (execute I code w) <> None ->
   sys_stdout (py (snd (execute I code w))) = sys_stdout (py w)
   /\ sys_stderr (py (snd (execute I code w))) = sys_stderr (py w))
  /\ (fst (runFile I path w) <> None ->
      sys_stdout (py (snd (runFile I path w))) = sys_stdout (py w)
      /\ sys_stderr (py (snd (runFile I path w))) = sys_stderr (py w))
  /\ (fst (execute I code w) = None ->
      exists n,
        sys_stdout (py (snd (execute I code w))) = StringIO n
        /\ sys_stderr (py (snd (execute I code w))) = StringIO n).
Proof.
  split; [apply PluginFacts.execute_restores_streams|]. split.
  - destruct (fs w !! c_str path) as [node|] eqn:Hf.
    + rewrite (PluginFacts.runFile_opened I path node w Hf).
      pose proof (PluginFacts.execute_restores_streams I (rdbuf node) w) as H.
      destruct (execute I (rdbuf node) w) as [[[o|e]|] w'];
        cbn [fst snd] in *; intros Hret;
        try (apply H; discriminate). congruence.
    + rewrite PluginFacts.runFile_open_failure by exact Hf.
      intros _. split; reflexivity.
  - destruct (_py_initialized (plugin w)) eqn:Hinit.
    2:{ rewrite PluginFacts.execute_not_initialized by exact Hinit.
        discriminate. }
    destruct (PluginFacts.execute_cases I code w Hinit)
      as [-> | [-> | [_ ->]]]; cbn [fst snd]; try discriminate.
    unfold process_after. intros ->.
    eexists. split; reflexivity.
Qed.

(** X2.  The three guards of [execute].  When the interpreter is not
    initialised the call fails with "Python not initialized" and
    changes nothing at all.  When the import of [sys] fails, or after
    it the import of [io], the call fails with the message of that
    guard and the process is as the failed import leaves it: its
    exception is pending, since nothing clears it.  The code has not
    run and the streams are bound as before. *)
Theorem execute_guards (code : string) (w : World NS) :
  (_py_initialized (plugin w) = false ->
   execute I code w = (Some (Err1 "Python not initialized"), w))
  /\ (_py_initialized (plugin w) = true ->
      pending (sys_imported I w) <> None ->
      execute I code w
      = (Some (Err1 "Failed to import sys module"), sys_imported I w))
  /\ (_py_initialized (plugin w) = true ->
      pending (sys_imported I w) = None ->
      pending (io_imported I w) <> None ->
      execute I code w
      = (Some (Err1 "Failed to import io module"), io_imported I w))
  /\ (sys_stdout (py (io_imported I w)) = sys_stdout (py w)
      /\ sys_stderr (py (io_imported I w)) = sys_stderr (py w)
      /\ sys_stdout (py (sys_imported I w)) = sys_stdout (py w)
      /\ sys_stderr (py (sys_imported I w)) = sys_stderr (py w)).
Proof.
  split; [apply PluginFacts.execute_not_initialized|].
  split; [apply PluginFacts.execute_without_sys|].
  split; [apply PluginFacts.execute_without_io|].
  destruct (PluginFacts.io_imported_bindings I w) as [H1 H2].
  destruct (PluginFacts.commit_bindings
              (import_module I "sys" (pending w) (main_dict (py w))
                 (bridge w)) w) as [H3 H4].
  repeat split; assumption.
Qed.

(** X3.  The namespace persists and the capture does not: a second
    [execute] runs in the namespace and with the bridge the first one
    left, also when the first one raised, and its result holds the
    text of the second code only. *)
Theorem execute_twice (c1 c2 : string) (w : World NS) :
  ready I w ->
  loaded I "sys" (snd (execute I c1 w)) ->
  loaded I "io" (snd (execute I c1 w)) ->
  let o1 := outcome_of I c1 w in
  let o2 := run I (c_str c2) None (ns_after o1) (bridge_after o1) in
  let r := execute I c2 (snd (execute I c1 w)) in
  fst r = match raised o2 with
          | None =>
              if has_surrogate (text_of (writes o2)) then None
              else Some (Ok (c_str (text_of (writes o2))))
          | Some _ => Some (Err1 "Python execution error: ")
          end
  /\ main_dict (py (snd r)) = ns_after o2
  /\ bridge (snd r) = bridge_after o2
  /\ err_indicator (py (snd r)) = None.
Proof.
  intros Hr Hsys Hio o1 o2 r. subst r.
  rewrite (PluginFacts.execute_unfold I c1 w Hr) in *. cbn [snd] in *.
  assert (Hr1 : ready I (process_after I c1 w)).
  { destruct Hr as (Hinit & _ & _ & _).
    split; [|split; [exact Hsys|split; [exact Hio|]]].
    - unfold process_after, after_execute, cut_short.
      destruct (result_of_execute I c1 w); [|exact Hinit].
      destruct (raised (outcome_of I c1 w)); exact Hinit.
    - unfold process_after, after_execute, cut_short.
      destruct (result_of_execute I c1 w); [|reflexivity].
      destruct (raised (outcome_of I c1 w));
        [destruct (sys_stderr (py w))|]; reflexivity. }
  rewrite (PluginFacts.execute_unfold I c2 _ Hr1). cbn [fst snd].
  assert (Ho : outcome_of I c2 (process_after I c1 w) = o2).
  { unfold outcome_of, process_after, after_execute, cut_short.
    fold (outcome_of I c1 w). fold o1.
    destruct (result_of_execute I c1 w); [|reflexivity].
    destruct (raised o1); [destruct (sys_stderr (py w))|]; reflexivity. }
  generalize dependent (process_after I c1 w). intros w1 _ _ _ Ho.
  unfold process_after, result_of_execute, after_execute, cut_short.
  rewrite Ho.
  repeat split;
    destruct (raised o2); try destruct (has_surrogate (text_of (writes o2)));
    try destruct (sys_stderr (py w1)); reflexivity.
Qed.

(** X4.  What [execute] hands to the interpreter is the code up to
    its first NUL character: whatever follows is ignored. *)
Theorem execute_ignores_code_after_nul (code : string) (w : World NS) :
  execute I code w = execute I (c_str code) w.
Proof. unfold execute. now rewrite c_str_idem. Qed.

(** X5.  A text returned by [execute] never holds a NUL character,
    whatever state the process is in. *)
Theorem execute_output_has_no_nul (code out : string) (w : World NS) :
  fst (execute I code w) = Some (Ok out) -> nul_free out = true.
Proof.
  destruct (_py_initialized (plugin w)) eqn:Hinit.
  2:{ rewrite PluginFacts.execute_not_initialized by exact Hinit.
      discriminate. }
  destruct (PluginFacts.execute_cases I code w Hinit)
    as [-> | [-> | [_ ->]]]; cbn [fst snd]; try discriminate.
  unfold result_of_execute.
  destruct (raised _); [discriminate|].
  destruct (has_surrogate _); [discriminate|].
  intros H. inversion H. apply PluginFacts.c_str_is_nul_free.
Qed.

(** X6.  [runFile] on a path that cannot be opened changes nothing
    and names the path; on one that can it returns exactly when
    [execute] returns on what the stream delivers (the content of a
    file, nothing for a directory), succeeds exactly when that call
    succeeds, leaves the interpreter and the bridge as that call
    leaves them, and logs one line, on success only. *)
Theorem runFile_runs_the_content (path : string) (w : World NS) :
  match fs w !! c_str path with
  | None =>
      runFile I path w
      = (Some (Err1 ("Failed to open Python file: " +:+ path)), w)
  | Some node =>
      let e := execute I (rdbuf node) w in
      let r := runFile I path w in
      is_ok <$> fst r = is_ok <$> fst e
      /\ py (snd r) = py (snd e)
      /\ bridge (snd r) = bridge (snd e)
      /\ spdlog (snd r)
         = spdlog w ++ (match fst e with
                        | Some (Ok _) =>
                            [(info, "Python file executed: " +:+ path)]
                        | _ => []
                        end)
  end.
Proof.
  destruct (fs w !! c_str path) as [node|] eqn:Hf.
  2:{ now apply PluginFacts.runFile_open_failure. }
  cbv zeta. rewrite (PluginFacts.runFile_opened I path node w Hf).
  destruct (execute_outside (rdbuf node) w) as (_ & _ & _ & Hlog & _).
  destruct (execute I (rdbuf node) w) as [[[o|e]|] w']; cbn [fst snd] in *.
  - unfold log_msg, modify. cbn. rewrite Hlog. repeat split.
  - cbn. rewrite Hlog, app_nil_r. repeat split.
  - cbn. rewrite Hlog, app_nil_r. repeat split.
Qed.

End WithInterp.

(** Witness for X2: on an interpreter that cannot import [io] the
    call fails at the third guard and leaves the exception of the
    import pending. *)
Lemma execute_guards_witness :
  (_py_initialized (plugin Demo.world) = true
   /\ pending (sys_imported Lab.without_io Demo.world) = None
   /\ pending (io_imported Lab.without_io Demo.world) <> None)
  /\ fst (execute Lab.without_io "x = 21" Demo.world)
     = Some (Err (Msg "Failed to import io module"))
  /\ pending (snd (execute Lab.without_io "x = 21" Demo.world))
     = Some (no_module "io")
  /\ main_dict (py (snd (execute Lab.without_io "x = 21" Demo.world))) = [].
Proof.
  assert (H : pending (io_imported Lab.without_io Demo.world) <> None)
    by discriminate.
  split; [repeat split; exact H|].
  destruct (execute_guards Lab.without_io "x = 21" Demo.world)
    as (_ & _ & Hio & _).
  rewrite (Hio eq_refl eq_refl H).
  repeat split; reflexivity.
Defined.

(** Witness for X3: [x] assigned by one call is printed by the next. *)
Lemma execute_twice_witness :
  (ready Lab.python Demo.world
   /\ loaded Lab.python "sys" (snd (execute Lab.python "x = 21" Demo.world))
   /\ loaded Lab.python "io" (snd (execute Lab.python "x = 21" Demo.world)))
  /\ fst (execute Lab.python "print(x)"
            (snd (execute Lab.python "x = 21" Demo.world)))
     = Some (Ok ("21" +:+ LF)).
Proof.
  split.
  - repeat split; reflexivity.
  - destruct (execute_twice Lab.python "x = 21" "print(x)" Demo.world)
      as (H & _);
      [repeat split; reflexivity|repeat split; reflexivity
      |repeat split; reflexivity|].
    exact H.
Defined.

(** Witness for X5: the text printed with a NUL in it comes back cut. *)
Lemma execute_output_has_no_nul_witness :
  fst (execute Demo.python Demo.print_nul Demo.world) = Some (Ok "a")
  /\ nul_free "a" = true.
Proof.
  split.
  - reflexivity.
  - apply (execute_output_has_no_nul Demo.python Demo.print_nul "a"
             Demo.world).
    reflexivity.
Defined.

End ServiceFacts.

(* ================================================================== *)
(** * Properties of the layer along every path                         *)
(* ================================================================== *)

Module PathFacts.
Import Py Proc CPython PythonLayer Spec Along Frame Ledger.

Section WithInterp.
Context {NS : Type} (I : Interp NS) (message : Error -> string).

#[local] Instance same_flags_refl : Reflexive (same_flags (NS:=NS)).
Proof. intros s. split; reflexivity. Qed.

#[local] Instance same_flags_trans : Transitive (same_flags (NS:=NS)).
Proof. intros a b c [H1 H2] [G1 G2]. split; congruence. Qed.

(** A computation on the process does not touch the layer. *)
Lemma world_flags {A} (m : State (World NS) A) :
  steps same_flags (world m).
Proof.
  intros [L w]. unfold world, zoom. cbn [snd fst].
  destruct (m w). split; reflexivity.
Qed.

Lemma assign_flags (f : Layer -> Layer) :
  (forall l, _failed (f l) = _failed l /\ _visible (f l) = _visible l) ->
  steps (same_flags (NS:=NS)) (assign f).
Proof. intros H [L w]. exact (H L). Qed.

Ltac flags_leaf :=
  first [ apply world_flags
        | apply assign_flags; intros []; split; reflexivity ].

Lemma perform_flags (c : Call) :
  steps same_flags (perform I message c).
Proof.
  destruct c; unfold perform, init, render, onKey, onChar, dispose,
    renderPygfx, blitRenderTexture, createBlitPipeline, bindAndDraw, this;
    walk_with flags_leaf.
Qed.

Lemma session_flags (cs : list Call) :
  steps same_flags (session I message cs).
Proof.
  induction cs as [|c cs IH]; [intros s; split; reflexivity|].
  cbn [session]. apply AlongFacts.steps_bind;
    [typeclasses eauto|apply perform_flags|].
  intros [[]|]; [exact IH|intros s; split; reflexivity].
Qed.

(** X8.  No call on a layer changes its failure flag or its
    visibility: whatever sequence of [init], [render], [onKey],
    [onChar] and [dispose] the host makes, [_failed] and [_visible]
    are afterwards what they were before. *)
Theorem flags_are_the_hosts (cs : list Call) (s : Self) :
  _failed (fst (snd (session I message cs s))) = _failed (fst s)
  /\ _visible (fst (snd (session I message cs s))) = _visible (fst s).
Proof. exact (session_flags cs s). Qed.


End WithInterp.
End PathFacts.

(* ================================================================== *)
(** * The account of the GPU objects of a layer                        *)
(* ================================================================== *)

Module LedgerFacts.
Import Py Proc CPython PythonLayer Spec Along Frame Ledger.

Lemma creations_app (k : Gpu.Kind) (a b : list Gpu.Event) :
  creations k (a ++ b) = creations k a + creations k b.
Proof. unfold creations. now rewrite List.filter_app, List.length_app. Qed.

Lemma releases_app (k : Gpu.Kind) (a b : list Gpu.Event) :
  releases k (a ++ b) = releases k a + releases k b.
Proof. unfold releases. now rewrite List.filter_app, List.length_app. Qed.

Lemma owned_listed (k : Gpu.Kind) : owned k = true -> In k owned_kinds.
Proof. destruct k; cbn; intros H; try discriminate; tauto. Qed.

(** The boolean check on the listed kinds gives the equation for
    every owned kind. *)
Lemma settled_all (evs : list Gpu.Event) (l l' : Layer) :
  forallb (fun k => settled k evs l l') owned_kinds = true ->
  forall k, owned k = true ->
    creations k evs + holds k l = releases k evs + holds k l'.
Proof.
  intros H k Hk. rewrite forallb_forall in H.
  specialize (H k (owned_listed k Hk)). now apply Nat.eqb_eq in H.
Qed.

Section WithInterp.
Context {NS : Type} (I : Interp NS) (message : Error -> string).

#[local] Instance accounted_refl : Reflexive (accounted (NS:=NS)).
Proof.
  intros s Hc. split; [exact Hc|]. exists []. split; [now rewrite app_nil_r|].
  split; [intros k _; reflexivity|]. cbn. lia.
Qed.

#[local] Instance accounted_trans : Transitive (accounted (NS:=NS)).
Proof.
  intros a b c Hab Hbc Hc.
  destruct (Hab Hc) as (Hcb & e1 & Hl1 & He1 & Hs1).
  destruct (Hbc Hcb) as (Hcc & e2 & Hl2 & He2 & Hs2).
  split; [exact Hcc|]. exists (e1 ++ e2). split; [|split].
  - now rewrite Hl2, Hl1, app_assoc.
  - intros k Hk. specialize (He1 k Hk). specialize (He2 k Hk).
    rewrite creations_app, releases_app. lia.
  - rewrite creations_app, releases_app. lia.
Qed.

Lemma same_gpu_accounted (s s' : Self (NS:=NS)) :
  same_gpu s s' -> accounted s s'.
Proof.
  intros (Hg & Hbg & Hpl & Hsm & Hbi) Hc. split.
  - unfold coherent in *. rewrite Hbi, Hpl. exact Hc.
  - exists []. rewrite Hg, app_nil_r. split; [reflexivity|].
    split; [intros k _; unfold holds; now rewrite Hbg, Hpl, Hsm|].
    unfold holds. rewrite Hsm. cbn. lia.
Qed.

(** The two boolean checks give the two parts of the account. *)
Lemma checked (evs : list Gpu.Event) (l l' : Layer) :
  forallb (fun k => settled k evs l l') owned_kinds = true ->
  bounded Gpu.Sampler evs l l' = true ->
  (forall k, owned k = true ->
     creations k evs + holds k l = releases k evs + holds k l')
  /\ releases Gpu.Sampler evs + holds Gpu.Sampler l'
     <= creations Gpu.Sampler evs + holds Gpu.Sampler l.
Proof.
  intros H1 H2. split; [now apply settled_all|].
  now apply Nat.leb_le in H2.
Qed.

(** A computation on the process that leaves the device alone. *)
Lemma world_accounted {A} (m : State (World NS) A) :
  (forall w, gpu (snd (m w)) = gpu w) -> steps accounted (world m).
Proof.
  intros H [L w]. apply same_gpu_accounted.
  unfold world, zoom, same_gpu. cbn [fst snd].
  specialize (H w). destruct (m w) as [a w']. cbn [fst snd] in *.
  repeat split. exact H.
Qed.

Lemma assign_accounted (f : Layer -> Layer) :
  (forall l, _blit_bind_group (f l) = _blit_bind_group l
             /\ _blit_pipeline (f l) = _blit_pipeline l
             /\ _blit_sampler (f l) = _blit_sampler l
             /\ _blit_initialized (f l) = _blit_initialized l) ->
  steps (accounted (NS:=NS)) (assign f).
Proof.
  intros H [L w]. apply same_gpu_accounted.
  destruct (H L) as (H1 & H2 & H3 & H4).
  unfold same_gpu. cbn. repeat split; assumption.
Qed.

Lemma createBlitPipeline_accounted (ctx : Gpu.Context) :
  steps accounted (createBlitPipeline (NS:=NS) ctx).
Proof.
  intros [L w] Hc.
  destruct L as [pay sp out ib ini fl vis bg pl sm bi rf md pi hs].
  destruct w as [p r br [nh o lg] f sl lgd].
  unfold coherent in Hc. cbn in Hc.
  destruct bi.
  - cbn. split; [intros H; discriminate|].
    exists []. split; [now rewrite app_nil_r|].
    split; [intros k _; reflexivity|]. cbn. lia.
  - rewrite (Hc eq_refl).
    destruct o as [|[|] [|[|] [|[|] [|[|] [|[|] o]]]]], bg, sm; cbn;
      (split; [unfold coherent; cbn; intros H; try discriminate; reflexivity|]);
      LayerFacts.log_suffix; apply checked; reflexivity.
Qed.

Lemma bindAndDraw_accounted (ctx : Gpu.Context) :
  steps accounted (bindAndDraw (NS:=NS) ctx).
Proof.
  intros [L w] Hc.
  destruct L as [pay sp out ib ini fl vis bg pl sm bi rf md pi hs].
  destruct w as [p r br [nh o lg] f sl lgd].
  unfold coherent in Hc. cbn in Hc.
  destruct o as [|[|] [|[|] [|[|] [|[|] [|[|] [|[|] o]]]]]], bg, pl, sm; cbn;
    (split; [unfold coherent; cbn; exact Hc|]);
    LayerFacts.log_suffix; apply checked; reflexivity.
Qed.


Lemma blitRenderTexture_accounted (ctx : Gpu.Context) :
  steps accounted (blitRenderTexture (NS:=NS) ctx).
Proof.
  intros [L w]. rewrite LayerFacts.blitRenderTexture_unfold.
  destruct (Bridge.render_texture_view (bridge w)); [|reflexivity].
  destruct (_blit_initialized L); [apply bindAndDraw_accounted|].
  pose proof (createBlitPipeline_accounted ctx (L, w)) as H1.
  destruct (createBlitPipeline ctx (L, w)) as [[|] s1]; cbn [snd] in *;
    [|exact H1].
  exact (accounted_trans _ _ _ H1 (bindAndDraw_accounted ctx s1)).
Qed.

Lemma dispose_accounted : steps accounted (dispose (NS:=NS) I).
Proof.
  intros [L w] _.
  destruct (LayerFacts.dispose_clears I L w) as (_ & HL & Hlog).
  cbn [fst snd]. rewrite HL. split; [intros _; reflexivity|].
  exists (releases_of L). split; [exact Hlog|].
  destruct L as [pay sp out ib ini fl vis bg pl sm bi rf md pi hs].
  unfold releases_of. cbn.
  destruct bg, pl, sm;
    (split; [intros k Hk; destruct k; try discriminate Hk; reflexivity|]);
    cbn; lia.
Qed.

Ltac gpu_leaf :=
  first
    [ apply blitRenderTexture_accounted
    | apply dispose_accounted
    | apply assign_accounted; intros []; repeat split; reflexivity
    | apply world_accounted; intros w';
      first [ reflexivity
            | apply (ServiceFacts.execute_outside I)
            | apply (ServiceFacts.runFile_outside_log I)
            | apply ServiceFacts.on_bridge_outside
            | apply ServiceFacts.on_py_outside
            | apply (ServiceFacts.PyImport_ImportModule_outside I)
            | apply (ServiceFacts.PyObject_GetAttrString_outside I)
            | apply ServiceFacts.PyObject_IsTrue_outside
            | apply (ServiceFacts.PyObject_CallObject_outside I) ] ].

Lemma perform_accounted (c : Call) :
  steps accounted (perform I message c).
Proof.
  destruct c; unfold perform.
  - unfold init, this. walk_with gpu_leaf.
  - unfold render, renderPygfx, this, PyErr_Print, PyErr_Clear.
    walk_with gpu_leaf.
  - unfold onKey, this. walk_with gpu_leaf.
  - unfold onChar, this. walk_with gpu_leaf.
  - walk_with gpu_leaf.
Qed.

Lemma session_accounted (cs : list Call) :
  steps accounted (session I message cs).
Proof.
  induction cs as [|c cs IH]; [intros s; reflexivity|].
  cbn [session]. apply AlongFacts.steps_bind;
    [typeclasses eauto|apply perform_accounted|].
  intros [[]|]; [exact IH|intros s; reflexivity].
Qed.

(** X10.  The account of the GPU objects of a layer.  Take a layer
    whose pipeline flag agrees with its pipeline handle, any sequence
    of calls on it that the process survives, whatever the
    interpreter and the device answer, and a final [dispose].  For
    every kind of object but the sampler and the host's surface view,
    the device has been asked to release as many objects as the layer
    held at the start and created since.  The sampler is not among
    them: no more samplers are released than were held and created,
    but fewer can be.  On a device that accepts the first sampler and
    refuses the shader, two frames and [dispose] create two samplers
    and release one. *)
Theorem account_after_dispose :
  (forall (cs : list Call) (L : Layer) (w : World NS),
     coherent L ->
     fst (session I message cs (L, w)) = Some tt ->
     let s := snd (dispose I (snd (session I message cs (L, w)))) in
     exists evs,
       Gpu.log (gpu (snd s)) = Gpu.log (gpu w) ++ evs
       /\ (forall k, owned k = true ->
             creations k evs + holds k L = releases k evs)
       /\ releases Gpu.Sampler evs
          <= creations Gpu.Sampler evs + holds Gpu.Sampler L)
  /\ (let frames := [Render Demo.ctx; Render Demo.ctx] in
      let s := snd (dispose Lab.python
                      (snd (session Lab.python Demo.message frames
                              (Demo.layer, Lab.world_shader_fails)))) in
      fst (session Lab.python Demo.message frames
             (Demo.layer, Lab.world_shader_fails)) = Some tt
      /\ holds Gpu.Sampler Demo.layer = 0
      /\ creations Gpu.Sampler (Gpu.log (gpu (snd s))) = 2
      /\ releases Gpu.Sampler (Gpu.log (gpu (snd s))) = 1).
Proof.
  split.
  - intros cs L w Hc _ s.
    assert (H : accounted (L, w) s).
    { subst s. eapply accounted_trans;
        [apply session_accounted|apply dispose_accounted]. }
    destruct (H Hc) as (_ & evs & Hlog & Hev & Hsm).
    cbn [fst snd] in Hlog, Hev, Hsm.
    subst s.
    destruct (LayerFacts.dispose_clears I
                (fst (snd (session I message cs (L, w))))
                (snd (snd (session I message cs (L, w))))) as (_ & HL & _).
    rewrite <- surjective_pairing in HL. rewrite HL in Hev, Hsm.
    exists evs. split; [exact Hlog|]. split.
    + intros k Hk. rewrite (Hev k Hk). destruct k; cbn; lia.
    + change (holds Gpu.Sampler (disposed _)) with 0 in Hsm. lia.
  - vm_compute. repeat split.
Qed.

End WithInterp.
End LedgerFacts.

(* ================================================================== *)
(** * Frames: the interpreter call and the blit                        *)
(* ================================================================== *)

Module FrameFacts.
Import Py Proc CPython PythonLayer Spec Along Frame Ledger.

Section WithInterp.
Context {NS : Type} (I : Interp NS) (message : Error -> string).

(** X11.  While [yetty_pygfx.render_frame] cannot be resolved, a
    visible layer stays inactive: [render] succeeds, calls neither
    [render_frame] nor the device, and leaves the function reference
    null, so that the next frame tries again.  The attempt is not
    without trace: the interpreter is as the import leaves it, and
    the exception of the failed import, or of the failed lookup, is
    pending afterwards; [render] does not clear it. *)
Theorem render_stays_inactive (ctx : Gpu.Context) (L : Layer) (w : World NS) :
  let table :=
    if _wgpu_handles_set L then bridge w
    else Bridge.mkTable None None (Some (Gpu.getDevice ctx))
                        (Some (Gpu.getQueue ctx))
                        (Bridge.render_texture_view (bridge w)) in
  let o := import_module I "yetty_pygfx" (pending w) (main_dict (py w))
                         table in
  let found := lookup I "yetty_pygfx" "render_frame" None (ns_after o) in
  _failed L = false -> _visible L = true -> _render_frame_func L = None ->
  raised o <> None \/ fst found = false ->
  let r := render I ctx (L, w) in
  fst r = Ok tt
  /\ _render_frame_func (fst (snd r)) = None
  /\ _pygfx_initialized (fst (snd r)) = _pygfx_initialized L
  /\ _wgpu_handles_set (fst (snd r)) = true
  /\ gpu (snd (snd r)) = gpu w
  /\ bridge (snd (snd r)) = bridge_after o
  /\ py (snd (snd r))
     = set_pending (match raised o with
                    | Some tb => Some tb
                    | None => snd found
                    end) (py (commit o w))
  /\ (pending (snd (snd r)) = None -> raised o = None /\ snd found = None).
Proof.
  intros table o found Hf Hv Hrf Hmiss.
  destruct L as [pay sp out ib ini fl vis bg pl sm bi rf md pi hs].
  destruct w as [p r br g f sl lgd].
  cbn in Hf, Hv, Hrf. subst fl vis rf.
  unfold pending in o. cbn in table, o.
  subst found.
  remember (lookup I "yetty_pygfx" "render_frame" None (ns_after o))
    as fd eqn:Hfd.
  destruct fd as [fnd after]. cbn [fst snd] in *.
  unfold render, bind, this, gets, ret, assign, modify, world, zoom,
    on_bridge, PyImport_ImportModule, PyObject_GetAttrString, pending.
  cbn.
  destruct hs; cbn in table, o |- *; subst table; fold o; clearbody o;
    (destruct (raised o) as [tb|] eqn:Hraised; cbn;
     [|destruct Hmiss as [Hmiss|Hmiss]; [congruence|]; subst fnd;
       rewrite ?Hraised; rewrite <- Hfd; cbn]);
    rewrite ?andb_false_r; cbn; rewrite ?Hraised;
    repeat split; try reflexivity; try congruence.
Qed.

(** X12.  A frame of the script.  [renderPygfx] reports failure when
    [render_frame] raises (the exception is printed and cleared, so
    none is pending afterwards) and when it returns an object that
    [PyObject_IsTrue] finds false.  It reports success when the
    object is found true, and also when [PyObject_IsTrue] fails on
    it: the error value -1 converts to [true], and the exception
    stays pending.  The layer itself is not changed. *)
Theorem renderPygfx_outcome (L : Layer) (w : World NS) (m a : string) :
  _pygfx_initialized L = true ->
  _render_frame_func L = Some (Attr m a) ->
  let o := call I m a (pending w) (main_dict (py w)) (bridge w) in
  let r := renderPygfx I (L, w) in
  fst r = match raised o, truthy o with
          | Some _, _ => false
          | None, No => false
          | None, Yes => true
          | None, Raises _ => true
          end
  /\ fst (snd r) = L
  /\ err_indicator (py (snd (snd r)))
     = match raised o, truthy o with
       | None, Raises tb => Some tb
       | _, _ => None
       end
  /\ main_dict (py (snd (snd r))) = ns_after o
  /\ bridge (snd (snd r)) = bridge_after o.
Proof.
  intros Hpi Hrf.
  destruct L as [pay sp out ib ini fl vis bg pl sm bi rf md pi hs].
  destruct w as [p r br g f sl lgd].
  cbn in Hpi, Hrf. subst pi rf. cbv zeta.
  unfold renderPygfx, bind, this, gets, ret, world, zoom,
    PyObject_CallObject, PyErr_Print, PyErr_Clear, on_py, commit, modify,
    pending.
  cbn.
  destruct (call I m a (err_indicator r) (main_dict r) br)
    as [ws [tb|] d' br' tr]; cbn.
  - unfold err_print. cbn. repeat split.
    destruct (sys_stderr (fold_left write_std ws r)); reflexivity.
  - destruct tr; cbn; repeat split.
Qed.

Lemma bindAndDraw_recorded (ctx : Gpu.Context) (L : Layer) (w : World NS) :
  let r := bindAndDraw ctx (L, w) in
  exists evs,
    Gpu.log (gpu (snd (snd r))) = Gpu.log (gpu w) ++ evs
    /\ recorded (fst r) (fst (snd r)) evs.
Proof.
  destruct L as [pay sp out ib ini fl vis bg pl sm bi rf md pi hs].
  destruct w as [p r br [nh o lg] f sl lgd].
  cbv zeta.
  destruct o as [|[|] [|[|] [|[|] [|[|] [|[|] [|[|] o]]]]]], bg; cbn;
    LayerFacts.log_suffix; cbn;
    first [ reflexivity | split; [reflexivity|eexists; reflexivity] ].
Qed.

Lemma createBlitPipeline_records_nothing (ctx : Gpu.Context) (L : Layer)
      (w : World NS) :
  let r := createBlitPipeline ctx (L, w) in
  exists evs,
    Gpu.log (gpu (snd (snd r))) = Gpu.log (gpu w) ++ evs
    /\ List.filter is_pass_command evs = [].
Proof.
  destruct L as [pay sp out ib ini fl vis bg pl sm bi rf md pi hs].
  destruct w as [p r br [nh o lg] f sl lgd].
  cbv zeta. destruct bi.
  - cbn. exists []. now rewrite app_nil_r.
  - destruct o as [|[|] [|[|] [|[|] [|[|] [|[|] o]]]]]; cbn;
      LayerFacts.log_suffix; reflexivity.
Qed.

(** X13.  A blit that returns [true] has recorded exactly one render
    pass: the layer's pipeline, the bind group made for this frame,
    one draw of 6 vertices and 1 instance, the end of the pass.  A
    blit that returns [false] has recorded nothing into any pass. *)
Theorem blit_records_one_draw (ctx : Gpu.Context) (L : Layer) (w : World NS) :
  let r := blitRenderTexture ctx (L, w) in
  exists evs,
    Gpu.log (gpu (snd (snd r))) = Gpu.log (gpu w) ++ evs
    /\ if fst r then
         is_some (_blit_bind_group (fst (snd r))) = true
         /\ exists p,
              List.filter is_pass_command evs
              = [Gpu.SetPipeline p (_blit_pipeline (fst (snd r)));
                 Gpu.SetBindGroup p 0 (_blit_bind_group (fst (snd r)));
                 Gpu.Draw p 6 1 0 0; Gpu.EndPass p]
       else List.filter is_pass_command evs = [].
Proof.
  cbv zeta. rewrite LayerFacts.blitRenderTexture_unfold.
  destruct (Bridge.render_texture_view (bridge w)) as [v|].
  2:{ exists []. cbn. now rewrite app_nil_r. }
  destruct (_blit_initialized L).
  - exact (bindAndDraw_recorded ctx L w).
  - destruct (createBlitPipeline_records_nothing ctx L w)
      as (evs1 & Hlog1 & Hnone).
    destruct (createBlitPipeline ctx (L, w)) as [[|] [L1 w1]];
      cbn [fst snd] in *.
    + destruct (bindAndDraw_recorded ctx L1 w1) as (evs2 & Hlog2 & Hrec).
      exists (evs1 ++ evs2). rewrite Hlog2, Hlog1, app_assoc.
      split; [reflexivity|].
      rewrite List.filter_app, Hnone. exact Hrec.
    + exists evs1. auto.
Qed.

(** With the plugin disposed, [dispose] stays out of the interpreter. *)
Lemma dispose_on_dead_plugin (L : Layer) (w : World NS) :
  Proc._initialized (plugin w) = false ->
  py (snd (snd (dispose I (L, w)))) = py w
  /\ bridge (snd (snd (dispose I (L, w)))) = bridge w.
Proof.
  destruct L as [pay sp out ib ini fl vis bg pl sm bi rf md pi hs].
  destruct w as [[i p] r br [nh o lg] f sl lgd].
  cbn. intros ->.
  unfold dispose, bind, this, gets, ret, assign, modify, world, zoom,
    on_gpu, PythonPlugin.isInitialized.
  destruct bg, pl, sm; cbn; split; reflexivity.
Qed.

(** X14.  [dispose] reaches into the interpreter only for the
    cached module, and only while the plugin is alive: it looks up
    [cleanup] and calls it when it is found.  With the plugin
    disposed or without a cached module, the interpreter and the
    bridge table are left exactly as they were.  With a cached module
    that has no [cleanup], the indicator is as the failed lookup
    leaves it (the [AttributeError] is pending and nothing clears it)
    and nothing else changes.  When [cleanup] is found, the process
    is as its call leaves it. *)
Theorem dispose_and_the_interpreter (L : Layer) (w : World NS) :
  let w' := snd (snd (dispose I (L, w))) in
  match _pygfx_module L with
  | Some md =>
      if Proc._initialized (plugin w) then
        let found :=
          lookup I (path_of md) "cleanup" (pending w) (main_dict (py w)) in
        let w1 := set_py (set_pending (snd found) (py w)) w in
        if fst found then
          let o := call I (path_of md) "cleanup" (snd found)
                        (main_dict (py w)) (bridge w) in
          py w' = py (commit o w1) /\ bridge w' = bridge_after o
        else py w' = py w1 /\ bridge w' = bridge w
      else py w' = py w /\ bridge w' = bridge w
  | None => py w' = py w /\ bridge w' = bridge w
  end.
Proof.
  destruct L as [pay sp out ib ini fl vis bg pl sm bi rf md pi hs].
  destruct w as [[i p] r br [nh o lg] f sl lgd].
  unfold dispose, bind, this, gets, ret, assign, modify, world, zoom,
    on_gpu, PythonPlugin.isInitialized, PyObject_GetAttrString,
    PyObject_CallObject, pending.
  destruct bg, pl, sm, i, rf, md as [md|]; cbn;
    try (destruct (lookup I (path_of md) "cleanup" (err_indicator r)
                          (main_dict r)) as [[|] after]; cbn);
    split; reflexivity.
Qed.

End WithInterp.
End FrameFacts.

(* ================================================================== *)
(** * The input line                                                   *)
(* ================================================================== *)

Module TypingFacts.
Import Py Proc CPython PythonLayer Spec Along Frame Ledger Typing.

Lemma set_input_buffer_twice (a b : string) (L : Layer) :
  set_input_buffer b (set_input_buffer a L) = set_input_buffer b L.
Proof. destruct L; reflexivity. Qed.

Lemma set_input_buffer_same (L : Layer) :
  set_input_buffer (_input_buffer L) L = L.
Proof. destruct L; reflexivity. Qed.

Lemma typed_cons (cp : N) (cps : list N) :
  typed (cp :: cps)
  = if (cp <? 128)%N then String (ascii_of_N cp) (typed cps) else typed cps.
Proof. unfold typed. cbn. destruct (cp <? 128)%N; reflexivity. Qed.

(** A string of 7-bit characters is typed as it is. *)
Lemma typed_codepoints (s : string) :
  seven_bit s = true -> typed (codepoints s) = s.
Proof.
  unfold seven_bit, codepoints.
  induction s as [|c s IH]; [reflexivity|].
  cbn [list_ascii_of_string List.map forallb]. intros H.
  apply andb_prop in H as [Hc Hs].
  rewrite typed_cons, Hc, ascii_N_embedding. now rewrite IH.
Qed.

Section WithInterp.
Context {NS : Type} (I : Interp NS) (message : Error -> string).

(** X15.  [onKey] consumes an event exactly when it is a key press of
    Enter or Backspace on a non-empty input buffer; an event that is
    not consumed changes nothing.  The call does not return only for
    Enter on a non-empty buffer, when [execute] does not. *)
Theorem onKey_consumes (key sc action mods : Z) (L : Layer) (w : World NS) :
  let r := onKey I message key sc action mods (L, w) in
  match fst r with
  | Some consumed =>
      consumed = (action =? 1)%Z && negb (empty (_input_buffer L))
                 && ((key =? 257)%Z || (key =? 259)%Z)
  | None =>
      (action =? 1)%Z && negb (empty (_input_buffer L)) && (key =? 257)%Z
      = true
      /\ fst (PythonPlugin.execute I (_input_buffer L) w) = None
  end
  /\ (fst r = Some false -> snd r = (L, w)).
Proof.
  destruct L as [pay sp out ib ini fl vis bg pl sm bi rf md pi hs].
  cbv zeta.
  unfold onKey, bind, this, gets, ret, assign, modify, world, zoom.
  cbn [fst snd _input_buffer _output].
  destruct (action =? 1)%Z;
    cbn [negb andb orb fst snd _input_buffer _output];
    [|split; reflexivity].
  destruct (empty ib);
    cbn [negb andb orb fst snd _input_buffer _output].
  { rewrite !andb_false_r. cbn [negb andb orb fst snd].
    split; reflexivity. }
  rewrite !andb_true_r.
  destruct (key =? 257)%Z;
    cbn [negb andb orb fst snd _input_buffer _output].
  - destruct (PythonPlugin.execute I ib w) as [[[o|e]|] w'];
      cbn [fst snd]; split; try reflexivity; try discriminate.
    split; reflexivity.
  - destruct (key =? 259)%Z; split; try reflexivity; discriminate.
Qed.

Lemma type_chars_buffer (cps : list N) (L : Layer) (w : World NS) :
  type_chars cps (L, w)
  = (set_input_buffer (_input_buffer L +:+ typed cps) L, w).
Proof.
  revert L. induction cps as [|cp cps IH]; intros L.
  - cbn. unfold typed. cbn.
    now rewrite PluginFacts.append_empty_r, set_input_buffer_same.
  - unfold type_chars in *. cbn [fold_left]. rewrite typed_cons.
    unfold onChar at 2.
    destruct (cp <? 128)%N.
    + cbn [snd bind this gets assign modify ret fst].
      unfold bind, this, gets, assign, modify, ret. cbn [fst snd].
      rewrite IH, set_input_buffer_twice. f_equal. f_equal.
      destruct L; cbn. unfold push_back.
      now rewrite PluginFacts.append_assoc.
    + cbn [snd ret]. apply IH.
Qed.

(** X16.  Typing: after any sequence of [onChar] calls the input
    buffer is what it was, followed by the characters whose codepoint
    is below 128, in order; codepoints from 128 on are dropped, and
    nothing else changes. *)
Theorem typing_appends (cps : list N) (L : Layer) (w : World NS) :
  type_chars cps (L, w)
  = (set_input_buffer (_input_buffer L +:+ typed cps) L, w)
  /\ (forallb (fun cp => (cp <? 128)%N) cps = true ->
      typed cps = string_of_list_ascii (List.map ascii_of_N cps)).
Proof.
  split; [apply type_chars_buffer|].
  intros H. unfold typed. f_equal. f_equal.
  induction cps as [|cp cps IH]; [reflexivity|].
  cbn in *. apply andb_prop in H as [Hc Hs]. rewrite Hc. now rewrite IH.
Qed.

(** X17.  A line of the REPL: typing a non-empty text of 7-bit
    characters into an empty buffer and pressing Enter hands exactly
    that text to [execute] and leaves the process as that call leaves
    it.  When the call returns, the event is consumed, the
    transcript gains the echoed line and the output, or the error
    text and a line feed, and the buffer is empty again. *)
Theorem repl_line (s : string) (sc mods : Z) (L : Layer) (w : World NS) :
  _input_buffer L = EmptyString ->
  empty s = false ->
  seven_bit s = true ->
  let r := onKey I message 257 sc 1 mods (type_chars (codepoints s) (L, w)) in
  snd (snd r) = snd (PythonPlugin.execute I s w)
  /\ match fst (PythonPlugin.execute I s w) with
     | Some result =>
         fst r = Some true
         /\ _input_buffer (fst (snd r)) = EmptyString
         /\ _output (fst (snd r))
            = _output L +:+ ">>> " +:+ s +:+ LF +:+
              match result with
              | Ok out => out
              | Err e => "Error: " +:+ message e +:+ LF
              end
     | None => fst r = None
     end.
Proof.
  intros Hbuf Hne H7. cbv zeta.
  rewrite type_chars_buffer, Hbuf, (typed_codepoints s H7).
  change (EmptyString +:+ s) with s.
  destruct L as [pay sp out ib ini fl vis bg pl sm bi rf md pi hs].
  rewrite (LayerFacts.onKey_enter I message) by exact Hne.
  cbn [_input_buffer set_input_buffer].
  destruct (fst (PythonPlugin.execute I s w)) as [result|];
    cbn; repeat split.
Qed.

End WithInterp.
End TypingFacts.

(* ================================================================== *)
(** * The transcript over a session of calls                         *)
(* ================================================================== *)

Module SessionFacts.
Import Py Proc CPython PythonLayer Spec Along Frame Ledger.

Section WithInterp.
Context {NS : Type} (I : Interp NS) (message : Error -> string).

#[local] Instance extends_refl : Reflexive (extends (NS:=NS)).
Proof.
  intros s. exists EmptyString. now rewrite PluginFacts.append_empty_r.
Qed.

#[local] Instance extends_trans : Transitive (extends (NS:=NS)).
Proof.
  intros a b c [t1 H1] [t2 H2]. exists (t1 +:+ t2).
  now rewrite H2, H1, PluginFacts.append_assoc.
Qed.

Lemma world_extends {A} (m : State (World NS) A) :
  steps extends (world m).
Proof.
  intros [L w]. unfold world, zoom. cbn [fst snd].
  destruct (m w). exists EmptyString. cbn.
  now rewrite PluginFacts.append_empty_r.
Qed.

Lemma assign_extends (f : Layer -> Layer) :
  (forall l, _output (f l) = _output l) ->
  steps (extends (NS:=NS)) (assign f).
Proof.
  intros H [L w]. exists EmptyString. cbn.
  now rewrite H, PluginFacts.append_empty_r.
Qed.

Ltac text_leaf :=
  first [ apply world_extends
        | apply assign_extends; intros []; reflexivity ].

Lemma onKey_extends (key sc action mods : Z) :
  steps extends (onKey I message key sc action mods).
Proof.
  intros [L w].
  destruct L as [pay sp out ib ini fl vis bg pl sm bi rf md pi hs].
  unfold onKey, bind, this, gets, ret, assign, modify, world, zoom.
  cbn [fst snd _input_buffer _output].
  destruct (action =? 1)%Z;
    cbn [negb andb orb fst snd _input_buffer _output].
  2:{ exists EmptyString. cbn. now rewrite PluginFacts.append_empty_r. }
  destruct (empty ib), (key =? 257)%Z, (key =? 259)%Z;
    cbn [negb andb orb fst snd _input_buffer _output];
    try (exists EmptyString; cbn; now rewrite PluginFacts.append_empty_r);
    destruct (PythonPlugin.execute I ib w) as [[[o|e]|] w'];
    cbn; first [ eexists; reflexivity
               | exists EmptyString; now rewrite PluginFacts.append_empty_r ].
Qed.

Lemma perform_extends (c : Call) :
  is_init c = false -> steps extends (perform I message c).
Proof.
  destruct c; intros H; try discriminate H; unfold perform.
  - unfold render, renderPygfx, blitRenderTexture, createBlitPipeline,
      bindAndDraw, this.
    walk_with text_leaf.
  - apply AlongFacts.steps_bind;
      [typeclasses eauto|apply onKey_extends|intros [?|]];
      apply AlongFacts.steps_ret; typeclasses eauto.
  - unfold onChar, this. walk_with text_leaf.
  - unfold dispose, this. walk_with text_leaf.
Qed.

(** X19.  The transcript only grows: after any sequence of calls
    other than [init], as far as the process gets, the layer's output
    text is what it was before, followed by what the REPL has
    appended. *)
Theorem transcript_only_grows (cs : list Call) (s : Self) :
  forallb (fun c => negb (is_init c)) cs = true ->
  exists t,
    _output (fst (snd (session I message cs s))) = _output (fst s) +:+ t.
Proof.
  change (forallb (fun c => negb (is_init c)) cs = true ->
          extends s (snd (session I message cs s))).
  revert s. induction cs as [|c cs IH]; intros s H; [reflexivity|].
  cbn in H. apply andb_prop in H as [Hc Hcs].
  apply negb_true_iff in Hc.
  cbn [session]. unfold bind.
  pose proof (perform_extends c Hc s) as H1.
  destruct (perform I message c s) as [[u|] s1]; cbn [snd] in H1.
  - exact (extends_trans _ _ _ H1 (IH s1 Hcs)).
  - exact H1.
Qed.

End WithInterp.
End SessionFacts.

(* ================================================================== *)
(** * Bringing the interpreter up and down                             *)
(* ================================================================== *)

Module LifecycleFacts.
Import Py Proc CPython Spec Host PluginLifecycle.

Lemma nul_free_app (a b : string) :
  nul_free (a +:+ b) = nul_free a && nul_free b.
Proof.
  induction a as [|c a IH]; [reflexivity|].
  rewrite PluginFacts.append_cons. cbn. rewrite IH. now rewrite andb_assoc.
Qed.

Section WithPlatform.
Context {NS : Type} (I : Interp NS) (P : Platform NS).
Context (CMAKE_BINARY_DIR : string).

(** [getPythonPackagesPath] only reads. *)
Lemma packages_path_pure (m : Machine NS) :
  snd (getPythonPackagesPath m) = m.
Proof.
  unfold getPythonPackagesPath, bind, getenv, gets, ret.
  destruct (c_str <$> environ m !! "XDG_CACHE_HOME") as [[|c r]|];
    reflexivity.
Qed.

(** X20.  The package directory.  [getPythonPackagesPath] only reads
    the environment; the path always ends in
    ["/yetty/python-packages"] and holds no NUL character; an empty
    [XDG_CACHE_HOME] counts as an unset one. *)
Theorem packages_path (w : World NS) (e : gmap string string)
        (d : gset string) (sh : list string) (lc : list Lifecycle) :
  let m := mkMachine w e d sh lc in
  snd (getPythonPackagesPath m) = m
  /\ (exists base,
        fst (getPythonPackagesPath m) = base +:+ "/yetty/python-packages")
  /\ nul_free (fst (getPythonPackagesPath m)) = true
  /\ fst (getPythonPackagesPath
            (mkMachine w (<["XDG_CACHE_HOME" := EmptyString]> e) d sh lc))
     = fst (getPythonPackagesPath
              (mkMachine w (delete "XDG_CACHE_HOME" e) d sh lc)).
Proof.
  cbv zeta.
  unfold getPythonPackagesPath, bind, getenv, gets, ret. cbn [environ fst snd].
  split; [|split; [|split]].
  - destruct (c_str <$> e !! "XDG_CACHE_HOME") as [[|c r]|]; reflexivity.
  - destruct (c_str <$> e !! "XDG_CACHE_HOME") as [[|c r]|]; cbn [fst];
      try (exists (String c r); reflexivity);
      exists (match c_str <$> e !! "HOME" with Some h => h | None => "/tmp" end
              +:+ "/.cache");
      now rewrite PluginFacts.append_assoc.
  - assert (Henv : forall k v, c_str <$> e !! k = Some v -> nul_free v = true).
    { intros k v Hv. destruct (e !! k) as [x|]; [|discriminate].
      inversion Hv. apply PluginFacts.c_str_is_nul_free. }
    assert (Hhome : nul_free (match c_str <$> e !! "HOME" with
                              | Some h => h | None => "/tmp" end) = true).
    { destruct (c_str <$> e !! "HOME") as [h|] eqn:Hh;
        [exact (Henv _ _ Hh)|reflexivity]. }
    destruct (c_str <$> e !! "XDG_CACHE_HOME") as [[|c r]|] eqn:Hx; cbn [fst];
      cbn [environ]; rewrite nul_free_app;
      [rewrite Hhome|rewrite (Henv _ _ Hx)|rewrite Hhome]; reflexivity.
  - rewrite lookup_insert_eq, lookup_delete_eq.
    cbn [fmap option_fmap option_map c_str environ fst].
    rewrite lookup_insert_ne, lookup_delete_ne by discriminate.
    reflexivity.
Qed.


(** The path is a function of the environment. *)
Lemma packages_path_env (m m' : Machine NS) :
  environ m' = environ m ->
  fst (getPythonPackagesPath m') = fst (getPythonPackagesPath m).
Proof.
  destruct m as [w e d sh lc], m' as [w' e' d' sh' lc']. cbn. intros ->.
  unfold getPythonPackagesPath, bind, getenv, gets, ret. cbn.
  destruct (c_str <$> e !! "XDG_CACHE_HOME") as [[|c r]|]; reflexivity.
Qed.

(** What one call of [setupPythonPackages] does. *)
Lemma setup_outcome (m : Machine NS) :
  let pkg := fst (getPythonPackagesPath m) in
  let cmd := c_str (installCmd CMAKE_BINARY_DIR pkg) in
  let r := setupPythonPackages P CMAKE_BINARY_DIR m in
  environ (snd r) = environ m
  /\ plugin (proc (snd r)) = plugin (proc m)
  /\ (exists t, spdlog (proc (snd r)) = spdlog (proc m) ++ t)
  /\ if bool_decide (elem_of (c_str (pkg +:+ "/pygfx")) (on_disk m))
     then fst r = true
          /\ shell (snd r) = shell m /\ on_disk (snd r) = on_disk m
     else
       let out := system P cmd
                    (union (on_disk m)
                           (list_to_set (directories_of (c_str pkg)))) in
       fst r = (fst out =? 0)%Z
       /\ shell (snd r) = shell m ++ [cmd] /\ on_disk (snd r) = snd out.
Proof.
  cbv zeta.
  pose proof (packages_path_pure m) as Hpure.
  destruct m as [w e d sh lc]. cbn [proc environ on_disk shell lifecycle] in *.
  unfold setupPythonPackages, bind.
  destruct (getPythonPackagesPath _) as [pkg m'].
  cbn [fst snd] in *. subst m'.
  unfold fs_exists, gets, ret, on_proc, zoom, log_msg, modify,
    create_directories, std_system.
  cbn [proc environ on_disk shell lifecycle fst snd set_proc].
  destruct (bool_decide (elem_of (c_str (pkg +:+ "/pygfx")) d)).
  - cbn. repeat split. eexists. reflexivity.
  - cbn.
    destruct (system P _ _) as [status disk]. cbn [fst snd].
    destruct (status =? 0)%Z; cbn;
      repeat split; eexists; rewrite <- ?app_assoc; reflexivity.
Qed.


#[local] Instance quiet_step_refl : Reflexive (quiet_step (NS:=NS)).
Proof.
  intros m. repeat split. exists []. now rewrite app_nil_r.
Qed.

#[local] Instance quiet_step_trans : Transitive (quiet_step (NS:=NS)).
Proof.
  intros a b c (H1 & H2 & H3 & H4 & H5 & t1 & H6)
         (G1 & G2 & G3 & G4 & G5 & t2 & G6).
  repeat split; try congruence.
  exists (t1 ++ t2). now rewrite G6, H6, app_assoc.
Qed.

Lemma packages_path_quiet :
  Along.steps quiet_step (getPythonPackagesPath (NS:=NS)).
Proof.
  intros m. rewrite packages_path_pure. reflexivity.
Qed.

Lemma log_quiet (l : Level) (t : string) :
  Along.steps quiet_step (on_proc (log_msg (NS:=NS) l t)).
Proof. intros m. repeat split. eexists. reflexivity. Qed.

Lemma PyRun_SimpleString_quiet (code : string) :
  Along.steps quiet_step (on_proc (PyRun_SimpleString I code)).
Proof.
  intros m. unfold on_proc, zoom, PyRun_SimpleString, bind.
  pose proof (ServiceFacts.PyRun_String_outside I code (proc m)) as H1.
  destruct (PyRun_String I code (proc m)) as [ok w1]. cbn [snd] in H1.
  assert (H2 : Frame.same_outside w1
                 (snd ((if negb ok then PyErr_Print else ret tt) w1))).
  { destruct ok; cbn [negb]; [apply ServiceFacts.same_outside_refl|].
    apply ServiceFacts.on_py_outside. }
  destruct ((if negb ok then PyErr_Print else ret tt) w1) as [u w2].
  cbn [snd] in *.
  destruct (ServiceFacts.same_outside_trans _ _ _ H1 H2)
    as (Hpl & _ & _ & Hlog & _).
  cbn. repeat split; [exact Hpl|].
  exists []. now rewrite app_nil_r.
Qed.

Ltac boot_leaf :=
  first [ apply packages_path_quiet | apply log_quiet
        | apply PyRun_SimpleString_quiet ].

(** Bringing up the interpreter in a plugin that has none. *)
Lemma initPython_fresh (m : Machine NS) :
  _py_initialized (plugin (proc m)) = false ->
  let r := initPython I P CMAKE_BINARY_DIR m in
  fst r = boot_result P
  /\ _py_initialized (plugin (proc (snd r))) = is_ok (boot_result P)
  /\ Proc._initialized (plugin (proc (snd r)))
     = Proc._initialized (plugin (proc m))
  /\ environ (snd r)
     = <["YETTY_WGPU_LIB_PATH" :=
           c_str (CMAKE_BINARY_DIR
                  +:+ "/_deps/wgpu-native/lib/libwgpu_native.so")]>
         (environ m)
  /\ lifecycle (snd r) = lifecycle m ++ boot_lifecycle P
  /\ shell (snd r) = shell m /\ on_disk (snd r) = on_disk m
  /\ (exists t, spdlog (proc (snd r)) = spdlog (proc m) ++ t).
Proof.
  intros Hflag.
  destruct m as [[[i pi] p br g f sl lgd] e d sh lc].
  cbn in Hflag. subst pi.
  unfold initPython.
  match goal with
  | |- context [bind getPythonPackagesPath ?k] =>
      set (tail := bind getPythonPackagesPath k)
  end.
  assert (Hres : Along.results (fun r => r = Ok tt) tail).
  { subst tail.
    repeat first
      [ apply AlongFacts.results_bind; intros ?
      | apply AlongFacts.results_ret; reflexivity
      | lazymatch goal with
        | |- Along.results _ (if ?b then _ else _) => destruct b
        | |- Along.results _ (let _ := _ in _) => cbv zeta
        end ]. }
  assert (Hquiet : Along.steps quiet_step tail).
  { subst tail. unfold fs_exists. walk_with boot_leaf. }
  clearbody tail.
  destruct P as [sys a b ns c dct v].
  unfold boot_result, boot_lifecycle, bind, gets, ret, on_proc,
    zoom, setenv, modify, log_msg, initialize, Py_Finalize, note,
    set_py_initialized, on_py.
  cbn [proc environ on_disk shell lifecycle fst snd set_proc plugin py
       bridge gpu fs spdlog logged _py_initialized Proc._initialized negb
       PyImport_AppendInittab PyConfig_SetString Py_InitializeFromConfig
       PyImport_AddModule PyModule_GetDict Py_GetVersion set_py].
  destruct a; cbn; [|rewrite app_nil_r; repeat split; eexists; reflexivity].
  destruct b; cbn; [|rewrite app_nil_r; repeat split; eexists; reflexivity].
  destruct ns as [ns|]; cbn;
    [|rewrite app_nil_r; repeat split; eexists; reflexivity].
  destruct c; cbn;
    [|rewrite <- ?app_assoc; repeat split; eexists; reflexivity].
  destruct dct; cbn;
    [|rewrite <- ?app_assoc; repeat split; eexists; reflexivity].
  match goal with
  | |- context [tail ?s] =>
      specialize (Hres s); specialize (Hquiet s);
      destruct (tail s) as [res m']
  end.
  cbn [fst snd] in *.
  destruct Hquiet as (Hpl & Henv & Hdisk & Hsh & Hlc & t & Hlog).
  cbn in Hpl, Henv, Hdisk, Hsh, Hlc, Hlog.
  rewrite Hpl, Henv, Hdisk, Hsh, Hlc, Hlog.
  repeat split; [exact Hres|].
  eexists. rewrite <- !app_assoc. reflexivity.
Qed.



(** The clean-up of the bridge and the base class's
    [Plugin::dispose]. *)
Context (yetty_wgpu_cleanup : State (World NS) unit).
Context (Plugin_dispose : State (World NS) (Result unit)).

Lemma plugin_dispose_unfold (w : World NS) :
  dispose yetty_wgpu_cleanup Plugin_dispose w
  = match Plugin_dispose w with
    | (Err e, w1) => (Err (Ctx "Failed to dispose PythonPlugin base" e), w1)
    | (Ok _, w1) =>
        let c := snd (yetty_wgpu_cleanup w1) in
        (Ok tt,
         mkWorld (mkPlugin false false) (py c) (bridge c) (gpu c) (fs c)
                 (spdlog c
                  ++ (if _py_initialized (plugin c)
                      then [(info, "Python interpreter cleanup complete")]
                      else []))
                 (logged c))
    end.
Proof.
  unfold dispose, bind.
  destruct (Plugin_dispose w) as [[u|e] w1]; cbn [fst snd is_ok negb];
    [|reflexivity].
  destruct (yetty_wgpu_cleanup w1) as [[] c].
  destruct c as [[i pi] p br g f sl lgd].
  unfold modify, gets, ret, set_py_initialized, set_plugin_initialized,
    log_msg.
  cbn. destruct pi; cbn; rewrite ?app_nil_r; reflexivity.
Qed.

(** X24.  [PythonPlugin::dispose].  When the base class fails to
    dispose the layers, the error is wrapped and nothing further
    happens.  Otherwise [yetty_wgpu_cleanup] runs on the process as
    the base class left it; then both flags go down and, when the
    interpreter flag was up, one line is logged.  Nothing else is
    done: the interpreter is not finalized, and the bridge table, the
    device and the files are as the clean-up left them. *)
Theorem plugin_dispose_outcome (w : World NS) :
  let b := Plugin_dispose w in
  let r := dispose yetty_wgpu_cleanup Plugin_dispose w in
  match fst b with
  | Err e =>
      r = (Err (Ctx "Failed to dispose PythonPlugin base" e), snd b)
  | Ok _ =>
      let c := snd (yetty_wgpu_cleanup (snd b)) in
      fst r = Ok tt
      /\ plugin (snd r) = mkPlugin false false
      /\ py (snd r) = py c
      /\ bridge (snd r) = bridge c
      /\ gpu (snd r) = gpu c
      /\ fs (snd r) = fs c
      /\ spdlog (snd r)
         = spdlog c
           ++ (if _py_initialized (plugin c)
               then [(info, "Python interpreter cleanup complete")]
               else [])
  end.
Proof.
  cbv zeta. rewrite plugin_dispose_unfold.
  destruct (Plugin_dispose w) as [[u|e] w1]; cbn [fst snd];
    [|reflexivity].
  repeat split.
Qed.

Lemma plugin_dispose_lowers_flags (w : World NS) :
  is_ok (fst (Plugin_dispose w)) = true ->
  plugin (snd (dispose yetty_wgpu_cleanup Plugin_dispose w))
  = mkPlugin false false.
Proof.
  rewrite plugin_dispose_unfold.
  destruct (Plugin_dispose w) as [[u|e] w1]; cbn [fst snd is_ok negb];
    [intros _; reflexivity|discriminate].
Qed.


End WithPlatform.
End LifecycleFacts.

(* ================================================================== *)
(** * Setting up the render target                                     *)
(* ================================================================== *)

Module PygfxFacts.
Import Py Proc CPython PythonLayer Spec Pygfx.

Section WithInterp.
Context {NS : Type} (I : Interp NS) (message : Error -> string).
Context (CMAKE_BINARY_DIR : string).
Context (create_texture : N -> N -> State (World NS) bool).

(** X26.  [initPygfx] does nothing on a layer whose pygfx flag is up.
    Otherwise the bridge has the device and queue before the texture
    is asked for; the pygfx flag afterwards is the result of the call
    (and down when the call does not return); the texture size is
    recorded exactly when the texture was created; and when it was
    not, the call fails without running any Python code. *)
Theorem initPygfx_outcome (ctx : Gpu.Context) (width height : N)
        (t : TextureSize) (L : Layer) (w : World NS) :
  let r := initPygfx I message CMAKE_BINARY_DIR create_texture
                     ctx width height (t, (L, w)) in
  let w0 := if _wgpu_handles_set L then w
            else set_bridge
                   (Bridge.mkTable None None (Some (Gpu.getDevice ctx))
                      (Some (Gpu.getQueue ctx))
                      (Bridge.render_texture_view (bridge w))) w in
  let tex := create_texture width height w0 in
  if _pygfx_initialized L then r = (Some true, (t, (L, w)))
  else
    _pygfx_initialized (fst (snd (snd r)))
    = match fst r with Some result => result | None => false end
    /\ _wgpu_handles_set (fst (snd (snd r))) = true
    /\ fst (snd r) = (if fst tex then mkSize width height else t)
    /\ (fst tex = false ->
        fst r = Some false /\ py (snd (snd (snd r))) = py (snd tex)).
Proof.
  destruct L as [pay sp out ib ini fl vis bg pl sm bi rf md pi hs].
  cbv zeta. cbn [_pygfx_initialized _wgpu_handles_set].
  destruct pi; [reflexivity|].
  unfold initPygfx, self, this, world, assign, zoom, bind, gets, ret, modify,
    set_texture_size, on_bridge, log_msg, PyImport_ImportModule,
    PyObject_GetAttrString, Bridge.yetty_wgpu_set_handles.
  destruct hs;
    repeat (cbv beta iota zeta delta
              [fst snd negb is_ok zoom modify gets ret set_bridge bridge
               plugin py gpu fs spdlog logged Bridge.render_texture_view
               set_wgpu_handles_set set_pygfx_module set_render_frame_func
               set_pygfx_initialized _pygfx_initialized _wgpu_handles_set];
            try match goal with
                | |- context [create_texture ?a ?b ?s] =>
                    destruct (create_texture a b s) as [[|] ?]
                | |- context [PythonPlugin.execute I ?c ?s] =>
                    destruct (PythonPlugin.execute I c s) as [[[?|?]|] ?]
                | |- context [raised (import_module I ?n ?p ?d ?b)] =>
                    destruct (raised (import_module I n p d b))
                | |- context [lookup I ?m ?a ?p ?d] =>
                    destruct (lookup I m a p d) as [[|] ?]
                end);
    repeat split; try reflexivity; congruence.
Qed.

End WithInterp.
End PygfxFacts.

(* ================================================================== *)
(** * The properties at work on the test doubles                       *)
(* ================================================================== *)

Module Witnesses.
Import Py Proc CPython PythonLayer Spec Along Frame Ledger Typing Host
  PluginLifecycle.

(** Witness for X11: the first test double has no [yetty_pygfx]; the
    exception of the failed import stays pending. *)
Lemma render_stays_inactive_witness :
  (_failed Demo.layer = false /\ _visible Demo.layer = true
   /\ _render_frame_func Demo.layer = None
   /\ raised (import_module Demo.python "yetty_pygfx" None [] Demo.no_bridge)
      = Some (no_module "yetty_pygfx"))
  /\ fst (render Demo.python Demo.ctx (Demo.layer, Demo.world)) = Ok tt
  /\ _render_frame_func
       (fst (snd (render Demo.python Demo.ctx (Demo.layer, Demo.world))))
     = None
  /\ pending (snd (snd (render Demo.python Demo.ctx (Demo.layer, Demo.world))))
     = Some (no_module "yetty_pygfx").
Proof.
  split.
  - repeat split; reflexivity.
  - destruct (FrameFacts.render_stays_inactive Demo.python Demo.ctx
                Demo.layer Demo.world)
      as (Hok & Hrf & _ & _ & _ & _ & Hpy & _);
      [reflexivity|reflexivity|reflexivity|left; discriminate|].
    split; [exact Hok|]. split; [exact Hrf|].
    unfold pending. rewrite Hpy. reflexivity.
Defined.

(** Witness for X12: a frame of the second test double succeeds; a
    frame whose result cannot be asked for its truth value counts as
    a success too and leaves the exception pending. *)
Lemma renderPygfx_outcome_witness :
  (_pygfx_initialized Demo.blitting_layer = true
   /\ _render_frame_func Demo.blitting_layer
      = Some (Attr "yetty_pygfx" "render_frame"))
  /\ fst (renderPygfx Lab.python (Demo.blitting_layer, Demo.world)) = true
  /\ fst (snd (renderPygfx Lab.python (Demo.blitting_layer, Demo.world)))
     = Demo.blitting_layer
  /\ fst (renderPygfx Lab.python
            (set_render_frame_func (Some (Attr "moody" "render_frame"))
                                   Demo.blitting_layer, Demo.world)) = true
  /\ pending (snd (snd (renderPygfx Lab.python
               (set_render_frame_func (Some (Attr "moody" "render_frame"))
                                      Demo.blitting_layer, Demo.world))))
     = Some ("ValueError: no" +:+ LF).
Proof.
  split.
  - split; reflexivity.
  - destruct (FrameFacts.renderPygfx_outcome Lab.python Demo.blitting_layer
                Demo.world "yetty_pygfx" "render_frame")
      as (Hres & HL & _); [reflexivity|reflexivity|].
    split; [exact Hres|]. split; [exact HL|].
    destruct (FrameFacts.renderPygfx_outcome Lab.python
                (set_render_frame_func (Some (Attr "moody" "render_frame"))
                                       Demo.blitting_layer)
                Demo.world "moody" "render_frame")
      as (Hres' & _ & Hpend & _); [reflexivity|reflexivity|].
    split; [exact Hres'|exact Hpend].
Defined.

(** Witness for X17: a line that prints an undefined name. *)
Lemma repl_line_witness :
  (_input_buffer Demo.layer = EmptyString
   /\ empty "print(x)" = false
   /\ seven_bit "print(x)" = true)
  /\ fst (onKey Lab.python Demo.message 257 0 1 0
            (type_chars (codepoints "print(x)") (Demo.layer, Demo.world)))
     = Some true
  /\ _input_buffer
       (fst (snd (onKey Lab.python Demo.message 257 0 1 0
                    (type_chars (codepoints "print(x)")
                                (Demo.layer, Demo.world)))))
     = EmptyString.
Proof.
  split.
  - repeat split; reflexivity.
  - destruct (TypingFacts.repl_line Lab.python Demo.message "print(x)"
                0%Z 0%Z Demo.layer Demo.world)
      as (_ & H); [reflexivity|reflexivity|reflexivity|].
    change (fst (PythonPlugin.execute Lab.python "print(x)" Demo.world))
      with (Some (Err (T:=string) (Msg "Python execution error: "))) in H.
    destruct H as (Hc & Hbuf & _).
    split; [exact Hc|exact Hbuf].
Defined.

(** Witness for X19: a character, Enter, a frame and the teardown. *)
Lemma transcript_only_grows_witness :
  forallb (fun c => negb (is_init c))
          [Char 104; Key 257 0 1 0; Render Demo.ctx; Dispose] = true
  /\ exists t,
       _output (fst (snd (session Lab.python Demo.message
                            [Char 104; Key 257 0 1 0; Render Demo.ctx; Dispose]
                            (Demo.layer, Demo.world))))
       = _output Demo.layer +:+ t.
Proof.
  split.
  - reflexivity.
  - apply (SessionFacts.transcript_only_grows Lab.python Demo.message
             [Char 104; Key 257 0 1 0; Render Demo.ctx; Dispose]
             (Demo.layer, Demo.world)).
    reflexivity.
Defined.



End Witnesses.
